(** * Faculty scraper: reconciliation, enrichment merge, runner and recorder

    A shallow embedding of the TypeScript sources

    - [src/db/repositories/researchers.ts], [jobs.ts], [directories.ts] and
      [enrichment-queue.ts]   (modules [Repo] and [...Repository])
    - [src/pipeline/steps/06-deduplicate.ts]   (module [Dedup])
    - [src/pipeline/steps/E3-merge-data.ts]    (module [Merge])
    - [src/pipeline/steps/07-persist.ts] and [08-queue-enrich.ts]
      (modules [Persist] and [QueueEnrich])
    - [src/debug/step-recorder.ts]             (module [Recorder])
    - [src/pipeline/runner.ts]                 (module [Runner])

    followed by the vocabulary of the specification ([NumberSpec],
    [DedupSpec], [MergeSpec], [RunnerSpec]), sample data ([Demo]) and the
    properties ([DedupFacts], [MergeFacts], [RunnerFacts]).

    Conventions.  An optional property [x?: T] is an [option]; SQL [NULL] is
    [None].  JavaScript numbers that hold counts and row identities are
    integers ([Z]); the confidence scores are IEEE-754 binary64 values,
    computed with the executable model of [SpecFloat].  A [string] is a
    sequence of UTF-16 code units below 256 (the Latin-1 range), on which
    [toLowerCase], [trim] and the class [\s] are modelled in full; texts
    with other characters are outside the model.  Readings of the
    clock are arguments ([now]); durations are left out.  The two stages
    that parse HTML and free text ([runStep4], [runStep5]) and the host-name
    accessor of [URL] are parameters of the development. *)

From Stdlib Require Import ZArith List String Ascii Bool Lia SpecFloat Permutation.
From Stdlib Require Import QArith Qabs Qminmax.
From stdpp Require Import base gmap strings pretty.
Import ListNotations.

Local Open Scope string_scope.
Local Open Scope list_scope.
Local Open Scope Z_scope.

(* ===================================================================== *)
(** * JavaScript values used by the sources *)
(* ===================================================================== *)

Module JS.

(** ** Strings *)

(** [if (s)] on an optional string: [undefined] and [""] are falsy. *)
Definition truthy (o : option string) : bool :=
  match o with
  | Some s => negb (String.eqb s "")
  | None => false
  end.

(** [o || undefined] (and [o || null]) on an optional string. *)
Definition or_undefined (o : option string) : option string :=
  if truthy o then o else None.

(** [a === b] on optional strings. *)
Definition opt_eqb (a b : option string) : bool :=
  match a, b with
  | Some x, Some y => String.eqb x y
  | None, None => true
  | _, _ => false
  end.

(** The lower-case mapping of Unicode on the code units below 256: the
    letters A-Z, and the Latin-1 capitals U+00C0 to U+00DE without the
    multiplication sign U+00D7, move up by 32. *)
Definition lower_ascii (c : ascii) : ascii :=
  let n := N_of_ascii c in
  if (((65 <=? n) && (n <=? 90))
      || ((192 <=? n) && (n <=? 222) && negb (n =? 215)))%N
  then ascii_of_N (n + 32) else c.

(** [s.toLowerCase()] *)
Fixpoint toLowerCase (s : string) : string :=
  match s with
  | EmptyString => EmptyString
  | String c r => String (lower_ascii c) (toLowerCase r)
  end.

(** [s.includes(sub)] *)
Fixpoint includes (s sub : string) : bool :=
  String.prefix sub s ||
  match s with
  | EmptyString => false
  | String _ r => includes r sub
  end.

Definition is_at (c : ascii) : bool := Ascii.eqb c "@"%char.

Fixpoint until_at (s : string) : string :=
  match s with
  | EmptyString => EmptyString
  | String c r => if is_at c then EmptyString else String c (until_at r)
  end.

Fixpoint after_at (s : string) : option string :=
  match s with
  | EmptyString => None
  | String c r => if is_at c then Some r else after_at r
  end.

(** [s.split('@')[1]]: the text between the first and the second [@];
    [undefined] when [s] has no [@]. *)
Definition split_at_1 (s : string) : option string :=
  option_map until_at (after_at s).

Definition is_digit (c : ascii) : bool :=
  let n := N_of_ascii c in ((48 <=? n) && (n <=? 57))%N.

(** [s.replace(/\D/g, '')] *)
Fixpoint digits (s : string) : string :=
  match s with
  | EmptyString => EmptyString
  | String c r => if is_digit c then String c (digits r) else digits r
  end.

(** [Array.from(new Set(l))]: first occurrences, in insertion order. *)
Fixpoint dedupe_from (seen l : list string) : list string :=
  match l with
  | [] => []
  | x :: r =>
      if existsb (String.eqb x) seen then dedupe_from seen r
      else x :: dedupe_from (x :: seen) r
  end.

Definition set_to_array (l : list string) : list string := dedupe_from [] l.

(** ** Numbers (binary64) *)

Definition number := spec_float.

Definition prec : Z := 53.
Definition emax : Z := 1024.

Definition of_Z (z : Z) : number :=
  match z with
  | Z0 => S754_zero false
  | Zpos p => binary_normalize prec emax (Zpos p) 0 false
  | Zneg p => binary_normalize prec emax (Zneg p) 0 true
  end.

Definition add : number -> number -> number := SFadd prec emax.
Definition mul : number -> number -> number := SFmul prec emax.
Definition div : number -> number -> number := SFdiv prec emax.

(** The decimal literal [n/d] of the source text, rounded to nearest
    even as the parser does: [lit 3 20] is the double written [0.15]. *)
Definition lit (n d : Z) : number := div (of_Z n) (of_Z d).

(** [a >= b] and [a <= b]; false when either side is NaN. *)
Definition ge (a b : number) : bool :=
  match SFcompare a b with
  | Some Gt | Some Eq => true
  | _ => false
  end.

Definition le (a b : number) : bool := SFleb a b.

(** [Math.min(a, b)] *)
Definition min (a b : number) : number :=
  match a, b with
  | S754_nan, _ | _, S754_nan => S754_nan
  | S754_zero true, S754_zero _ => a
  | S754_zero _, S754_zero true => b
  | _, _ => if SFltb b a then b else a
  end.

(** [x.toFixed(0)] for a finite [x] with [|x| < 1e21]: the integer nearest
    to [x], the larger one on a tie.  (The sources only call it on
    [confidence * 100] with [0.9 <= confidence <= 1].) *)
Definition round_half_up (x : number) : Z :=
  match x with
  | S754_finite s m e =>
      let n := if (0 <=? e) then Z.shiftl (Zpos m) e
               else Z.shiftr (Z.shiftl (Zpos m) 1 + Z.shiftl 1 (- e)) (- e + 1) in
      if s then - n else n
  | _ => 0
  end.

Definition toFixed0 (x : number) : string :=
  match x with
  | S754_nan => "NaN"
  | S754_infinity s => if s then "-Infinity" else "Infinity"
  | _ => pretty (round_half_up x)
  end.

End JS.

(* ===================================================================== *)
(** * Entity types ([src/pipeline/types.ts]) *)
(* ===================================================================== *)

Inductive EnrichmentStatus := Pending | InProgress | Complete | Failed.

(** [ParsedResearcher]: a candidate record produced by normalization. *)
Module ParsedResearcher.
Record t := mk {
  first_name : string;
  last_name : string;
  full_name : string;
  university : string;
  department : string;
  title : option string;
  email : option string;
  phone : option string;
  office : option string;
  website : option string;
  photo_url : option string;
  research_areas : option (list string);
}.
End ParsedResearcher.

(** [ResearcherRow]: one row of the [researchers] table.  The
    [research_areas] column holds the JSON text of a string array; the row
    is modelled with the array itself. *)
Module ResearcherRow.
Record t := mk {
  id : Z;
  first_name : string;
  last_name : string;
  full_name : string;
  university : option string;
  department : option string;
  title : option string;
  email : option string;
  phone : option string;
  office : option string;
  website : option string;
  photo_url : option string;
  google_scholar_url : option string;
  dblp_url : option string;
  semantic_scholar_id : option string;
  orcid : option string;
  h_index : option Z;
  citations_total : Z;
  publications_count : Z;
  research_areas : option (list string);
  bio : option string;
  source_directory_id : option Z;
  enrichment_status : EnrichmentStatus;
  enrichment_error : option string;
  last_verified : option string;
  created_at : string;
  updated_at : string;
}.
End ResearcherRow.

(** [Researcher]: the canonical record handed to the pipeline.
    [citations_total] is declared [number] in [types.ts]; the type is erased
    at run time and [test/steps/E3-merge-data.test.ts] passes records
    without it, so the field is an [option] here and [None] stands for the
    [undefined] that [mergeEnrichmentData] then reads. *)
Module Researcher.
Record t := mk {
  id : Z;
  first_name : string;
  last_name : string;
  full_name : string;
  university : option string;
  department : option string;
  title : option string;
  email : option string;
  phone : option string;
  office : option string;
  website : option string;
  photo_url : option string;
  google_scholar_url : option string;
  dblp_url : option string;
  semantic_scholar_id : option string;
  orcid : option string;
  h_index : option Z;
  citations_total : option Z;
  publications_count : Z;
  research_areas : option (list string);
  bio : option string;
  source_directory_id : option Z;
  enrichment_status : EnrichmentStatus;
  enrichment_error : option string;
  last_verified : option string;
  created_at : string;
  updated_at : string;
}.
End Researcher.

(** [Partial<Researcher>] restricted to the properties that the sources
    assign ([mergeEnrichmentData], [buildUpdateData]). *)
Module PartialResearcher.
Record t := mk {
  title : option string;
  email : option string;
  phone : option string;
  office : option string;
  website : option string;
  photo_url : option string;
  google_scholar_url : option string;
  dblp_url : option string;
  semantic_scholar_id : option string;
  orcid : option string;
  h_index : option Z;
  citations_total : option Z;
  research_areas : option (list string);
  bio : option string;
  enrichment_status : option EnrichmentStatus;
  last_verified : option string;
}.

(** The object literal [{}]. *)
Definition empty : t :=
  mk None None None None None None None None None None None None None None
     None None.
End PartialResearcher.

(* ===================================================================== *)
(** * Researchers repository ([src/db/repositories/researchers.ts]) *)
(* ===================================================================== *)

Module Repo.

(** [n || undefined] on a nullable number column. *)
Definition num_or_undefined (o : option Z) : option Z :=
  match o with
  | Some n => if n =? 0 then None else Some n
  | None => None
  end.

Definition rowToResearcher (row : ResearcherRow.t) : Researcher.t :=
  {| Researcher.id := ResearcherRow.id row;
     Researcher.first_name := ResearcherRow.first_name row;
     Researcher.last_name := ResearcherRow.last_name row;
     Researcher.full_name := ResearcherRow.full_name row;
     Researcher.university := JS.or_undefined (ResearcherRow.university row);
     Researcher.department := JS.or_undefined (ResearcherRow.department row);
     Researcher.title := JS.or_undefined (ResearcherRow.title row);
     Researcher.email := JS.or_undefined (ResearcherRow.email row);
     Researcher.phone := JS.or_undefined (ResearcherRow.phone row);
     Researcher.office := JS.or_undefined (ResearcherRow.office row);
     Researcher.website := JS.or_undefined (ResearcherRow.website row);
     Researcher.photo_url := JS.or_undefined (ResearcherRow.photo_url row);
     Researcher.google_scholar_url :=
       JS.or_undefined (ResearcherRow.google_scholar_url row);
     Researcher.dblp_url := JS.or_undefined (ResearcherRow.dblp_url row);
     Researcher.semantic_scholar_id :=
       JS.or_undefined (ResearcherRow.semantic_scholar_id row);
     Researcher.orcid := JS.or_undefined (ResearcherRow.orcid row);
     Researcher.h_index := num_or_undefined (ResearcherRow.h_index row);
     Researcher.citations_total := Some (ResearcherRow.citations_total row);
     Researcher.publications_count := ResearcherRow.publications_count row;
     Researcher.research_areas := ResearcherRow.research_areas row;
     Researcher.bio := JS.or_undefined (ResearcherRow.bio row);
     Researcher.source_directory_id :=
       num_or_undefined (ResearcherRow.source_directory_id row);
     Researcher.enrichment_status := ResearcherRow.enrichment_status row;
     Researcher.enrichment_error :=
       JS.or_undefined (ResearcherRow.enrichment_error row);
     Researcher.last_verified :=
       JS.or_undefined (ResearcherRow.last_verified row);
     Researcher.created_at := ResearcherRow.created_at row;
     Researcher.updated_at := ResearcherRow.updated_at row |}.

(** The rows of the [researchers] table.  A prepared statement's
    [.get(...)] is the first row that satisfies the [WHERE] clause, in the
    order of the index that answers the query. *)
Definition table := list ResearcherRow.t.

(** SQL [column = ?] on a nullable text column: never true on [NULL]. *)
Definition col_eqb (col : option string) (v : string) : bool :=
  match col with
  | Some c => String.eqb c v
  | None => false
  end.

Definition email_matches (email : string) (row : ResearcherRow.t) : bool :=
  col_eqb (ResearcherRow.email row) (JS.toLowerCase email).

Definition findByEmail (db : table) (email : string) : option Researcher.t :=
  option_map rowToResearcher (List.find (email_matches email) db).

Definition name_matches (fullName university department : string)
    (row : ResearcherRow.t) : bool :=
  String.eqb (ResearcherRow.full_name row) fullName
  && col_eqb (ResearcherRow.university row) university
  && (if negb (String.eqb department "")
      then col_eqb (ResearcherRow.department row) department
      else true).

(** The order of the unique index [idx_researchers_name_univ_dept] among
    the rows of one name and university: by [department], with [NULL]
    first and texts in binary order, then by row id. *)
Definition index_before (a b : ResearcherRow.t) : bool :=
  match ResearcherRow.department a, ResearcherRow.department b with
  | None, Some _ => true
  | Some _, None => false
  | None, None => ResearcherRow.id a <=? ResearcherRow.id b
  | Some x, Some y =>
      String.ltb x y
      || (String.eqb x y && (ResearcherRow.id a <=? ResearcherRow.id b))
  end.

Fixpoint index_first (rows : list ResearcherRow.t) : option ResearcherRow.t :=
  match rows with
  | [] => None
  | row :: rest =>
      match index_first rest with
      | Some other => Some (if index_before row other then row else other)
      | None => Some row
      end
  end.

(** The query is answered through [idx_researchers_name_univ_dept], on
    two or on three columns: of several rows that differ in the
    department, [.get(...)] returns the first of the index. *)
Definition findByNameAndUniversity (db : table)
    (fullName university department : string) : option Researcher.t :=
  option_map rowToResearcher
    (index_first (List.filter (name_matches fullName university department) db)).

Definition findById (db : table) (id : Z) : option Researcher.t :=
  option_map rowToResearcher
    (List.find (fun row => ResearcherRow.id row =? id) db).

End Repo.

(* ===================================================================== *)
(** * Step 6: deduplicate ([src/pipeline/steps/06-deduplicate.ts]) *)
(* ===================================================================== *)

Inductive Action := Insert | Update | Skip.

Module DedupeDecision.
Record t := mk {
  researcher : ParsedResearcher.t;
  action : Action;
  existing_id : option Z;
  match_reason : option string;
  confidence : JS.number;
}.
End DedupeDecision.

Module UpdateItem.
Record t := mk { researcher : ParsedResearcher.t; existing_id : Z }.
End UpdateItem.

Module DuplicateItem.
Record t := mk {
  researcher : ParsedResearcher.t;
  existing_id : Z;
  reason : string;
}.
End DuplicateItem.

Module Step6Stats.
Record t := mk {
  total_input : Z;
  to_insert : Z;
  to_update : Z;
  duplicates : Z;
}.
End Step6Stats.

Module Step6Input.
Record t := mk {
  researchers : list ParsedResearcher.t;
  directory_id : Z;
}.
End Step6Input.

Module Step6Output.
Record t := mk {
  to_insert : list ParsedResearcher.t;
  to_update : list UpdateItem.t;
  duplicates : list DuplicateItem.t;
  stats : Step6Stats.t;
}.
End Step6Output.

Module Dedup.

(** The literals of the source. *)
Definition c_0_5 : JS.number := JS.lit 1 2.
Definition c_0_2 : JS.number := JS.lit 1 5.
Definition c_0_1 : JS.number := JS.lit 1 10.
Definition c_0_15 : JS.number := JS.lit 3 20.
Definition c_0_05 : JS.number := JS.lit 1 20.
Definition c_0_9 : JS.number := JS.lit 9 10.
Definition c_1_0 : JS.number := JS.of_Z 1.
Definition c_100 : JS.number := JS.of_Z 100.

(** [a !== b] where [a] is a non-empty string and [b] is optional. *)
Definition differs (a : string) (b : option string) : bool :=
  negb (JS.opt_eqb (Some a) b).

(** [incoming.f && incoming.f !== existing.f] *)
Definition field_changed (inc ex : option string) : bool :=
  match inc with
  | Some a => negb (String.eqb a "") && differs a ex
  | None => false
  end.

Definition checkForChanges (incoming : ParsedResearcher.t)
    (existing : Researcher.t) : bool :=
  if field_changed (ParsedResearcher.title incoming) (Researcher.title existing)
  then true
  else if field_changed (ParsedResearcher.email incoming) (Researcher.email existing)
  then true
  else if field_changed (ParsedResearcher.phone incoming) (Researcher.phone existing)
  then true
  else if field_changed (ParsedResearcher.office incoming) (Researcher.office existing)
  then true
  else if field_changed (ParsedResearcher.website incoming) (Researcher.website existing)
  then true
  else
    match ParsedResearcher.research_areas incoming with
    | Some areas =>
        if (0 <? Z.of_nat (length areas)) then
          let existingAreas :=
            match Researcher.research_areas existing with
            | Some l => l
            | None => []
            end in
          let newAreas :=
            List.filter
              (fun a => negb (existsb (String.eqb a) existingAreas)) areas in
          (0 <? Z.of_nat (length newAreas))
        else false
    | None => false
    end.

Section WithURL.

(** [new URL(s).hostname]; [None] when the constructor throws. *)
Variable url_hostname : string -> option string.

Definition calculateMatchConfidence (incoming : ParsedResearcher.t)
    (existing : Researcher.t) : JS.number :=
  let score := c_0_5 in
  (* Boost for matching title *)
  let score :=
    match ParsedResearcher.title incoming, Researcher.title existing with
    | Some it, Some et =>
        if negb (String.eqb it "") && negb (String.eqb et "") then
          if String.eqb (JS.toLowerCase it) (JS.toLowerCase et)
          then JS.add score c_0_2
          else if JS.includes (JS.toLowerCase it) (JS.toLowerCase et)
                  || JS.includes (JS.toLowerCase et) (JS.toLowerCase it)
          then JS.add score c_0_1
          else score
        else score
    | _, _ => score
    end in
  (* Boost for matching email domain *)
  let score :=
    match ParsedResearcher.email incoming, Researcher.email existing with
    | Some ie, Some ee =>
        if negb (String.eqb ie "") && negb (String.eqb ee "") then
          let incomingDomain := JS.split_at_1 ie in
          let existingDomain := JS.split_at_1 ee in
          if JS.opt_eqb incomingDomain existingDomain
          then JS.add score c_0_15
          else score
        else score
    | _, _ => score
    end in
  (* Boost for matching phone *)
  let score :=
    match ParsedResearcher.phone incoming, Researcher.phone existing with
    | Some ip, Some ep =>
        if negb (String.eqb ip "") && negb (String.eqb ep "") then
          let incomingDigits := JS.digits ip in
          let existingDigits := JS.digits ep in
          if String.eqb incomingDigits existingDigits
          then JS.add score c_0_1
          else score
        else score
    | _, _ => score
    end in
  (* Boost for matching website domain *)
  let score :=
    match ParsedResearcher.website incoming, Researcher.website existing with
    | Some iw, Some ew =>
        if negb (String.eqb iw "") && negb (String.eqb ew "") then
          match url_hostname iw with
          | Some incomingHost =>
              match url_hostname ew with
              | Some existingHost =>
                  if String.eqb incomingHost existingHost
                  then JS.add score c_0_05
                  else score
              | None => score (* catch: ignore URL parsing errors *)
              end
          | None => score
          end
        else score
    | _, _ => score
    end in
  JS.min score c_1_0.

Definition checkDuplicate (db : Repo.table) (researcher : ParsedResearcher.t)
    (_directoryId : Z) : DedupeDecision.t :=
  let no_match :=
    {| DedupeDecision.researcher := researcher;
       DedupeDecision.action := Insert;
       DedupeDecision.existing_id := None;
       DedupeDecision.match_reason := None;
       DedupeDecision.confidence := c_1_0 |} in
  let by_name :=
    if negb (String.eqb (ParsedResearcher.university researcher) "") then
      match Repo.findByNameAndUniversity db
              (ParsedResearcher.full_name researcher)
              (ParsedResearcher.university researcher)
              (ParsedResearcher.department researcher) with
      | Some byName =>
          let confidence := calculateMatchConfidence researcher byName in
          if JS.ge confidence c_0_9 then
            let hasChanges := checkForChanges researcher byName in
            if hasChanges then
              {| DedupeDecision.researcher := researcher;
                 DedupeDecision.action := Update;
                 DedupeDecision.existing_id := Some (Researcher.id byName);
                 DedupeDecision.match_reason :=
                   Some ("Name+university match ("
                         +:+ JS.toFixed0 (JS.mul confidence c_100)
                         +:+ "% confidence)");
                 DedupeDecision.confidence := confidence |}
            else
              {| DedupeDecision.researcher := researcher;
                 DedupeDecision.action := Skip;
                 DedupeDecision.existing_id := Some (Researcher.id byName);
                 DedupeDecision.match_reason :=
                   Some "Exact name+university match";
                 DedupeDecision.confidence := confidence |}
          else no_match
      | None => no_match
      end
    else no_match in
  (* First, check by email (strongest match) *)
  match ParsedResearcher.email researcher with
  | Some email =>
      if negb (String.eqb email "") then
        match Repo.findByEmail db email with
        | Some byEmail =>
            let hasChanges := checkForChanges researcher byEmail in
            if hasChanges then
              {| DedupeDecision.researcher := researcher;
                 DedupeDecision.action := Update;
                 DedupeDecision.existing_id := Some (Researcher.id byEmail);
                 DedupeDecision.match_reason :=
                   Some "Email match with data changes";
                 DedupeDecision.confidence := c_1_0 |}
            else
              {| DedupeDecision.researcher := researcher;
                 DedupeDecision.action := Skip;
                 DedupeDecision.existing_id := Some (Researcher.id byEmail);
                 DedupeDecision.match_reason := Some "Exact email match";
                 DedupeDecision.confidence := c_1_0 |}
        | None => by_name
        end
      else by_name
  | None => by_name
  end.

(** The four arrays that the loop of [deduplicate] pushes to. *)
Record Acc := mkAcc {
  decisions : list DedupeDecision.t;
  toInsert : list ParsedResearcher.t;
  toUpdate : list UpdateItem.t;
  duplicates : list DuplicateItem.t;
}.

(** [if (decision.existing_id)]: a number is truthy unless it is 0. *)
Definition truthy_id (o : option Z) : option Z :=
  match o with
  | Some id => if id =? 0 then None else Some id
  | None => None
  end.

(** One iteration of the [for ... of input.researchers] loop. *)
Definition loop_body (db : Repo.table) (directory_id : Z) (acc : Acc)
    (researcher : ParsedResearcher.t) : Acc :=
  let decision := checkDuplicate db researcher directory_id in
  let decisions' := decisions acc ++ [decision] in
  match DedupeDecision.action decision with
  | Insert =>
      mkAcc decisions' (toInsert acc ++ [researcher]) (toUpdate acc)
            (duplicates acc)
  | Update =>
      match truthy_id (DedupeDecision.existing_id decision) with
      | Some id =>
          mkAcc decisions' (toInsert acc)
                (toUpdate acc ++ [UpdateItem.mk researcher id])
                (duplicates acc)
      | None => mkAcc decisions' (toInsert acc) (toUpdate acc) (duplicates acc)
      end
  | Skip =>
      match truthy_id (DedupeDecision.existing_id decision) with
      | Some id =>
          mkAcc decisions' (toInsert acc) (toUpdate acc)
                (duplicates acc ++
                 [DuplicateItem.mk researcher id
                    (if JS.truthy (DedupeDecision.match_reason decision)
                     then default "" (DedupeDecision.match_reason decision)
                     else "Exact duplicate")])
      | None => mkAcc decisions' (toInsert acc) (toUpdate acc) (duplicates acc)
      end
  end.

Definition run_loop (db : Repo.table) (directory_id : Z)
    (researchers : list ParsedResearcher.t) : Acc :=
  fold_left (loop_body db directory_id) researchers (mkAcc [] [] [] []).

Definition len {A} (l : list A) : Z := Z.of_nat (length l).

Definition deduplicate (db : Repo.table) (input : Step6Input.t)
    : Step6Output.t :=
  let acc := run_loop db (Step6Input.directory_id input)
                      (Step6Input.researchers input) in
  {| Step6Output.to_insert := toInsert acc;
     Step6Output.to_update := toUpdate acc;
     Step6Output.duplicates := duplicates acc;
     Step6Output.stats :=
       {| Step6Stats.total_input := len (Step6Input.researchers input);
          Step6Stats.to_insert := len (toInsert acc);
          Step6Stats.to_update := len (toUpdate acc);
          Step6Stats.duplicates := len (duplicates acc) |} |}.

Definition runStep6 := deduplicate.

End WithURL.

End Dedup.

(* ===================================================================== *)
(** * Step E3: merge enrichment data ([src/pipeline/steps/E3-merge-data.ts]) *)
(* ===================================================================== *)

(** [Omit<Publication, 'id' | 'created_at' | 'updated_at'>] *)
Module PublicationInput.
Record t := mk {
  title : string;
  authors : option (list string);
  venue : option string;
  venue_type : option string;
  year : option Z;
  doi : option string;
  url : option string;
  abstract : option string;
  citations : Z;
  source : option string;
  source_id : option string;
}.
End PublicationInput.

(** [EnrichedData].  [publications] is read as [enriched.publications || []]
    and the tests leave it out, hence the [option]. *)
Module EnrichedData.
Record t := mk {
  publications : option (list PublicationInput.t);
  h_index : option Z;
  citations_total : option Z;
  research_areas : option (list string);
  bio : option string;
  google_scholar_url : option string;
  dblp_url : option string;
  semantic_scholar_id : option string;
  orcid : option string;
}.
End EnrichedData.

Module StepE3Input.
Record t := mk { existing : Researcher.t; enriched : EnrichedData.t }.
End StepE3Input.

(** The values stored in the [unknown] slots of a [MergeConflict]. *)
Inductive JSValue :=
| VUndefined
| VNumber (n : Z)
| VStrings (l : list string).

Inductive Resolution := KeepExisting | UseNew | MergeBoth.

Module MergeConflict.
Record t := mk {
  field : string;
  existing_value : JSValue;
  new_value : JSValue;
  resolution : Resolution;
}.
End MergeConflict.

Module StepE3Output.
Record t := mk {
  merged : PartialResearcher.t;
  publications_to_add : list PublicationInput.t;
  conflicts : list MergeConflict.t;
  confidence : JS.number;
}.
End StepE3Output.

Module Merge.

Definition c_0_5 : JS.number := JS.lit 1 2.
Definition c_0_1 : JS.number := JS.lit 1 10.
Definition c_0_2 : JS.number := JS.lit 1 5.
Definition c_1_0 : JS.number := JS.of_Z 1.

Definition num_value (o : option Z) : JSValue :=
  match o with
  | Some n => VNumber n
  | None => VUndefined
  end.

(** [a > b] on numbers where [b] may be [undefined] (then [NaN]: false). *)
Definition gt_opt (a : Z) (b : option Z) : bool :=
  match b with
  | Some n => n <? a
  | None => false
  end.

(** [b !== a] where [b] may be [undefined]. *)
Definition neq_opt (b : option Z) (a : Z) : bool :=
  match b with
  | Some n => negb (n =? a)
  | None => true
  end.

(** [if (n)] on an optional number. *)
Definition truthy_num (o : option Z) : bool :=
  match o with
  | Some n => negb (n =? 0)
  | None => false
  end.

(** [if (enriched.f && !existing.f) merged.f = enriched.f] *)
Definition adopt_if_missing (new old : option string) : option string :=
  if JS.truthy new && negb (JS.truthy old) then new else None.

(** [mergeEnrichmentData]; [now] is [new Date().toISOString()]. *)
Definition mergeEnrichmentData (now : string) (input : StepE3Input.t)
    : StepE3Output.t :=
  let existing := StepE3Input.existing input in
  let enriched := StepE3Input.enriched input in
  let conflicts : list MergeConflict.t := [] in
  let publications_to_add :=
    match EnrichedData.publications enriched with
    | Some l => l
    | None => []
    end in
  (* Merge h-index (take higher value) *)
  let '(conflicts, merged_h_index) :=
    match EnrichedData.h_index enriched with
    | Some new =>
        match Researcher.h_index existing with
        | Some old =>
            if negb (old =? new) then
              let useNew := old <? new in
              (conflicts ++
                 [{| MergeConflict.field := "h_index";
                     MergeConflict.existing_value := VNumber old;
                     MergeConflict.new_value := VNumber new;
                     MergeConflict.resolution :=
                       if useNew then UseNew else KeepExisting |}],
               if useNew then Some new else None)
            else (conflicts, None)
        | None => (conflicts, Some new)
        end
    | None => (conflicts, None)
    end in
  (* Merge citations (take higher value) *)
  let '(conflicts, merged_citations_total) :=
    match EnrichedData.citations_total enriched with
    | Some new =>
        if neq_opt (Researcher.citations_total existing) new then
          let useNew := gt_opt new (Researcher.citations_total existing) in
          (conflicts ++
             [{| MergeConflict.field := "citations_total";
                 MergeConflict.existing_value :=
                   num_value (Researcher.citations_total existing);
                 MergeConflict.new_value := VNumber new;
                 MergeConflict.resolution :=
                   if useNew then UseNew else KeepExisting |}],
           if useNew then Some new else None)
        else (conflicts, None)
    | None => (conflicts, None)
    end in
  (* Merge research areas (combine and dedupe) *)
  let '(conflicts, merged_research_areas) :=
    match EnrichedData.research_areas enriched with
    | Some new_areas =>
        if 0 <? Z.of_nat (length new_areas) then
          let existingAreas :=
            match Researcher.research_areas existing with
            | Some l => l
            | None => []
            end in
          let mergedAreas := JS.set_to_array (existingAreas ++ new_areas) in
          (if 0 <? Z.of_nat (length existingAreas)
           then conflicts ++
                  [{| MergeConflict.field := "research_areas";
                      MergeConflict.existing_value := VStrings existingAreas;
                      MergeConflict.new_value := VStrings new_areas;
                      MergeConflict.resolution := MergeBoth |}]
           else conflicts,
           Some mergedAreas)
        else (conflicts, None)
    | None => (conflicts, None)
    end in
  let merged :=
    {| PartialResearcher.title := None;
       PartialResearcher.email := None;
       PartialResearcher.phone := None;
       PartialResearcher.office := None;
       PartialResearcher.website := None;
       PartialResearcher.photo_url := None;
       (* Merge URLs (prefer new if missing) *)
       PartialResearcher.google_scholar_url :=
         adopt_if_missing (EnrichedData.google_scholar_url enriched)
                          (Researcher.google_scholar_url existing);
       PartialResearcher.dblp_url :=
         adopt_if_missing (EnrichedData.dblp_url enriched)
                          (Researcher.dblp_url existing);
       PartialResearcher.semantic_scholar_id :=
         adopt_if_missing (EnrichedData.semantic_scholar_id enriched)
                          (Researcher.semantic_scholar_id existing);
       PartialResearcher.orcid :=
         adopt_if_missing (EnrichedData.orcid enriched)
                          (Researcher.orcid existing);
       PartialResearcher.h_index := merged_h_index;
       PartialResearcher.citations_total := merged_citations_total;
       PartialResearcher.research_areas := merged_research_areas;
       (* Merge bio (prefer new if missing) *)
       PartialResearcher.bio :=
         adopt_if_missing (EnrichedData.bio enriched) (Researcher.bio existing);
       (* Update enrichment status *)
       PartialResearcher.enrichment_status := Some Complete;
       PartialResearcher.last_verified := Some now |} in
  (* Calculate confidence *)
  let confidence := c_0_5 in
  let confidence :=
    if truthy_num (PartialResearcher.h_index merged)
    then JS.add confidence c_0_1 else confidence in
  let confidence :=
    if truthy_num (PartialResearcher.citations_total merged)
    then JS.add confidence c_0_1 else confidence in
  let confidence :=
    match PartialResearcher.research_areas merged with
    | Some _ => JS.add confidence c_0_1
    | None => confidence
    end in
  let confidence :=
    if 0 <? Z.of_nat (length publications_to_add)
    then JS.add confidence c_0_2 else confidence in
  let confidence := JS.min confidence c_1_0 in
  {| StepE3Output.merged := merged;
     StepE3Output.publications_to_add := publications_to_add;
     StepE3Output.conflicts := conflicts;
     StepE3Output.confidence := confidence |}.

Definition runStepE3 := mergeEnrichmentData.

End Merge.

(* ===================================================================== *)
(** * Stage input and output types of the primary pipeline *)
(* ===================================================================== *)

Inductive ScrapeMethod := Firecrawl | Playwright | Hybrid.

Module Selectors.
Record t := mk {
  card : option string;
  name : option string;
  title : option string;
  email : option string;
  phone : option string;
  office : option string;
  website : option string;
  photo : option string;
  research_areas : option string;
}.
Definition empty : t := mk None None None None None None None None None.
End Selectors.

Module ScrollConfig.
Record t := mk { max_scrolls : option Z; scroll_delay_ms : option Z }.
End ScrollConfig.

Module ScrapeConfig.
Record t := mk {
  selectors : option Selectors.t;
  load_more_selector : option string;
  scroll_to_load : option bool;
  scroll_config : option ScrollConfig.t;
  pagination_type : option string;
  filter_selector : option string;
  filter_value : option string;
  wait_after_load_ms : option Z;
}.
End ScrapeConfig.

Module Directory.
Record t := mk {
  id : Z;
  university : string;
  department : string;
  directory_url : string;
  profile_url_pattern : option string;
  scrape_method : ScrapeMethod;
  scrape_config : option ScrapeConfig.t;
  is_active : bool;
  last_scraped : option string;
  records_last_scrape : Z;
  created_at : string;
  updated_at : string;
}.
End Directory.

Module LoadMoreConfig.
Record t := mk {
  selector : string;
  max_clicks : Z;
  wait_between_clicks_ms : Z;
}.
End LoadMoreConfig.

Module Step1Output.
Record t := mk {
  directory : Directory.t;
  url : string;
  scrape_method : ScrapeMethod;
  selectors : Selectors.t;
  load_more_config : option LoadMoreConfig.t;
  scroll_config : option ScrollConfig.t;
  use_step0_html : bool;
}.
End Step1Output.

Module Step2Output.
Record t := mk {
  html : string;
  markdown : option string;
  links : list string;
  screenshot_path : option string;
  fetch_time_ms : Z;
  from_cache : bool;
}.
End Step2Output.

Module Step3Output.
Record t := mk {
  final_html : string;
  clicks_performed : Z;
  scroll_distance : Z;
  screenshots : list string;
  dynamic_content_found : bool;
}.
End Step3Output.

Module Step4Input.
Record t := mk { html : string; selectors : Selectors.t }.
End Step4Input.

Module RawCard.
Record t := mk {
  index : Z;
  outer_html : string;
  name_text : option string;
  title_text : option string;
  email_text : option string;
  phone_text : option string;
  office_text : option string;
  website_url : option string;
  photo_url : option string;
  research_areas_text : option string;
  profile_link : option string;
}.
End RawCard.

Module ExtractionStats.
Record t := mk {
  total_cards : Z;
  cards_with_name : Z;
  cards_with_email : Z;
  cards_with_title : Z;
  cards_with_website : Z;
}.
End ExtractionStats.

Module Step4Output.
Record t := mk {
  raw_cards : list RawCard.t;
  extraction_stats : ExtractionStats.t;
}.
End Step4Output.

Module Step5Input.
Record t := mk {
  raw_cards : list RawCard.t;
  university : string;
  department : string;
}.
End Step5Input.

Module ParseError.
Record t := mk {
  card_index : Z;
  field : string;
  error : string;
  raw_value : option string;
}.
End ParseError.

Module NormalizationStats.
Record t := mk {
  total_parsed : Z;
  emails_normalized : Z;
  names_split : Z;
  titles_standardized : Z;
}.
End NormalizationStats.

Module Step5Output.
Record t := mk {
  researchers : list ParsedResearcher.t;
  parse_errors : list ParseError.t;
  normalization_stats : NormalizationStats.t;
}.
End Step5Output.

Module Step7Input.
Record t := mk {
  to_insert : list ParsedResearcher.t;
  to_update : list UpdateItem.t;
  job_id : string;
  directory_id : Z;
}.
End Step7Input.

Module JobStats.
Record t := mk {
  records_created : Z;
  records_updated : Z;
  records_skipped : Z;
}.
End JobStats.

Module Step7Output.
Record t := mk {
  inserted_ids : list Z;
  updated_ids : list Z;
  job_stats : JobStats.t;
}.
End Step7Output.

Module Step8Input.
Record t := mk { researcher_ids : list Z; priority : option Z }.
End Step8Input.

Module QueuePosition.
Record t := mk { researcher_id : Z; position : Z }.
End QueuePosition.

Module Step8Output.
Record t := mk {
  queued_count : Z;
  already_queued : Z;
  queue_positions : list QueuePosition.t;
}.
End Step8Output.

Inductive ResultStatus := RSuccess | RFailed.

(** [ScrapeResult]; [duration_seconds] is a wall-clock difference and is
    left out. *)
Module ScrapeResult.
Record t := mk {
  job_id : string;
  status : ResultStatus;
  records_found : Z;
  records_created : Z;
  records_updated : Z;
  errors : option (list string);
}.
End ScrapeResult.

Inductive Mode := Full | Test.

Module PipelineOptions.
Record t := mk {
  mode : Mode;
  debug : option bool;
  stopAfterStep : option string;
  dryRun : option bool;
}.
End PipelineOptions.

(* ===================================================================== *)
(** * The persistent store and the debug directory *)
(* ===================================================================== *)

Inductive JobStatus := JPending | JRunning | JSuccess | JFailed | JCancelled.

Inductive ScrapeType := STFull | STIncremental | STVerify | STTest.

Module JobRow.
Record t := mk {
  job_id : string;
  directory_id : Z;
  scrape_type : ScrapeType;
  status : JobStatus;
  current_step : option string;
  records_found : Z;
  records_created : Z;
  records_updated : Z;
  records_skipped : Z;
  error_message : option string;
  debug_path : option string;
}.
End JobRow.

Inductive QueueStatus := QPending | QInProgress | QComplete | QFailed | QSkipped.

Module QueueRow.
Record t := mk {
  id : Z;
  researcher_id : Z;
  priority : Z;
  attempts : Z;
  last_attempt : option string;
  next_attempt : option string;
  status : QueueStatus;
  error_message : option string;
  created_at : string;
  updated_at : string;
}.
End QueueRow.

(** What the recorder serialises.  [JSON.stringify] followed by
    [JSON.parse] is the identity on these values, so a file holds the value
    itself. *)
Inductive Artifact :=
| AEmptyObject                                (* the literal [{}] *)
| ANull
| AText (s : string)
| AStep1Output (o : Step1Output.t)
| AStep2Output (o : Step2Output.t)
| AStep3Output (o : Step3Output.t)
| AStep4Input (i : Step4Input.t)
| AStep4Output (o : Step4Output.t)
| AStep5Input (i : Step5Input.t)
| AStep5Output (o : Step5Output.t)
| AStep6Input (i : Step6Input.t)
| AStep6Output (o : Step6Output.t)
| AStep7Input (i : Step7Input.t)
| AStep7Output (o : Step7Output.t)
| AStep8Input (i : Step8Input.t)
| AStep8Output (o : Step8Output.t)
| AErrorReport (message : string) (input : Artifact).

Module StepOutputRow.
Record t := mk {
  job_id : string;
  step_name : string;
  input_data : Artifact;
  output_data : Artifact;
  success : bool;
  error_message : option string;
}.
End StepOutputRow.

(** [StepRecording] without its clock readings. *)
Module StepRecording.
Record t := mk {
  stepName : string;
  input : Artifact;
  output : option Artifact;
  error : option string;
  success : bool;
}.
End StepRecording.

Module JobRecording.
Record t := mk {
  jobId : string;
  directoryId : option Z;
  steps : list StepRecording.t;
}.
End JobRecording.

Inductive File :=
| FJson (a : Artifact)
| FSummary (r : JobRecording.t).

(** The mutable world of one run: the SQLite tables, the debug directory,
    and the objects that [runPipeline] allocates (the recorder's
    [recording] and [currentStep], the local [errors] array).  The
    constraints of the schema are checked where the modelled statements
    can violate them: the two unique indexes and the foreign key
    [source_directory_id] of [researchers], the unique column and the
    foreign key [researcher_id] of [enrichment_queue], and the foreign key
    [job_id] of [step_outputs] ([connection.ts] turns the foreign keys
    on).  The job row of [scrape_jobs] is inserted for a directory that
    was just read and under an identifier drawn by [uuidv4()]. *)
Module State.
Record t := mk {
  researchers : Repo.table;
  researchers_seq : Z;
  enrichment_queue : list QueueRow.t;
  enrichment_queue_seq : Z;
  directories : list Directory.t;
  scrape_jobs : list JobRow.t;
  step_outputs : list StepOutputRow.t;
  files : gmap string File;
  recording : JobRecording.t;
  currentStep : option StepRecording.t;
  errors : list string;
}.

Definition set_researchers (v : Repo.table) (s : t) : t :=
  mk v (researchers_seq s) (enrichment_queue s) (enrichment_queue_seq s)
     (directories s) (scrape_jobs s) (step_outputs s) (files s)
     (recording s) (currentStep s) (errors s).
Definition set_researchers_seq (v : Z) (s : t) : t :=
  mk (researchers s) v (enrichment_queue s) (enrichment_queue_seq s)
     (directories s) (scrape_jobs s) (step_outputs s) (files s)
     (recording s) (currentStep s) (errors s).
Definition set_enrichment_queue (v : list QueueRow.t) (s : t) : t :=
  mk (researchers s) (researchers_seq s) v (enrichment_queue_seq s)
     (directories s) (scrape_jobs s) (step_outputs s) (files s)
     (recording s) (currentStep s) (errors s).
Definition set_enrichment_queue_seq (v : Z) (s : t) : t :=
  mk (researchers s) (researchers_seq s) (enrichment_queue s) v
     (directories s) (scrape_jobs s) (step_outputs s) (files s)
     (recording s) (currentStep s) (errors s).
Definition set_directories (v : list Directory.t) (s : t) : t :=
  mk (researchers s) (researchers_seq s) (enrichment_queue s)
     (enrichment_queue_seq s) v (scrape_jobs s) (step_outputs s) (files s)
     (recording s) (currentStep s) (errors s).
Definition set_scrape_jobs (v : list JobRow.t) (s : t) : t :=
  mk (researchers s) (researchers_seq s) (enrichment_queue s)
     (enrichment_queue_seq s) (directories s) v (step_outputs s) (files s)
     (recording s) (currentStep s) (errors s).
Definition set_step_outputs (v : list StepOutputRow.t) (s : t) : t :=
  mk (researchers s) (researchers_seq s) (enrichment_queue s)
     (enrichment_queue_seq s) (directories s) (scrape_jobs s) v (files s)
     (recording s) (currentStep s) (errors s).
Definition set_files (v : gmap string File) (s : t) : t :=
  mk (researchers s) (researchers_seq s) (enrichment_queue s)
     (enrichment_queue_seq s) (directories s) (scrape_jobs s)
     (step_outputs s) v (recording s) (currentStep s) (errors s).
Definition set_recording (v : JobRecording.t) (s : t) : t :=
  mk (researchers s) (researchers_seq s) (enrichment_queue s)
     (enrichment_queue_seq s) (directories s) (scrape_jobs s)
     (step_outputs s) (files s) v (currentStep s) (errors s).
Definition set_currentStep (v : option StepRecording.t) (s : t) : t :=
  mk (researchers s) (researchers_seq s) (enrichment_queue s)
     (enrichment_queue_seq s) (directories s) (scrape_jobs s)
     (step_outputs s) (files s) (recording s) v (errors s).
Definition set_errors (v : list string) (s : t) : t :=
  mk (researchers s) (researchers_seq s) (enrichment_queue s)
     (enrichment_queue_seq s) (directories s) (scrape_jobs s)
     (step_outputs s) (files s) (recording s) (currentStep s) v.
End State.

(** ** Computations that read and write the world and may throw *)

Inductive Outcome (A : Type) :=
| Returned (a : A)
| Thrown (message : string).
Arguments Returned {A} a.
Arguments Thrown {A} message.

Definition Eff (A : Type) : Type := State.t -> Outcome A * State.t.

Definition ret {A} (a : A) : Eff A := fun s => (Returned a, s).

Definition throw {A} (message : string) : Eff A := fun s => (Thrown message, s).

Definition bind {A B} (c : Eff A) (k : A -> Eff B) : Eff B :=
  fun s =>
    match c s with
    | (Returned a, s') => k a s'
    | (Thrown m, s') => (Thrown m, s')
    end.

(** [try { c } catch (e) { h e.message }] *)
Definition try_catch {A} (c : Eff A) (h : string -> Eff A) : Eff A :=
  fun s =>
    match c s with
    | (Returned a, s') => (Returned a, s')
    | (Thrown m, s') => h m s'
    end.

Definition gets {A} (f : State.t -> A) : Eff A := fun s => (Returned (f s), s).

Definition modify (f : State.t -> State.t) : Eff unit :=
  fun s => (Returned tt, f s).

(** A pure function that may throw, run as a computation. *)
Definition lift {A} (o : Outcome A) : Eff A := fun s => (o, s).

Declare Scope eff_scope.
Delimit Scope eff_scope with eff.
Notation "'do' x <- c ; k" := (bind c (fun x => k))
  (at level 10, x name, c at level 100, k at level 200) : eff_scope.
Notation "'do' ' p <- c ; k" := (bind c (fun x => match x with p => k end))
  (at level 10, p pattern, c at level 100, k at level 200) : eff_scope.
Notation "'run' c ; k" := (bind c (fun _ => k))
  (at level 10, c at level 100, k at level 200) : eff_scope.
Local Open Scope eff_scope.

(** [for (const x of l) body x] *)
Fixpoint for_each {A} (l : list A) (body : A -> Eff unit) : Eff unit :=
  match l with
  | [] => ret tt
  | x :: r => run body x; for_each r body
  end.

(* ===================================================================== *)
(** * Repositories that write *)
(* ===================================================================== *)

Module ResearchersRepository.

Definition str_or_null (s : string) : option string :=
  if String.eqb s "" then None else Some s.

Definition max_id (db : Repo.table) : Z :=
  fold_right (fun row m => Z.max (ResearcherRow.id row) m) 0 db.

(** The two unique indexes of the table: [email] where it is not null, and
    [(full_name, university, department)], in which a [NULL] column never
    collides.  [self] is the row being rewritten by an [UPDATE]. *)
Definition collides (self : option Z) (new other : ResearcherRow.t) : bool :=
  negb (match self with
        | Some id => ResearcherRow.id other =? id
        | None => false
        end)
  && ((match ResearcherRow.email new with
       | Some e => Repo.col_eqb (ResearcherRow.email other) e
       | None => false
       end)
      || (String.eqb (ResearcherRow.full_name new) (ResearcherRow.full_name other)
          && (match ResearcherRow.university new with
              | Some u => Repo.col_eqb (ResearcherRow.university other) u
              | None => false
              end)
          && (match ResearcherRow.department new with
              | Some d => Repo.col_eqb (ResearcherRow.department other) d
              | None => false
              end))).

Definition violates_unique (db : Repo.table) (self : option Z)
    (new : ResearcherRow.t) : bool :=
  existsb (collides self new) db.

Definition new_row (now : string) (id : Z) (data : ParsedResearcher.t)
    (source_directory_id : option Z) : ResearcherRow.t :=
  {| ResearcherRow.id := id;
     ResearcherRow.first_name := ParsedResearcher.first_name data;
     ResearcherRow.last_name := ParsedResearcher.last_name data;
     ResearcherRow.full_name := ParsedResearcher.full_name data;
     ResearcherRow.university := str_or_null (ParsedResearcher.university data);
     ResearcherRow.department := str_or_null (ParsedResearcher.department data);
     ResearcherRow.title := JS.or_undefined (ParsedResearcher.title data);
     ResearcherRow.email :=
       JS.or_undefined (option_map JS.toLowerCase (ParsedResearcher.email data));
     ResearcherRow.phone := JS.or_undefined (ParsedResearcher.phone data);
     ResearcherRow.office := JS.or_undefined (ParsedResearcher.office data);
     ResearcherRow.website := JS.or_undefined (ParsedResearcher.website data);
     ResearcherRow.photo_url := JS.or_undefined (ParsedResearcher.photo_url data);
     ResearcherRow.google_scholar_url := None;
     ResearcherRow.dblp_url := None;
     ResearcherRow.semantic_scholar_id := None;
     ResearcherRow.orcid := None;
     ResearcherRow.h_index := None;
     ResearcherRow.citations_total := 0;
     ResearcherRow.publications_count := 0;
     ResearcherRow.research_areas := ParsedResearcher.research_areas data;
     ResearcherRow.bio := None;
     ResearcherRow.source_directory_id :=
       Repo.num_or_undefined source_directory_id;
     ResearcherRow.enrichment_status := Pending;
     ResearcherRow.enrichment_error := None;
     ResearcherRow.last_verified := None;
     ResearcherRow.created_at := now;
     ResearcherRow.updated_at := now |}.

(** The foreign key of [researchers.source_directory_id]: a value that
    is not [NULL] is the identity of a directory. *)
Definition references_directory (s : State.t) (row : ResearcherRow.t) : bool :=
  match ResearcherRow.source_directory_id row with
  | Some d => existsb (fun dir => Directory.id dir =? d) (State.directories s)
  | None => true
  end.

(** [create]: the [INSERT] throws on a unique-index violation, and at the
    end of the statement on a violated foreign key; it then leaves the
    table and its identity counter as they were. *)
Definition create (now : string) (data : ParsedResearcher.t)
    (source_directory_id : option Z) : Eff Researcher.t :=
  fun s =>
    let id := Z.max (State.researchers_seq s) (max_id (State.researchers s)) + 1 in
    let row := new_row now id data source_directory_id in
    if violates_unique (State.researchers s) None row
    then (Thrown "UNIQUE constraint failed", s)
    else if negb (references_directory s row)
    then (Thrown "FOREIGN KEY constraint failed", s)
    else
      (Returned (Repo.rowToResearcher row),
       State.set_researchers_seq id
         (State.set_researchers (State.researchers s ++ [row]) s)).

Definition set_str (new : option string) (old : option string) : option string :=
  match new with
  | Some v => Some v
  | None => old
  end.

Definition set_num (new : option Z) (old : Z) : Z :=
  match new with
  | Some v => v
  | None => old
  end.

(** The [SET] clause built by [update] from the defined properties. *)
Definition apply_update (now : string) (data : PartialResearcher.t)
    (row : ResearcherRow.t) : ResearcherRow.t :=
  {| ResearcherRow.id := ResearcherRow.id row;
     ResearcherRow.first_name := ResearcherRow.first_name row;
     ResearcherRow.last_name := ResearcherRow.last_name row;
     ResearcherRow.full_name := ResearcherRow.full_name row;
     ResearcherRow.university := ResearcherRow.university row;
     ResearcherRow.department := ResearcherRow.department row;
     ResearcherRow.title :=
       set_str (PartialResearcher.title data) (ResearcherRow.title row);
     ResearcherRow.email :=
       set_str (option_map (fun e => if String.eqb e "" then e
                                     else JS.toLowerCase e)
                           (PartialResearcher.email data))
               (ResearcherRow.email row);
     ResearcherRow.phone :=
       set_str (PartialResearcher.phone data) (ResearcherRow.phone row);
     ResearcherRow.office :=
       set_str (PartialResearcher.office data) (ResearcherRow.office row);
     ResearcherRow.website :=
       set_str (PartialResearcher.website data) (ResearcherRow.website row);
     ResearcherRow.photo_url :=
       set_str (PartialResearcher.photo_url data) (ResearcherRow.photo_url row);
     ResearcherRow.google_scholar_url :=
       set_str (PartialResearcher.google_scholar_url data)
               (ResearcherRow.google_scholar_url row);
     ResearcherRow.dblp_url :=
       set_str (PartialResearcher.dblp_url data) (ResearcherRow.dblp_url row);
     ResearcherRow.semantic_scholar_id :=
       set_str (PartialResearcher.semantic_scholar_id data)
               (ResearcherRow.semantic_scholar_id row);
     ResearcherRow.orcid :=
       set_str (PartialResearcher.orcid data) (ResearcherRow.orcid row);
     ResearcherRow.h_index :=
       match PartialResearcher.h_index data with
       | Some v => Some v
       | None => ResearcherRow.h_index row
       end;
     ResearcherRow.citations_total :=
       set_num (PartialResearcher.citations_total data)
               (ResearcherRow.citations_total row);
     ResearcherRow.publications_count := ResearcherRow.publications_count row;
     ResearcherRow.research_areas :=
       match PartialResearcher.research_areas data with
       | Some v => Some v
       | None => ResearcherRow.research_areas row
       end;
     ResearcherRow.bio :=
       set_str (PartialResearcher.bio data) (ResearcherRow.bio row);
     ResearcherRow.source_directory_id := ResearcherRow.source_directory_id row;
     ResearcherRow.enrichment_status :=
       match PartialResearcher.enrichment_status data with
       | Some v => v
       | None => ResearcherRow.enrichment_status row
       end;
     ResearcherRow.enrichment_error := ResearcherRow.enrichment_error row;
     ResearcherRow.last_verified :=
       set_str (PartialResearcher.last_verified data)
               (ResearcherRow.last_verified row);
     ResearcherRow.created_at := ResearcherRow.created_at row;
     (* trigger update_researchers_timestamp *)
     ResearcherRow.updated_at := now |}.

(** [fields.length === 0] *)
Definition no_fields (data : PartialResearcher.t) : bool :=
  match data with
  | PartialResearcher.mk None None None None None None None None None None
                         None None None None None None => true
  | _ => false
  end.

Definition update (now : string) (id : Z) (data : PartialResearcher.t)
    : Eff (option Researcher.t) :=
  fun s =>
    match List.find (fun row => ResearcherRow.id row =? id) (State.researchers s) with
    | None => (Returned None, s)
    | Some old =>
        if no_fields data then (Returned (Some (Repo.rowToResearcher old)), s)
        else
          let row := apply_update now data old in
          if violates_unique (State.researchers s) (Some id) row
          then (Thrown "UNIQUE constraint failed", s)
          else
            let db' :=
              map (fun r => if ResearcherRow.id r =? id then row else r)
                  (State.researchers s) in
            (Returned (Repo.findById db' id), State.set_researchers db' s)
    end.

End ResearchersRepository.

Module JobsRepository.

(** [create]; [repoJobId] is the identifier drawn by the [uuidv4()] call
    inside the repository. *)
Definition create (repoJobId : string) (directory_id : Z)
    (scrape_type : ScrapeType) : Eff unit :=
  modify (fun s =>
    State.set_scrape_jobs
      (State.scrape_jobs s ++
       [{| JobRow.job_id := repoJobId;
           JobRow.directory_id := directory_id;
           JobRow.scrape_type := scrape_type;
           JobRow.status := JPending;
           JobRow.current_step := None;
           JobRow.records_found := 0;
           JobRow.records_created := 0;
           JobRow.records_updated := 0;
           JobRow.records_skipped := 0;
           JobRow.error_message := None;
           JobRow.debug_path := None |}]) s).

Definition update_where (jobId : string) (f : JobRow.t -> JobRow.t) : Eff unit :=
  modify (fun s =>
    State.set_scrape_jobs
      (map (fun r => if String.eqb (JobRow.job_id r) jobId then f r else r)
           (State.scrape_jobs s)) s).

Definition updateStatus (jobId : string) (status : JobStatus)
    (errorMessage : option string) : Eff unit :=
  update_where jobId (fun r =>
    {| JobRow.job_id := JobRow.job_id r;
       JobRow.directory_id := JobRow.directory_id r;
       JobRow.scrape_type := JobRow.scrape_type r;
       JobRow.status := status;
       JobRow.current_step := JobRow.current_step r;
       JobRow.records_found := JobRow.records_found r;
       JobRow.records_created := JobRow.records_created r;
       JobRow.records_updated := JobRow.records_updated r;
       JobRow.records_skipped := JobRow.records_skipped r;
       JobRow.error_message := JS.or_undefined errorMessage;
       JobRow.debug_path := JobRow.debug_path r |}).

Definition updateCurrentStep (jobId : string) (step : string) : Eff unit :=
  update_where jobId (fun r =>
    {| JobRow.job_id := JobRow.job_id r;
       JobRow.directory_id := JobRow.directory_id r;
       JobRow.scrape_type := JobRow.scrape_type r;
       JobRow.status := JobRow.status r;
       JobRow.current_step := Some step;
       JobRow.records_found := JobRow.records_found r;
       JobRow.records_created := JobRow.records_created r;
       JobRow.records_updated := JobRow.records_updated r;
       JobRow.records_skipped := JobRow.records_skipped r;
       JobRow.error_message := JobRow.error_message r;
       JobRow.debug_path := JobRow.debug_path r |}).

Definition updateStats (jobId : string)
    (records_found records_created records_updated records_skipped : Z)
    : Eff unit :=
  update_where jobId (fun r =>
    {| JobRow.job_id := JobRow.job_id r;
       JobRow.directory_id := JobRow.directory_id r;
       JobRow.scrape_type := JobRow.scrape_type r;
       JobRow.status := JobRow.status r;
       JobRow.current_step := JobRow.current_step r;
       JobRow.records_found := records_found;
       JobRow.records_created := records_created;
       JobRow.records_updated := records_updated;
       JobRow.records_skipped := records_skipped;
       JobRow.error_message := JobRow.error_message r;
       JobRow.debug_path := JobRow.debug_path r |}).

(** The foreign key of [step_outputs.job_id]: the job has a row in
    [scrape_jobs]. *)
Definition references_job (s : State.t) (jobId : string) : bool :=
  existsb (fun r => String.eqb (JobRow.job_id r) jobId) (State.scrape_jobs s).

(** [storeStepOutput]: the [INSERT] throws on the violated foreign key and
    leaves the table as it was. *)
Definition storeStepOutput (jobId stepName : string) (input output : Artifact)
    (success : bool) (errorMessage : option string) : Eff unit :=
  fun s =>
    if references_job s jobId then
      (Returned tt,
       State.set_step_outputs
         (State.step_outputs s ++
          [{| StepOutputRow.job_id := jobId;
              StepOutputRow.step_name := stepName;
              StepOutputRow.input_data := input;
              StepOutputRow.output_data := output;
              StepOutputRow.success := success;
              StepOutputRow.error_message := JS.or_undefined errorMessage |}])
         s)
    else (Thrown "FOREIGN KEY constraint failed", s).

End JobsRepository.

Module DirectoriesRepository.

Definition findById (id : Z) : Eff (option Directory.t) :=
  gets (fun s => List.find (fun d => Directory.id d =? id) (State.directories s)).

Definition updateLastScraped (now : string) (id : Z) (recordsCount : Z)
    : Eff unit :=
  modify (fun s =>
    State.set_directories
      (map (fun d =>
              if Directory.id d =? id then
                {| Directory.id := Directory.id d;
                   Directory.university := Directory.university d;
                   Directory.department := Directory.department d;
                   Directory.directory_url := Directory.directory_url d;
                   Directory.profile_url_pattern := Directory.profile_url_pattern d;
                   Directory.scrape_method := Directory.scrape_method d;
                   Directory.scrape_config := Directory.scrape_config d;
                   Directory.is_active := Directory.is_active d;
                   Directory.last_scraped := Some now;
                   Directory.records_last_scrape := recordsCount;
                   Directory.created_at := Directory.created_at d;
                   Directory.updated_at := now |}
              else d)
           (State.directories s)) s).

End DirectoriesRepository.

Module EnrichmentQueueRepository.

Definition findByResearcher (researcherId : Z) : Eff (option QueueRow.t) :=
  gets (fun s =>
    List.find (fun q => QueueRow.researcher_id q =? researcherId)
              (State.enrichment_queue s)).

Definition max_id (q : list QueueRow.t) : Z :=
  fold_right (fun row m => Z.max (QueueRow.id row) m) 0 q.

(** The foreign key of [enrichment_queue.researcher_id]. *)
Definition references_researcher (s : State.t) (researcherId : Z) : bool :=
  existsb (fun row => ResearcherRow.id row =? researcherId) (State.researchers s).

(** [add]: the [INSERT] fails when the researcher has an item already
    (the unique column) or is not stored (the foreign key), and leaves the
    table as it was; the [INSERT] and its [catch] both end in
    [findByResearcher]. *)
Definition add (now : string) (researcherId priority : Z)
    : Eff (option QueueRow.t) :=
  run modify (fun s =>
        if existsb (fun q => QueueRow.researcher_id q =? researcherId)
                   (State.enrichment_queue s)
        then s
        else if negb (references_researcher s researcherId)
        then s
        else
          let id := Z.max (State.enrichment_queue_seq s)
                          (max_id (State.enrichment_queue s)) + 1 in
          State.set_enrichment_queue_seq id
            (State.set_enrichment_queue
               (State.enrichment_queue s ++
                [{| QueueRow.id := id;
                    QueueRow.researcher_id := researcherId;
                    QueueRow.priority := priority;
                    QueueRow.attempts := 0;
                    QueueRow.last_attempt := None;
                    QueueRow.next_attempt := None;
                    QueueRow.status := QPending;
                    QueueRow.error_message := None;
                    QueueRow.created_at := now;
                    QueueRow.updated_at := now |}]) s));
  findByResearcher researcherId.

Definition is_pending (q : QueueRow.t) : bool :=
  match QueueRow.status q with
  | QPending => true
  | _ => false
  end.

(** [getPosition]: one more than the number of pending items that sort
    before the researcher's item; the count plus one is never falsy. *)
Definition getPosition (researcherId : Z) : Eff (option Z) :=
  gets (fun s =>
    match List.find (fun q => QueueRow.researcher_id q =? researcherId)
                    (State.enrichment_queue s) with
    | Some me =>
        Some (Z.of_nat (length (List.filter
          (fun q => is_pending q
                    && ((QueueRow.priority q <? QueueRow.priority me)
                        || ((QueueRow.priority q =? QueueRow.priority me)
                            && String.ltb (QueueRow.created_at q)
                                          (QueueRow.created_at me))))
          (State.enrichment_queue s))) + 1)
    | None => Some 1
    end).

End EnrichmentQueueRepository.

(* ===================================================================== *)
(** * Step recorder ([src/debug/step-recorder.ts]) *)
(* ===================================================================== *)

Module Recorder.

Definition debugDir (jobId : string) : string := "debug/jobs/" +:+ jobId.

Definition inputPath (jobId stepName : string) : string :=
  debugDir jobId +:+ "/" +:+ stepName +:+ "_input.json".

Definition outputPath (jobId stepName : string) : string :=
  debugDir jobId +:+ "/" +:+ stepName +:+ "_output.json".

Definition errorPath (jobId stepName : string) : string :=
  debugDir jobId +:+ "/" +:+ stepName +:+ "_error.json".

Definition summaryPath (jobId : string) : string :=
  debugDir jobId +:+ "/summary.json".

Definition writeFileSync (path : string) (content : File) : Eff unit :=
  modify (fun s => State.set_files (<[path := content]> (State.files s)) s).

(** [new StepRecorder(jobId, directoryId)] *)
Definition createStepRecorder (jobId : string) (directoryId : Z) : Eff unit :=
  run writeFileSync "debug/latest.txt" (FJson (AText jobId));
  modify (fun s =>
    State.set_currentStep None
      (State.set_recording
         {| JobRecording.jobId := jobId;
            JobRecording.directoryId := Some directoryId;
            JobRecording.steps := [] |} s)).

Definition recordStepStart (jobId stepName : string) (input : Artifact)
    : Eff unit :=
  run modify (State.set_currentStep
        (Some {| StepRecording.stepName := stepName;
                 StepRecording.input := input;
                 StepRecording.output := None;
                 StepRecording.error := None;
                 StepRecording.success := false |}));
  (* Save input to file *)
  run writeFileSync (inputPath jobId stepName) (FJson input);
  (* Store in database *)
  JobsRepository.storeStepOutput jobId stepName input ANull false None.

Definition push_step (step : StepRecording.t) : Eff unit :=
  modify (fun s =>
    State.set_recording
      {| JobRecording.jobId := JobRecording.jobId (State.recording s);
         JobRecording.directoryId := JobRecording.directoryId (State.recording s);
         JobRecording.steps := JobRecording.steps (State.recording s) ++ [step] |}
      s).

Definition recordStepEnd (jobId stepName : string) (output : Artifact)
    : Eff unit :=
  do cur <- gets State.currentStep;
  match cur with
  | Some currentStep =>
      if String.eqb (StepRecording.stepName currentStep) stepName then
        let currentStep' :=
          {| StepRecording.stepName := StepRecording.stepName currentStep;
             StepRecording.input := StepRecording.input currentStep;
             StepRecording.output := Some output;
             StepRecording.error := StepRecording.error currentStep;
             StepRecording.success := true |} in
        run push_step currentStep';
        run writeFileSync (outputPath jobId stepName) (FJson output);
        run JobsRepository.storeStepOutput jobId stepName
              (StepRecording.input currentStep') output true None;
        modify (State.set_currentStep None)
      else ret tt
  | None => ret tt
  end.

Definition recordStepError (jobId stepName : string) (message : string)
    : Eff unit :=
  do cur <- gets State.currentStep;
  match cur with
  | Some currentStep =>
      if String.eqb (StepRecording.stepName currentStep) stepName then
        let currentStep' :=
          {| StepRecording.stepName := StepRecording.stepName currentStep;
             StepRecording.input := StepRecording.input currentStep;
             StepRecording.output := StepRecording.output currentStep;
             StepRecording.error := Some message;
             StepRecording.success := false |} in
        run push_step currentStep';
        run writeFileSync (errorPath jobId stepName)
              (FJson (AErrorReport message (StepRecording.input currentStep')));
        run JobsRepository.storeStepOutput jobId stepName
              (StepRecording.input currentStep') ANull false (Some message);
        modify (State.set_currentStep None)
      else ret tt
  | None => ret tt
  end.

Definition finalize (jobId : string) : Eff unit :=
  do recording <- gets State.recording;
  writeFileSync (summaryPath jobId) (FSummary recording).

(** [loadStepInput] and [loadStepOutput]: [None] is the [null] returned
    when the file does not exist. *)
Definition loadStepInput (s : State.t) (jobId stepName : string) : option File :=
  State.files s !! inputPath jobId stepName.

Definition loadStepOutput (s : State.t) (jobId stepName : string) : option File :=
  State.files s !! outputPath jobId stepName.

End Recorder.

(* ===================================================================== *)
(** * Steps 7 and 8 *)
(* ===================================================================== *)

Module Persist.

Definition truthy_opt (o : option string) : option string := JS.or_undefined o.

Definition buildUpdateData (now : string) (researcher : ParsedResearcher.t)
    : PartialResearcher.t :=
  {| PartialResearcher.title := truthy_opt (ParsedResearcher.title researcher);
     PartialResearcher.email := truthy_opt (ParsedResearcher.email researcher);
     PartialResearcher.phone := truthy_opt (ParsedResearcher.phone researcher);
     PartialResearcher.office := truthy_opt (ParsedResearcher.office researcher);
     PartialResearcher.website := truthy_opt (ParsedResearcher.website researcher);
     PartialResearcher.photo_url :=
       truthy_opt (ParsedResearcher.photo_url researcher);
     PartialResearcher.google_scholar_url := None;
     PartialResearcher.dblp_url := None;
     PartialResearcher.semantic_scholar_id := None;
     PartialResearcher.orcid := None;
     PartialResearcher.h_index := None;
     PartialResearcher.citations_total := None;
     PartialResearcher.research_areas :=
       match ParsedResearcher.research_areas researcher with
       | Some l => if 0 <? Z.of_nat (length l) then Some l else None
       | None => None
       end;
     PartialResearcher.bio := None;
     PartialResearcher.enrichment_status := None;
     PartialResearcher.last_verified := Some now |}.

(** The locals [insertedIds], [updatedIds] and [skipped] of [persist]. *)
Record Locals := mkLocals {
  insertedIds : list Z;
  updatedIds : list Z;
  skipped : Z;
}.

Fixpoint insert_loop (now : string) (directory_id : Z)
    (to_insert : list ParsedResearcher.t) (l : Locals) : Eff Locals :=
  match to_insert with
  | [] => ret l
  | researcher :: rest =>
      do l' <-
        try_catch
          (do created <-
             ResearchersRepository.create now researcher (Some directory_id);
           ret (mkLocals (insertedIds l ++ [Researcher.id created])
                         (updatedIds l) (skipped l)))
          (fun _ => ret (mkLocals (insertedIds l) (updatedIds l) (skipped l + 1)));
      insert_loop now directory_id rest l'
  end.

Fixpoint update_loop (now : string) (to_update : list UpdateItem.t)
    (l : Locals) : Eff Locals :=
  match to_update with
  | [] => ret l
  | item :: rest =>
      do l' <-
        try_catch
          (let updateData := buildUpdateData now (UpdateItem.researcher item) in
           do updated <-
             ResearchersRepository.update now (UpdateItem.existing_id item)
                                          updateData;
           match updated with
           | Some _ =>
               ret (mkLocals (insertedIds l)
                             (updatedIds l ++ [UpdateItem.existing_id item])
                             (skipped l))
           | None =>
               ret (mkLocals (insertedIds l) (updatedIds l) (skipped l + 1))
           end)
          (fun _ => ret (mkLocals (insertedIds l) (updatedIds l) (skipped l + 1)));
      update_loop now rest l'
  end.

Definition persist (now : string) (input : Step7Input.t) : Eff Step7Output.t :=
  do l <-
    try_catch
      ((* transaction() *)
       do l1 <- insert_loop now (Step7Input.directory_id input)
                            (Step7Input.to_insert input) (mkLocals [] [] 0);
       do l2 <- update_loop now (Step7Input.to_update input) l1;
       (* Update job statistics *)
       run JobsRepository.updateStats (Step7Input.job_id input)
             (Dedup.len (Step7Input.to_insert input)
              + Dedup.len (Step7Input.to_update input))
             (Dedup.len (insertedIds l2))
             (Dedup.len (updatedIds l2))
             (skipped l2);
       ret l2)
      (fun message =>
         run JobsRepository.updateStatus (Step7Input.job_id input) JFailed
               (Some message);
         throw message);
  ret {| Step7Output.inserted_ids := insertedIds l;
         Step7Output.updated_ids := updatedIds l;
         Step7Output.job_stats :=
           {| JobStats.records_created := Dedup.len (insertedIds l);
              JobStats.records_updated := Dedup.len (updatedIds l);
              JobStats.records_skipped := skipped l |} |}.

Definition runStep7 := persist.

End Persist.

Module QueueEnrich.

Record Locals := mkLocals {
  queuePositions : list QueuePosition.t;
  alreadyQueued : Z;
}.

Definition push_position (researcherId : Z) (position : option Z)
    (l : list QueuePosition.t) : list QueuePosition.t :=
  match position with
  | Some p => if p =? 0 then l else l ++ [QueuePosition.mk researcherId p]
  | None => l
  end.

Fixpoint queue_loop (now : string) (priority : Z) (ids : list Z) (l : Locals)
    : Eff Locals :=
  match ids with
  | [] => ret l
  | researcherId :: rest =>
      do existing <- EnrichmentQueueRepository.findByResearcher researcherId;
      do l' <-
        match existing with
        | Some _ =>
            do position <- EnrichmentQueueRepository.getPosition researcherId;
            ret (mkLocals (push_position researcherId position (queuePositions l))
                          (alreadyQueued l + 1))
        | None =>
            run EnrichmentQueueRepository.add now researcherId priority;
            do position <- EnrichmentQueueRepository.getPosition researcherId;
            ret (mkLocals (push_position researcherId position (queuePositions l))
                          (alreadyQueued l))
        end;
      queue_loop now priority rest l'
  end.

Definition queueForEnrichment (now : string) (input : Step8Input.t)
    : Eff Step8Output.t :=
  let priority :=
    match Step8Input.priority input with
    | Some p => p
    | None => 5
    end in
  do l <- queue_loop now priority (Step8Input.researcher_ids input)
                     (mkLocals [] 0);
  let queuedCount := Dedup.len (Step8Input.researcher_ids input) - alreadyQueued l in
  ret {| Step8Output.queued_count := queuedCount;
         Step8Output.already_queued := alreadyQueued l;
         Step8Output.queue_positions := queuePositions l |}.

Definition runStep8 := queueForEnrichment.

End QueueEnrich.

(* ===================================================================== *)
(** * Pipeline runner ([src/pipeline/runner.ts]) *)
(* ===================================================================== *)

Module Runner.

Section WithStages.

(** [new URL(s).hostname], and the two stages whose bodies are HTML and
    text parsing: [runStep4] (card extraction) and [runStep5]
    (normalization).  They are pure and may throw. *)
Variable url_hostname : string -> option string.
Variable runStep4 : Step4Input.t -> Outcome Step4Output.t.
Variable runStep5 : Step5Input.t -> Outcome Step5Output.t.

(** [PipelineContext], without the logger, which only writes log lines. *)
Record PipelineContext := mkContext {
  jobId : string;
  directoryId : Z;
  directory : Directory.t;
  options : PipelineOptions.t;
}.

(** [runStepWithTracking]; [enc] is the view of the result as [unknown]. *)
Definition runStepWithTracking {T} (context : PipelineContext)
    (stepName : string) (stepFn : Eff T) (enc : T -> Artifact) : Eff T :=
  run JobsRepository.updateCurrentStep (jobId context) stepName;
  try_catch
    (run Recorder.recordStepStart (jobId context) stepName AEmptyObject;
     do result <- stepFn;
     run Recorder.recordStepEnd (jobId context) stepName (enc result);
     ret result)
    (fun error =>
       run Recorder.recordStepError (jobId context) stepName error;
       throw error).

Definition createResult (context : PipelineContext) (errors : list string)
    (recordsFound recordsCreated recordsUpdated : Z) : ScrapeResult.t :=
  {| ScrapeResult.job_id := jobId context;
     ScrapeResult.status :=
       if (0 <? Dedup.len errors) && (recordsFound =? 0)
       then RFailed else RSuccess;
     ScrapeResult.records_found := recordsFound;
     ScrapeResult.records_created := recordsCreated;
     ScrapeResult.records_updated := recordsUpdated;
     ScrapeResult.errors :=
       if 0 <? Dedup.len errors then Some errors else None |}.

(** [return createResult(context, startTime, errors, ...)] *)
Definition returnResult (context : PipelineContext)
    (recordsFound recordsCreated recordsUpdated : Z) : Eff ScrapeResult.t :=
  do errors <- gets State.errors;
  ret (createResult context errors recordsFound recordsCreated recordsUpdated).

Definition stopAfter (context : PipelineContext) (stepName : string) : bool :=
  match PipelineOptions.stopAfterStep (options context) with
  | Some s => String.eqb s stepName
  | None => false
  end.

Definition isDryRun (context : PipelineContext) : bool :=
  match PipelineOptions.dryRun (options context) with
  | Some b => b
  | None => false
  end.

Definition placeholder_html : string :=
  "<html><body>Placeholder content</body></html>".

(** Steps 6 to 8 and the finalization: the second half of the [try]
    block of [runPipeline], from the comment [// Step 6: Deduplicate] on. *)
Definition pipeline_back (now : string) (context : PipelineContext)
    (step5Output : Step5Output.t) : Eff ScrapeResult.t :=
  let found := Dedup.len (Step5Output.researchers step5Output) in
  (* Step 6: Deduplicate *)
  do step6Output <-
    runStepWithTracking context "step6"
      (do db <- gets State.researchers;
       ret (Dedup.runStep6 url_hostname db
              {| Step6Input.researchers := Step5Output.researchers step5Output;
                 Step6Input.directory_id := directoryId context |}))
      AStep6Output;
  if stopAfter context "step6"
  then returnResult context found
         (Step6Stats.to_insert (Step6Output.stats step6Output))
         (Step6Stats.to_update (Step6Output.stats step6Output))
  else
  (* Step 7: Persist (skip in dry run) *)
  do step7Output <-
    (if isDryRun context then
       ret {| Step7Output.inserted_ids := [];
              Step7Output.updated_ids := [];
              Step7Output.job_stats :=
                {| JobStats.records_created := 0;
                   JobStats.records_updated := 0;
                   JobStats.records_skipped :=
                     Step6Stats.duplicates (Step6Output.stats step6Output) |} |}
     else
       runStepWithTracking context "step7"
         (Persist.runStep7 now
            {| Step7Input.to_insert := Step6Output.to_insert step6Output;
               Step7Input.to_update := Step6Output.to_update step6Output;
               Step7Input.job_id := jobId context;
               Step7Input.directory_id := directoryId context |})
         AStep7Output);
  let created := JobStats.records_created (Step7Output.job_stats step7Output) in
  let updated := JobStats.records_updated (Step7Output.job_stats step7Output) in
  if stopAfter context "step7" then returnResult context found created updated
  else
  (* Step 8: Queue for Enrichment *)
  let allIds :=
    Step7Output.inserted_ids step7Output ++ Step7Output.updated_ids step7Output in
  do step8Output <-
    (if (0 <? Dedup.len allIds) && negb (isDryRun context) then
       runStepWithTracking context "step8"
         (QueueEnrich.runStep8 now
            {| Step8Input.researcher_ids := allIds;
               Step8Input.priority := Some 5 |})
         AStep8Output
     else
       ret {| Step8Output.queued_count := 0;
              Step8Output.already_queued := 0;
              Step8Output.queue_positions := [] |});
  (* Update directory last scraped *)
  run (if negb (isDryRun context)
       then DirectoriesRepository.updateLastScraped now (directoryId context) found
       else ret tt);
  (* Finalize job *)
  run JobsRepository.updateStatus (jobId context) JSuccess None;
  run Recorder.finalize (jobId context);
  returnResult context found created updated.

(** The [try] block of [runPipeline]: steps 1 to 5, then [pipeline_back]. *)
Definition pipeline_body (now : string) (context : PipelineContext)
    : Eff ScrapeResult.t :=
  let directory := directory context in
  let config := Directory.scrape_config directory in
  (* Step 1: Load Config *)
  do step1Output <-
    runStepWithTracking context "step1"
      (ret {| Step1Output.directory := directory;
              Step1Output.url := Directory.directory_url directory;
              Step1Output.scrape_method := Directory.scrape_method directory;
              Step1Output.selectors :=
                match config with
                | Some c =>
                    match ScrapeConfig.selectors c with
                    | Some sel => sel
                    | None => Selectors.empty
                    end
                | None => Selectors.empty
                end;
              Step1Output.load_more_config :=
                match config with
                | Some c =>
                    match ScrapeConfig.load_more_selector c with
                    | Some sel =>
                        if negb (String.eqb sel "") then
                          Some {| LoadMoreConfig.selector := sel;
                                  LoadMoreConfig.max_clicks := 50;
                                  LoadMoreConfig.wait_between_clicks_ms := 1000 |}
                        else None
                    | None => None
                    end
                | None => None
                end;
              Step1Output.scroll_config :=
                match config with
                | Some c => ScrapeConfig.scroll_config c
                | None => None
                end;
              Step1Output.use_step0_html := false |})
      AStep1Output;
  if stopAfter context "step1" then returnResult context 0 0 0 else
  (* Step 2: Fetch Content (placeholder) *)
  do step2Output <-
    runStepWithTracking context "step2"
      (ret {| Step2Output.html := placeholder_html;
              Step2Output.markdown := None;
              Step2Output.links := [];
              Step2Output.screenshot_path := None;
              Step2Output.fetch_time_ms := 0;
              Step2Output.from_cache := false |})
      AStep2Output;
  if stopAfter context "step2" then returnResult context 0 0 0 else
  (* Step 3: Handle Dynamic Content *)
  do step3Output <-
    runStepWithTracking context "step3"
      (ret {| Step3Output.final_html := Step2Output.html step2Output;
              Step3Output.clicks_performed := 0;
              Step3Output.scroll_distance := 0;
              Step3Output.screenshots := [];
              Step3Output.dynamic_content_found := false |})
      AStep3Output;
  if stopAfter context "step3" then returnResult context 0 0 0 else
  (* Step 4: Extract Cards *)
  do step4Output <-
    runStepWithTracking context "step4"
      (lift (runStep4
               {| Step4Input.html := Step3Output.final_html step3Output;
                  Step4Input.selectors := Step1Output.selectors step1Output |}))
      AStep4Output;
  if stopAfter context "step4"
  then returnResult context (Dedup.len (Step4Output.raw_cards step4Output)) 0 0
  else
  (* Step 5: Parse and Normalize *)
  do step5Output <-
    runStepWithTracking context "step5"
      (lift (runStep5
               {| Step5Input.raw_cards := Step4Output.raw_cards step4Output;
                  Step5Input.university := Directory.university directory;
                  Step5Input.department := Directory.department directory |}))
      AStep5Output;
  run (if 0 <? Dedup.len (Step5Output.parse_errors step5Output)
       then modify (fun s =>
              State.set_errors
                (State.errors s ++
                 [pretty (Dedup.len (Step5Output.parse_errors step5Output))
                  +:+ " parse errors"]) s)
       else ret tt);
  let found := Dedup.len (Step5Output.researchers step5Output) in
  if stopAfter context "step5" then returnResult context found 0 0 else
  pipeline_back now context step5Output.

(** [runPipeline(directoryId, options)].  [jobId] is the identifier drawn
    by the runner's [uuidv4()], [repoJobId] the one drawn inside
    [jobsRepository.create], [now] the reading of the clock. *)
Definition runPipeline (jobId repoJobId now : string) (directoryId : Z)
    (options : PipelineOptions.t) : Eff ScrapeResult.t :=
  (* Load directory *)
  do found <- DirectoriesRepository.findById directoryId;
  match found with
  | None => throw ("Directory not found: " +:+ pretty directoryId)
  | Some directory =>
      (* Create job *)
      run JobsRepository.create repoJobId directoryId
            (match PipelineOptions.mode options with
             | Test => STTest
             | Full => STFull
             end);
      (* Create context *)
      run Recorder.createStepRecorder jobId directoryId;
      let context := mkContext jobId directoryId directory options in
      run JobsRepository.updateStatus jobId JRunning None;
      run modify (State.set_errors []);
      try_catch
        (pipeline_body now context)
        (fun errorMessage =>
           run JobsRepository.updateStatus jobId JFailed (Some errorMessage);
           run Recorder.finalize jobId;
           do errors <- gets State.errors;
           ret {| ScrapeResult.job_id := jobId;
                  ScrapeResult.status := RFailed;
                  ScrapeResult.records_found := 0;
                  ScrapeResult.records_created := 0;
                  ScrapeResult.records_updated := 0;
                  ScrapeResult.errors := Some (errorMessage :: errors) |})
  end.


End WithStages.

End Runner.

(* ===================================================================== *)
(** * The specification's vocabulary *)
(* ===================================================================== *)

(** Definitions that follow the words of the specification; the theorems
    below compare them with the functions translated from the sources. *)

Module NumberSpec.

(** The rational number that a finite binary64 value stands for. *)
Definition value (x : JS.number) : Q :=
  match x with
  | S754_finite s m e => ((if s then -1 else 1) * inject_Z (Zpos m) * 2 ^ e)%Q
  | _ => 0%Q
  end.

Definition finite (x : JS.number) : bool :=
  match x with
  | S754_finite _ _ _ | S754_zero _ => true
  | _ => false
  end.

(** [x] is a finite number and equals [q] up to the rounding of binary64
    arithmetic: to fifteen decimal places. *)
Definition close (x : JS.number) (q : Q) : Prop :=
  finite x = true /\ (Qabs (value x - q) <= 1 # 1000000000000000)%Q.

End NumberSpec.

Module DedupSpec.

(** A field is populated when it holds a non-empty string. *)
Definition populated (o : option string) : option string := JS.or_undefined o.

(** The matching signals of a composite (name plus affiliation) match. *)
Inductive TitleSignal := NoTitleMatch | SubstringTitle | ExactTitle.

Record Signals := mkSignals {
  title_signal : TitleSignal;
  email_domain : bool;
  phone_digits : bool;
  website_host : bool;
}.

Section WithURL.

Variable url_hostname : string -> option string.

Definition signals (incoming : ParsedResearcher.t) (existing : Researcher.t)
    : Signals :=
  {| title_signal :=
       match populated (ParsedResearcher.title incoming),
             populated (Researcher.title existing) with
       | Some a, Some b =>
           if String.eqb (JS.toLowerCase a) (JS.toLowerCase b) then ExactTitle
           else if JS.includes (JS.toLowerCase a) (JS.toLowerCase b)
                   || JS.includes (JS.toLowerCase b) (JS.toLowerCase a)
           then SubstringTitle
           else NoTitleMatch
       | _, _ => NoTitleMatch
       end;
     email_domain :=
       match populated (ParsedResearcher.email incoming),
             populated (Researcher.email existing) with
       | Some a, Some b => JS.opt_eqb (JS.split_at_1 a) (JS.split_at_1 b)
       | _, _ => false
       end;
     phone_digits :=
       match populated (ParsedResearcher.phone incoming),
             populated (Researcher.phone existing) with
       | Some a, Some b => String.eqb (JS.digits a) (JS.digits b)
       | _, _ => false
       end;
     website_host :=
       match populated (ParsedResearcher.website incoming),
             populated (Researcher.website existing) with
       | Some a, Some b =>
           match url_hostname a, url_hostname b with
           | Some x, Some y => String.eqb x y
           | _, _ => false
           end
       | _, _ => false
       end |}.

End WithURL.

Definition title_bonus (t : TitleSignal) : option JS.number :=
  match t with
  | ExactTitle => Some Dedup.c_0_2
  | SubstringTitle => Some Dedup.c_0_1
  | NoTitleMatch => None
  end.

Definition flag_bonus (b : bool) (c : JS.number) : option JS.number :=
  if b then Some c else None.

Definition plus (score : JS.number) (bonus : option JS.number) : JS.number :=
  match bonus with
  | Some c => JS.add score c
  | None => score
  end.

(** Base 0.5, then the bonuses of the signals that match, capped at 1.0. *)
Definition score_of (s : Signals) : JS.number :=
  JS.min
    (plus (plus (plus (plus Dedup.c_0_5 (title_bonus (title_signal s)))
                      (flag_bonus (email_domain s) Dedup.c_0_15))
                (flag_bonus (phone_digits s) Dedup.c_0_1))
          (flag_bonus (website_host s) Dedup.c_0_05))
    Dedup.c_1_0.

(** The score in the words of the specification, in exact arithmetic:
    base 0.5; 0.2 for an exact and 0.1 for a substring title match; 0.15
    for the email domain; 0.10 for the phone digits; 0.05 for the website
    host; capped at 1.0. *)
Definition claimed_score (s : Signals) : Q :=
  Qmin 1
    (0.5
     + match title_signal s with
       | ExactTitle => 0.2
       | SubstringTitle => 0.1
       | NoTitleMatch => 0
       end
     + (if email_domain s then 0.15 else 0)
     + (if phone_digits s then 0.10 else 0)
     + (if website_host s then 0.05 else 0))%Q.

(** The same sum in exact arithmetic, in hundredths. *)
Definition hundredths (s : Signals) : Z :=
  Z.min 100
    (50
     + match title_signal s with
       | ExactTitle => 20
       | SubstringTitle => 10
       | NoTitleMatch => 0
       end
     + (if email_domain s then 15 else 0)
     + (if phone_digits s then 10 else 0)
     + (if website_host s then 5 else 0)).

Definition title_le (a b : TitleSignal) : bool :=
  match a, b with
  | NoTitleMatch, _ => true
  | SubstringTitle, (SubstringTitle | ExactTitle) => true
  | ExactTitle, ExactTitle => true
  | _, _ => false
  end.

(** [s'] has every matching signal of [s], and possibly more. *)
Definition signals_le (s s' : Signals) : bool :=
  title_le (title_signal s) (title_signal s')
  && implb (email_domain s) (email_domain s')
  && implb (phone_digits s) (phone_digits s')
  && implb (website_host s) (website_host s').

(** The candidate's populated email, looked up in the store. *)
Definition email_match (db : Repo.table) (c : ParsedResearcher.t)
    : option Researcher.t :=
  match populated (ParsedResearcher.email c) with
  | Some e => Repo.findByEmail db e
  | None => None
  end.

(** The stored record with the candidate's name and affiliation. *)
Definition name_match (db : Repo.table) (c : ParsedResearcher.t)
    : option Researcher.t :=
  if String.eqb (ParsedResearcher.university c) "" then None
  else Repo.findByNameAndUniversity db (ParsedResearcher.full_name c)
         (ParsedResearcher.university c) (ParsedResearcher.department c).

(** The decision of step 4 of the algorithm: no match. *)
Definition insert_decision (c : ParsedResearcher.t) : DedupeDecision.t :=
  {| DedupeDecision.researcher := c;
     DedupeDecision.action := Insert;
     DedupeDecision.existing_id := None;
     DedupeDecision.match_reason := None;
     DedupeDecision.confidence := Dedup.c_1_0 |}.

(** The decision on a match by contact identifier (step 1, then step 3). *)
Definition email_decision (c : ParsedResearcher.t) (r : Researcher.t)
    : DedupeDecision.t :=
  if Dedup.checkForChanges c r then
    {| DedupeDecision.researcher := c;
       DedupeDecision.action := Update;
       DedupeDecision.existing_id := Some (Researcher.id r);
       DedupeDecision.match_reason := Some "Email match with data changes";
       DedupeDecision.confidence := Dedup.c_1_0 |}
  else
    {| DedupeDecision.researcher := c;
       DedupeDecision.action := Skip;
       DedupeDecision.existing_id := Some (Researcher.id r);
       DedupeDecision.match_reason := Some "Exact email match";
       DedupeDecision.confidence := Dedup.c_1_0 |}.

(** The decision on a usable composite match (step 2, then step 3). *)
Definition name_decision (c : ParsedResearcher.t) (r : Researcher.t)
    (confidence : JS.number) : DedupeDecision.t :=
  if Dedup.checkForChanges c r then
    {| DedupeDecision.researcher := c;
       DedupeDecision.action := Update;
       DedupeDecision.existing_id := Some (Researcher.id r);
       DedupeDecision.match_reason :=
         Some ("Name+university match ("
               +:+ JS.toFixed0 (JS.mul confidence Dedup.c_100)
               +:+ "% confidence)");
       DedupeDecision.confidence := confidence |}
  else
    {| DedupeDecision.researcher := c;
       DedupeDecision.action := Skip;
       DedupeDecision.existing_id := Some (Researcher.id r);
       DedupeDecision.match_reason := Some "Exact name+university match";
       DedupeDecision.confidence := confidence |}.

(** The algorithm in its strict precedence order. *)
Definition reconcile (url_hostname : string -> option string)
    (db : Repo.table) (c : ParsedResearcher.t) : DedupeDecision.t :=
  match email_match db c with
  | Some r => email_decision c r
  | None =>
      match name_match db c with
      | Some r =>
          let confidence := Dedup.calculateMatchConfidence url_hostname c r in
          if JS.ge confidence Dedup.c_0_9
          then name_decision c r confidence
          else insert_decision c
      | None => insert_decision c
      end
  end.

(** A populated field of the candidate differs from the stored value. *)
Definition field_differs (inc ex : option string) : Prop :=
  exists v, inc = Some v /\ v <> "" /\ ex <> Some v.

Definition areas (o : option (list string)) : list string :=
  match o with
  | Some l => l
  | None => []
  end.

(** The candidate has a research-area tag that the record does not. *)
Definition introduces_area (inc ex : option (list string)) : Prop :=
  exists a, In a (areas inc) /\ ~ In a (areas ex).

(** The research-area test of [checkForChanges]. *)
Definition areas_changed (inc ex : option (list string)) : bool :=
  match inc with
  | Some l =>
      if 0 <? Z.of_nat (length l) then
        0 <? Z.of_nat (length (List.filter
               (fun a => negb (existsb (String.eqb a) (areas ex))) l))
      else false
  | None => false
  end.

Definition new_information (c : ParsedResearcher.t) (r : Researcher.t) : Prop :=
  field_differs (ParsedResearcher.title c) (Researcher.title r)
  \/ field_differs (ParsedResearcher.email c) (Researcher.email r)
  \/ field_differs (ParsedResearcher.phone c) (Researcher.phone r)
  \/ field_differs (ParsedResearcher.office c) (Researcher.office r)
  \/ field_differs (ParsedResearcher.website c) (Researcher.website r)
  \/ introduces_area (ParsedResearcher.research_areas c)
                     (Researcher.research_areas r).

(** The candidates that an output of [deduplicate] holds, list by list. *)
Definition placed (out : Step6Output.t) : list ParsedResearcher.t :=
  Step6Output.to_insert out
  ++ map UpdateItem.researcher (Step6Output.to_update out)
  ++ map DuplicateItem.researcher (Step6Output.duplicates out).

(** The candidates held by the arrays of the loop of [deduplicate]. *)
Definition placed_acc (acc : Dedup.Acc) : list ParsedResearcher.t :=
  Dedup.toInsert acc
  ++ map UpdateItem.researcher (Dedup.toUpdate acc)
  ++ map DuplicateItem.researcher (Dedup.duplicates acc).

End DedupSpec.

Module MergeSpec.

(** The conflict entries that a merge emitted for one field. *)
Definition conflicts_for (field : string) (out : StepE3Output.t)
    : list MergeConflict.t :=
  List.filter (fun c => String.eqb (MergeConflict.field c) field)
              (StepE3Output.conflicts out).

(** Scalar quality metrics: the entry of the partial update.  The new value
    is adopted when the existing one is absent or smaller. *)
Definition metric_update (old new : option Z) : option Z :=
  match new, old with
  | Some n, Some o => if o <? n then Some n else None
  | Some n, None => Some n
  | None, _ => None
  end.

(** Scalar quality metrics: one conflict when both values are present and
    differ, [use_new] if the new value is larger, [keep_existing] if not. *)
Definition metric_conflict (field : string) (old new : option Z)
    : list MergeConflict.t :=
  match new, old with
  | Some n, Some o =>
      if n =? o then []
      else [{| MergeConflict.field := field;
               MergeConflict.existing_value := VNumber o;
               MergeConflict.new_value := VNumber n;
               MergeConflict.resolution :=
                 if o <? n then UseNew else KeepExisting |}]
  | _, _ => []
  end.

(** The value of a metric once the partial update is applied. *)
Definition resolved (old : Z) (update : option Z) : Z :=
  match update with
  | Some v => v
  | None => old
  end.

(** The scalar descriptive fields. *)
Inductive DescriptiveField :=
| Bio | GoogleScholarUrl | DblpUrl | SemanticScholarId | Orcid.

Definition field_name (f : DescriptiveField) : string :=
  match f with
  | Bio => "bio"
  | GoogleScholarUrl => "google_scholar_url"
  | DblpUrl => "dblp_url"
  | SemanticScholarId => "semantic_scholar_id"
  | Orcid => "orcid"
  end.

Definition current (f : DescriptiveField) (r : Researcher.t) : option string :=
  match f with
  | Bio => Researcher.bio r
  | GoogleScholarUrl => Researcher.google_scholar_url r
  | DblpUrl => Researcher.dblp_url r
  | SemanticScholarId => Researcher.semantic_scholar_id r
  | Orcid => Researcher.orcid r
  end.

Definition proposed (f : DescriptiveField) (e : EnrichedData.t) : option string :=
  match f with
  | Bio => EnrichedData.bio e
  | GoogleScholarUrl => EnrichedData.google_scholar_url e
  | DblpUrl => EnrichedData.dblp_url e
  | SemanticScholarId => EnrichedData.semantic_scholar_id e
  | Orcid => EnrichedData.orcid e
  end.

Definition adopted (f : DescriptiveField) (p : PartialResearcher.t)
    : option string :=
  match f with
  | Bio => PartialResearcher.bio p
  | GoogleScholarUrl => PartialResearcher.google_scholar_url p
  | DblpUrl => PartialResearcher.dblp_url p
  | SemanticScholarId => PartialResearcher.semantic_scholar_id p
  | Orcid => PartialResearcher.orcid p
  end.

(** A number is present in the partial update. *)
Definition present (o : option Z) : bool :=
  match o with
  | Some _ => true
  | None => false
  end.

(** A number is present in the partial update and is not zero. *)
Definition present_nonzero (o : option Z) : bool :=
  match o with
  | Some n => negb (n =? 0)
  | None => false
  end.

Definition present_list (o : option (list string)) : bool :=
  match o with
  | Some _ => true
  | None => false
  end.

(** Base 0.5 plus the bonuses that apply, capped at 1.0. *)
Definition confidence_of (h_index citations areas publications : bool)
    : JS.number :=
  JS.min
    (DedupSpec.plus
       (DedupSpec.plus
          (DedupSpec.plus
             (DedupSpec.plus Merge.c_0_5
                (DedupSpec.flag_bonus h_index Merge.c_0_1))
             (DedupSpec.flag_bonus citations Merge.c_0_1))
          (DedupSpec.flag_bonus areas Merge.c_0_1))
       (DedupSpec.flag_bonus publications Merge.c_0_2))
    Merge.c_1_0.

(** The confidence in the words of the specification, in exact
    arithmetic: 0.5, plus 0.1 for the h-index, 0.1 for the citation count,
    0.1 for the research areas and 0.2 for the publications, capped at
    1.0. *)
Definition claimed_confidence (h_index citations areas publications : bool)
    : Q :=
  Qmin 1
    (0.5 + (if h_index then 0.1 else 0) + (if citations then 0.1 else 0)
     + (if areas then 0.1 else 0) + (if publications then 0.2 else 0))%Q.

(** The same sum in exact arithmetic, in tenths. *)
Definition tenths (h_index citations areas publications : bool) : Z :=
  Z.min 10
    (5 + (if h_index then 1 else 0) + (if citations then 1 else 0)
     + (if areas then 1 else 0) + (if publications then 2 else 0)).

End MergeSpec.

Module RunnerSpec.

(** The job has its row in [scrape_jobs], so that the recorder can store
    the stages of the job. *)
Definition tracked (jobId : string) (s : State.t) : bool :=
  JobsRepository.references_job s jobId.

(** The recorder's job gets its row: [jobId] is the identifier of the row
    that [runPipeline] inserts, or of a row that is there already. *)
Definition recorded (jobId repoJobId : string) (s : State.t) : bool :=
  String.eqb repoJobId jobId || tracked jobId s.

(** [hoare job pre c Q]: started where [job] has its row and the runner's
    [errors] array equals [pre], the computation [c] returns (it does not
    throw), the job keeps its row, and the final [errors] array and the
    result satisfy [Q]. *)
Definition hoare {A} (job : string) (pre : list string) (c : Eff A)
    (Q : list string -> A -> Prop) : Prop :=
  forall s, tracked job s = true -> State.errors s = pre ->
    exists a s',
      c s = (Returned a, s') /\ tracked job s' = true /\ Q (State.errors s') a.

(** [c] returns and leaves the [errors] array alone. *)
Definition steady {A} (job : string) (c : Eff A) : Prop :=
  forall e, hoare job e c (fun e' _ => e' = e).

(** [c] leaves the [errors] array and the row of [job] alone, whether it
    returns or throws. *)
Definition keeps {A} (job : string) (c : Eff A) : Prop :=
  forall s,
    State.errors (snd (c s)) = State.errors s
    /\ tracked job (snd (c s)) = tracked job s.

(** The selector set that step 1 hands on: [scrape_config?.selectors || {}]. *)
Definition selectors_of (d : Directory.t) : Selectors.t :=
  match Directory.scrape_config d with
  | Some c =>
      match ScrapeConfig.selectors c with
      | Some sel => sel
      | None => Selectors.empty
      end
  | None => Selectors.empty
  end.



End RunnerSpec.

(* ===================================================================== *)
(** * Sample data *)
(* ===================================================================== *)

Module Demo.

Fixpoint until_slash (s : string) : string :=
  match s with
  | EmptyString => EmptyString
  | String c r =>
      if Ascii.eqb c "/"%char then EmptyString else String c (until_slash r)
  end.

(** A host-name reader for the examples, which agrees with
    [new URL(s).hostname] on the URLs used here (lower-case [http] or
    [https] scheme, host, path; no port, credentials or query): the text
    between the scheme and the next slash; anything without such a scheme
    does not parse. *)
Definition url_hostname (s : string) : option string :=
  if String.prefix "https://" s
  then Some (until_slash (String.substring 8 (String.length s - 8) s))
  else if String.prefix "http://" s
  then Some (until_slash (String.substring 7 (String.length s - 7) s))
  else None.

(** Jane Doe of X University / CS as a candidate. *)
Definition candidate (title email phone website : option string)
    : ParsedResearcher.t :=
  {| ParsedResearcher.first_name := "Jane";
     ParsedResearcher.last_name := "Doe";
     ParsedResearcher.full_name := "Jane Doe";
     ParsedResearcher.university := "X University";
     ParsedResearcher.department := "CS";
     ParsedResearcher.title := title;
     ParsedResearcher.email := email;
     ParsedResearcher.phone := phone;
     ParsedResearcher.office := None;
     ParsedResearcher.website := website;
     ParsedResearcher.photo_url := None;
     ParsedResearcher.research_areas := None |}.

(** Jane Doe as a stored row. *)
Definition stored (id : Z) (title email phone website : option string)
    : ResearcherRow.t :=
  {| ResearcherRow.id := id;
     ResearcherRow.first_name := "Jane";
     ResearcherRow.last_name := "Doe";
     ResearcherRow.full_name := "Jane Doe";
     ResearcherRow.university := Some "X University";
     ResearcherRow.department := Some "CS";
     ResearcherRow.title := title;
     ResearcherRow.email := email;
     ResearcherRow.phone := phone;
     ResearcherRow.office := None;
     ResearcherRow.website := website;
     ResearcherRow.photo_url := None;
     ResearcherRow.google_scholar_url := None;
     ResearcherRow.dblp_url := None;
     ResearcherRow.semantic_scholar_id := None;
     ResearcherRow.orcid := None;
     ResearcherRow.h_index := None;
     ResearcherRow.citations_total := 0;
     ResearcherRow.publications_count := 0;
     ResearcherRow.research_areas := None;
     ResearcherRow.bio := None;
     ResearcherRow.source_directory_id := Some 1;
     ResearcherRow.enrichment_status := Pending;
     ResearcherRow.enrichment_error := None;
     ResearcherRow.last_verified := None;
     ResearcherRow.created_at := "2024-01-01 00:00:00";
     ResearcherRow.updated_at := "2024-01-01 00:00:00" |}.

Definition jane_row : ResearcherRow.t :=
  stored 1 (Some "Professor") (Some "jane@x.edu") None None.

(** The same row under the identity 0. *)
Definition jane_row_zero : ResearcherRow.t :=
  stored 0 (Some "Professor") (Some "jane@x.edu") None None.

Definition jane : ParsedResearcher.t :=
  candidate (Some "Professor") (Some "jane@x.edu") None None.

Definition jane_promoted : ParsedResearcher.t :=
  candidate (Some "Associate Professor") (Some "jane@x.edu") None None.

Definition jane_no_email : ParsedResearcher.t :=
  candidate (Some "Professor") None None None.

Definition jane_with_phone : ParsedResearcher.t :=
  candidate (Some "Professor") None (Some "(555) 123-4567") None.

Definition jane_row_with_phone : ResearcherRow.t :=
  stored 1 (Some "Professor") (Some "jane@x.edu") (Some "555-123-4567") None.

(** John Doe, as in [test/steps/E3-merge-data.test.ts]. *)
Definition john (h_index citations_total : option Z) (bio : option string)
    : Researcher.t :=
  {| Researcher.id := 1;
     Researcher.first_name := "John";
     Researcher.last_name := "Doe";
     Researcher.full_name := "John Doe";
     Researcher.university := None;
     Researcher.department := None;
     Researcher.title := None;
     Researcher.email := None;
     Researcher.phone := None;
     Researcher.office := None;
     Researcher.website := None;
     Researcher.photo_url := None;
     Researcher.google_scholar_url := None;
     Researcher.dblp_url := None;
     Researcher.semantic_scholar_id := None;
     Researcher.orcid := None;
     Researcher.h_index := h_index;
     Researcher.citations_total := citations_total;
     Researcher.publications_count := 0;
     Researcher.research_areas := None;
     Researcher.bio := bio;
     Researcher.source_directory_id := None;
     Researcher.enrichment_status := Pending;
     Researcher.enrichment_error := None;
     Researcher.last_verified := None;
     Researcher.created_at := "2024-01-01 00:00:00";
     Researcher.updated_at := "2024-01-01 00:00:00" |}.

Definition bundle (h_index citations_total : option Z) (bio : option string)
    : EnrichedData.t :=
  {| EnrichedData.publications := None;
     EnrichedData.h_index := h_index;
     EnrichedData.citations_total := citations_total;
     EnrichedData.research_areas := None;
     EnrichedData.bio := bio;
     EnrichedData.google_scholar_url := None;
     EnrichedData.dblp_url := None;
     EnrichedData.semantic_scholar_id := None;
     EnrichedData.orcid := None |}.

Definition now : string := "2024-06-01T12:00:00.000Z".

(** A directory whose card selector picks the document element. *)
Definition selectors (name : string) : Selectors.t :=
  {| Selectors.card := Some "html";
     Selectors.name := Some name;
     Selectors.title := None;
     Selectors.email := None;
     Selectors.phone := None;
     Selectors.office := None;
     Selectors.website := None;
     Selectors.photo := None;
     Selectors.research_areas := None |}.

Definition directory (name_selector : string) : Directory.t :=
  {| Directory.id := 1;
     Directory.university := "X University";
     Directory.department := "CS";
     Directory.directory_url := "https://x.edu/cs/people";
     Directory.profile_url_pattern := None;
     Directory.scrape_method := Playwright;
     Directory.scrape_config :=
       Some {| ScrapeConfig.selectors := Some (selectors name_selector);
               ScrapeConfig.load_more_selector := None;
               ScrapeConfig.scroll_to_load := None;
               ScrapeConfig.scroll_config := None;
               ScrapeConfig.pagination_type := None;
               ScrapeConfig.filter_selector := None;
               ScrapeConfig.filter_value := None;
               ScrapeConfig.wait_after_load_ms := None |};
     Directory.is_active := true;
     Directory.last_scraped := None;
     Directory.records_last_scrape := 0;
     Directory.created_at := "2024-01-01 00:00:00";
     Directory.updated_at := "2024-01-01 00:00:00" |}.

(** An empty store that knows one directory. *)
Definition world (name_selector : string) : State.t :=
  {| State.researchers := [];
     State.researchers_seq := 0;
     State.enrichment_queue := [];
     State.enrichment_queue_seq := 0;
     State.directories := [directory name_selector];
     State.scrape_jobs := [];
     State.step_outputs := [];
     State.files := ∅;
     State.recording :=
       {| JobRecording.jobId := ""; JobRecording.directoryId := None;
          JobRecording.steps := [] |};
     State.currentStep := None;
     State.errors := [] |}.

(** The placeholder page of step 2 as [cheerio] serializes it after
    parsing: the parser supplies the missing [head] element. *)
Definition placeholder_document : string :=
  "<html><head></head><body>Placeholder content</body></html>".

(** Stand-in for [runStep4] on the placeholder page of step 2.  The card
    selector [html] matches the one document element; within it the name
    selector [body] finds the text "Placeholder content", and any other
    name selector finds nothing. *)
Definition extract (input : Step4Input.t) : Outcome Step4Output.t :=
  let sel := Step4Input.selectors input in
  if JS.opt_eqb (Selectors.card sel) (Some "html") then
    let name_text :=
      if JS.opt_eqb (Selectors.name sel) (Some "body")
      then Some "Placeholder content" else None in
    Returned
      {| Step4Output.raw_cards :=
           [{| RawCard.index := 0;
               RawCard.outer_html := placeholder_document;
               RawCard.name_text := name_text;
               RawCard.title_text := None;
               RawCard.email_text := None;
               RawCard.phone_text := None;
               RawCard.office_text := None;
               RawCard.website_url := None;
               RawCard.photo_url := None;
               RawCard.research_areas_text := None;
               RawCard.profile_link := None |}];
         Step4Output.extraction_stats :=
           {| ExtractionStats.total_cards := 1;
              ExtractionStats.cards_with_name :=
                if JS.truthy name_text then 1 else 0;
              ExtractionStats.cards_with_email := 0;
              ExtractionStats.cards_with_title := 0;
              ExtractionStats.cards_with_website := 0 |} |}
  else
    Returned
      {| Step4Output.raw_cards := [];
         Step4Output.extraction_stats :=
           {| ExtractionStats.total_cards := 0;
              ExtractionStats.cards_with_name := 0;
              ExtractionStats.cards_with_email := 0;
              ExtractionStats.cards_with_title := 0;
              ExtractionStats.cards_with_website := 0 |} |}.

Definition upper_ascii (c : ascii) : ascii :=
  let n := N_of_ascii c in
  if ((97 <=? n) && (n <=? 122))%N then ascii_of_N (n - 32) else c.

Definition capitalize (s : string) : string :=
  match s with
  | EmptyString => EmptyString
  | String c r => String (upper_ascii c) r
  end.

Fixpoint until_space (s : string) : string :=
  match s with
  | EmptyString => EmptyString
  | String c r =>
      if Ascii.eqb c " "%char then EmptyString else String c (until_space r)
  end.

Fixpoint after_space (s : string) : string :=
  match s with
  | EmptyString => EmptyString
  | String c r => if Ascii.eqb c " "%char then r else after_space r
  end.

(** Stand-in for [parseCard] on cards that carry at most a two-word name:
    the name is split at the blank and capitalized; a card without a name
    yields the parse error "Missing name". *)
Definition name_only (university department : string) (card : RawCard.t)
    : ParsedResearcher.t + ParseError.t :=
  match JS.or_undefined (RawCard.name_text card) with
  | Some name =>
      let firstName := capitalize (until_space name) in
      let lastName := capitalize (after_space name) in
      inl {| ParsedResearcher.first_name := firstName;
             ParsedResearcher.last_name := lastName;
             ParsedResearcher.full_name :=
               if String.eqb lastName "" then firstName
               else firstName +:+ " " +:+ lastName;
             ParsedResearcher.university := university;
             ParsedResearcher.department := department;
             ParsedResearcher.title := None;
             ParsedResearcher.email := None;
             ParsedResearcher.phone := None;
             ParsedResearcher.office := None;
             ParsedResearcher.website := None;
             ParsedResearcher.photo_url := None;
             ParsedResearcher.research_areas := None |}
  | None =>
      inr {| ParseError.card_index := RawCard.index card;
             ParseError.field := "name";
             ParseError.error := "Missing name";
             ParseError.raw_value := None |}
  end.

Definition lefts {A B} (l : list (A + B)) : list A :=
  flat_map (fun x => match x with inl a => [a] | inr _ => [] end) l.

Definition rights {A B} (l : list (A + B)) : list B :=
  flat_map (fun x => match x with inl _ => [] | inr b => [b] end) l.

(** Stand-in for [runStep5]. *)
Definition normalize (input : Step5Input.t) : Outcome Step5Output.t :=
  let parsed :=
    map (name_only (Step5Input.university input) (Step5Input.department input))
        (Step5Input.raw_cards input) in
  Returned
    {| Step5Output.researchers := lefts parsed;
       Step5Output.parse_errors := rights parsed;
       Step5Output.normalization_stats :=
         {| NormalizationStats.total_parsed := Z.of_nat (length (lefts parsed));
            NormalizationStats.emails_normalized := 0;
            NormalizationStats.names_split := Z.of_nat (length (lefts parsed));
            NormalizationStats.titles_standardized := 0 |} |}.

Definition options (mode : Mode) : PipelineOptions.t :=
  {| PipelineOptions.mode := mode;
     PipelineOptions.debug := None;
     PipelineOptions.stopAfterStep := None;
     PipelineOptions.dryRun := None |}.




End Demo.

(* ===================================================================== *)
(** * Step 1: load directory config
      ([src/pipeline/steps/01-load-config.ts]) *)
(* ===================================================================== *)

Module SelectorsDiscovered.
Record t := mk {
  researcher_card : option string;
  name : option string;
  title : option string;
  email : option string;
  phone : option string;
  website : option string;
  photo : option string;
}.
End SelectorsDiscovered.

Module Step0Output.
Record t := mk {
  total_researchers_found : Z;
  load_more_detected : bool;
  load_more_clicks : Z;
  scroll_performed : bool;
  pagination_detected : bool;
  pagination_pages : option Z;
  selectors_discovered : SelectorsDiscovered.t;
  final_page_html : string;
  screenshots : list string;
  analysis_notes : list string;
}.
End Step0Output.

Module Step1Input.
Record t := mk {
  directory_id : option Z;
  from_step0 : option Step0Output.t;
  url : option string;
}.
End Step1Input.

Module LoadConfig.

(** The object literal [{}] as a [ScrapeConfig]. *)
Definition empty_config : ScrapeConfig.t :=
  {| ScrapeConfig.selectors := None;
     ScrapeConfig.load_more_selector := None;
     ScrapeConfig.scroll_to_load := None;
     ScrapeConfig.scroll_config := None;
     ScrapeConfig.pagination_type := None;
     ScrapeConfig.filter_selector := None;
     ScrapeConfig.filter_value := None;
     ScrapeConfig.wait_after_load_ms := None |}.

(** [c || {}] *)
Definition config_or_empty (c : option ScrapeConfig.t) : ScrapeConfig.t :=
  match c with
  | Some c => c
  | None => empty_config
  end.

Definition selectors_or_empty (o : option Selectors.t) : Selectors.t :=
  match o with
  | Some sel => sel
  | None => Selectors.empty
  end.

Definition set_scrape_config (config : ScrapeConfig.t) (d : Directory.t)
    : Directory.t :=
  {| Directory.id := Directory.id d;
     Directory.university := Directory.university d;
     Directory.department := Directory.department d;
     Directory.directory_url := Directory.directory_url d;
     Directory.profile_url_pattern := Directory.profile_url_pattern d;
     Directory.scrape_method := Directory.scrape_method d;
     Directory.scrape_config := Some config;
     Directory.is_active := Directory.is_active d;
     Directory.last_scraped := Directory.last_scraped d;
     Directory.records_last_scrape := Directory.records_last_scrape d;
     Directory.created_at := Directory.created_at d;
     Directory.updated_at := Directory.updated_at d |}.

(** [directory.scrape_config = { ...existingConfig, selectors: {
    ...existingConfig.selectors, card: ..., ..., photo: ... } }]: the seven
    listed keys are set, also to [undefined]. *)
Definition with_discovered (discovered : SelectorsDiscovered.t)
    (directory : Directory.t) : Directory.t :=
  let existingConfig := config_or_empty (Directory.scrape_config directory) in
  let existing := selectors_or_empty (ScrapeConfig.selectors existingConfig) in
  set_scrape_config
    {| ScrapeConfig.selectors :=
         Some {| Selectors.card := SelectorsDiscovered.researcher_card discovered;
                 Selectors.name := SelectorsDiscovered.name discovered;
                 Selectors.title := SelectorsDiscovered.title discovered;
                 Selectors.email := SelectorsDiscovered.email discovered;
                 Selectors.phone := SelectorsDiscovered.phone discovered;
                 Selectors.office := Selectors.office existing;
                 Selectors.website := SelectorsDiscovered.website discovered;
                 Selectors.photo := SelectorsDiscovered.photo discovered;
                 Selectors.research_areas := Selectors.research_areas existing |};
       ScrapeConfig.load_more_selector :=
         ScrapeConfig.load_more_selector existingConfig;
       ScrapeConfig.scroll_to_load := ScrapeConfig.scroll_to_load existingConfig;
       ScrapeConfig.scroll_config := ScrapeConfig.scroll_config existingConfig;
       ScrapeConfig.pagination_type := ScrapeConfig.pagination_type existingConfig;
       ScrapeConfig.filter_selector := ScrapeConfig.filter_selector existingConfig;
       ScrapeConfig.filter_value := ScrapeConfig.filter_value existingConfig;
       ScrapeConfig.wait_after_load_ms :=
         ScrapeConfig.wait_after_load_ms existingConfig |}
    directory.

(** The minimal directory built from Step 0 and a URL; [created] and
    [updated] are the two readings of the clock. *)
Definition minimal_directory (created updated : string)
    (discovered : SelectorsDiscovered.t) (url : string) : Directory.t :=
  {| Directory.id := 0;
     Directory.university := "Unknown";
     Directory.department := "Unknown";
     Directory.directory_url := url;
     Directory.profile_url_pattern := None;
     Directory.scrape_method := Playwright;
     Directory.scrape_config :=
       Some {| ScrapeConfig.selectors :=
                 Some {| Selectors.card :=
                           SelectorsDiscovered.researcher_card discovered;
                         Selectors.name := SelectorsDiscovered.name discovered;
                         Selectors.title := SelectorsDiscovered.title discovered;
                         Selectors.email := SelectorsDiscovered.email discovered;
                         Selectors.phone := None;
                         Selectors.office := None;
                         Selectors.website := None;
                         Selectors.photo := None;
                         Selectors.research_areas := None |};
               ScrapeConfig.load_more_selector := None;
               ScrapeConfig.scroll_to_load := None;
               ScrapeConfig.scroll_config := None;
               ScrapeConfig.pagination_type := None;
               ScrapeConfig.filter_selector := None;
               ScrapeConfig.filter_value := None;
               ScrapeConfig.wait_after_load_ms := None |};
     Directory.is_active := true;
     Directory.last_scraped := None;
     Directory.records_last_scrape := 0;
     Directory.created_at := created;
     Directory.updated_at := updated |}.

Definition defaultSelectors : Selectors.t :=
  {| Selectors.card :=
       Some ".faculty-card, .person-card, .profile-card, article.faculty";
     Selectors.name := Some ".name, .faculty-name, .person-name, h2, h3";
     Selectors.title := Some ".title, .position, .faculty-title";
     Selectors.email := Some (String.concat (String (ascii_of_nat 34) "")
                                ["a[href^="; "mailto:"; "], .email"]);
     Selectors.phone := Some (String.concat (String (ascii_of_nat 34) "")
                                [".phone, .telephone, a[href^="; "tel:"; "]"]);
     Selectors.office := Some ".office, .location, .room";
     Selectors.website := Some (String.concat (String (ascii_of_nat 34) "")
                                  ["a[href*="; "http"; "]:not([href*=";
                                   "mailto"; "])"]);
     Selectors.photo := Some "img.photo, img.headshot, img.portrait";
     Selectors.research_areas := Some ".research, .interests, .expertise" |}.

(** [a || b] on optional strings. *)
Definition or_else (a b : option string) : option string :=
  if JS.truthy a then a else b.

(** [n || 1000] on an optional number. *)
Definition or_1000 (n : option Z) : Z :=
  match n with
  | Some v => if v =? 0 then 1000 else v
  | None => 1000
  end.

Definition errorMessage : string :=
  "No directory configuration found. Provide directory_id, url, or from_step0.".

Definition loadDirectoryConfig (created updated : string) (input : Step1Input.t)
    : Eff Step1Output.t :=
  (* Load from database by ID *)
  do directory <-
    match Step1Input.directory_id input with
    | Some id =>
        if id =? 0 then ret None else DirectoriesRepository.findById id
    | None => ret None
    end;
  (* Use provided config from Step 0 *)
  let '(directory, useStep0Html) :=
    match Step1Input.from_step0 input with
    | Some step0 =>
        (match directory with
         | Some d =>
             Some (with_discovered (Step0Output.selectors_discovered step0) d)
         | None =>
             match Step1Input.url input with
             | Some url =>
                 if negb (String.eqb url "")
                 then Some (minimal_directory created updated
                              (Step0Output.selectors_discovered step0) url)
                 else None
             | None => None
             end
         end, true)
    | None => (directory, false)
    end in
  match directory with
  | None => throw errorMessage
  | Some directory =>
      (* Build selectors with defaults *)
      let config := config_or_empty (Directory.scrape_config directory) in
      let selectors := selectors_or_empty (ScrapeConfig.selectors config) in
      ret {| Step1Output.directory := directory;
             Step1Output.url := Directory.directory_url directory;
             Step1Output.scrape_method := Directory.scrape_method directory;
             Step1Output.selectors :=
               {| Selectors.card :=
                    or_else (Selectors.card selectors)
                            (Selectors.card defaultSelectors);
                  Selectors.name :=
                    or_else (Selectors.name selectors)
                            (Selectors.name defaultSelectors);
                  Selectors.title :=
                    or_else (Selectors.title selectors)
                            (Selectors.title defaultSelectors);
                  Selectors.email :=
                    or_else (Selectors.email selectors)
                            (Selectors.email defaultSelectors);
                  Selectors.phone :=
                    or_else (Selectors.phone selectors)
                            (Selectors.phone defaultSelectors);
                  Selectors.office :=
                    or_else (Selectors.office selectors)
                            (Selectors.office defaultSelectors);
                  Selectors.website :=
                    or_else (Selectors.website selectors)
                            (Selectors.website defaultSelectors);
                  Selectors.photo :=
                    or_else (Selectors.photo selectors)
                            (Selectors.photo defaultSelectors);
                  Selectors.research_areas :=
                    or_else (Selectors.research_areas selectors)
                            (Selectors.research_areas defaultSelectors) |};
             Step1Output.load_more_config :=
               match ScrapeConfig.load_more_selector config with
               | Some sel =>
                   if negb (String.eqb sel "") then
                     Some {| LoadMoreConfig.selector := sel;
                             LoadMoreConfig.max_clicks := 30;
                             LoadMoreConfig.wait_between_clicks_ms :=
                               or_1000 (ScrapeConfig.wait_after_load_ms config) |}
                   else None
               | None => None
               end;
             Step1Output.scroll_config := ScrapeConfig.scroll_config config;
             Step1Output.use_step0_html := useStep0Html |}
  end.

Definition runStep1 := loadDirectoryConfig.

End LoadConfig.

(* ===================================================================== *)
(** * Normalizer and researcher parser
      ([src/parsers/normalizer.ts], [src/parsers/researcher-parser.ts]) *)
(* ===================================================================== *)

Module Normalizer.

(** The code units below 256 that [\s] matches and that [trim] strips:
    tab, line feed, vertical tab, form feed, carriage return, space and
    the no-break space U+00A0. *)
Definition is_space (c : ascii) : bool :=
  let n := N_of_ascii c in
  (((9 <=? n) && (n <=? 13)) || (n =? 32) || (n =? 160))%N.

Fixpoint trimStart (s : string) : string :=
  match s with
  | EmptyString => EmptyString
  | String c r => if is_space c then trimStart r else s
  end.

Fixpoint trimEnd (s : string) : string :=
  match s with
  | EmptyString => EmptyString
  | String c r =>
      match trimEnd r with
      | EmptyString => if is_space c then EmptyString else String c EmptyString
      | String c' r' => String c (String c' r')
      end
  end.

(** [s.trim()] *)
Definition trim (s : string) : string := trimEnd (trimStart s).

Definition normalizeEmail (email : string) : string :=
  trim (JS.toLowerCase email).

(** The character class [[^\s@]]. *)
Definition plain (c : ascii) : bool := negb (is_space c) && negb (JS.is_at c).

Fixpoint all_plain (s : string) : bool :=
  match s with
  | EmptyString => true
  | String c r => plain c && all_plain r
  end.

(** The text has a dot with at least one character before it and at least
    one after it. *)
Fixpoint has_inner_dot (s : string) : bool :=
  match s with
  | String _ (String c r as t) =>
      (Ascii.eqb c "."%char && negb (String.eqb r "")) || has_inner_dot t
  | _ => false
  end.

(** [/^[^\s@]+@[^\s@]+\.[^\s@]+$/.test(email)]: a non-empty text without
    spaces before the first at-sign; after it, a text without spaces and
    at-signs that has an inner dot. *)
Definition isValidEmail (email : string) : bool :=
  match JS.after_at email with
  | Some domain =>
      negb (String.eqb (JS.until_at email) "")
      && all_plain (JS.until_at email)
      && all_plain domain && has_inner_dot domain
  | None => false
  end.

(** The character class [[\d+]]: what [replace(/[^\d+]/g, '')] keeps. *)
Definition digit_or_plus (c : ascii) : bool :=
  JS.is_digit c || Ascii.eqb c "+"%char.

Fixpoint keep_chars (keep : ascii -> bool) (s : string) : string :=
  match s with
  | EmptyString => EmptyString
  | String c r =>
      if keep c then String c (keep_chars keep r) else keep_chars keep r
  end.

Fixpoint take (n : nat) (s : string) : string :=
  match n, s with
  | S n', String c r => String c (take n' r)
  | _, _ => EmptyString
  end.

Fixpoint drop (n : nat) (s : string) : string :=
  match n, s with
  | S n', String _ r => drop n' r
  | _, _ => s
  end.

(** [s.slice(a, b)] for [0 <= a <= b], and [s.slice(a)]. *)
Definition slice (a b : nat) (s : string) : string := take (b - a) (drop a s).
Definition slice_from (a : nat) (s : string) : string := drop a s.

Definition normalizePhone (phone : string) : string :=
  (* Remove all non-digit characters except + for international *)
  let digitsOnly := keep_chars digit_or_plus phone in
  (* Format US numbers *)
  if Nat.eqb (String.length digitsOnly) 10 then
    "(" +:+ slice 0 3 digitsOnly +:+ ") " +:+ slice 3 6 digitsOnly +:+ "-"
    +:+ slice_from 6 digitsOnly
  else if Nat.eqb (String.length digitsOnly) 11 && String.prefix "1" digitsOnly
  then
    "+1 (" +:+ slice 1 4 digitsOnly +:+ ") " +:+ slice 4 7 digitsOnly +:+ "-"
    +:+ slice_from 7 digitsOnly
  else digitsOnly.

End Normalizer.

Module ResearcherParser.

Definition parseEmail (email : string) : option string :=
  let normalized := Normalizer.normalizeEmail email in
  if Normalizer.isValidEmail normalized then Some normalized else None.

Definition parsePhone (phone : string) : option string :=
  let normalized := Normalizer.normalizePhone phone in
  (* Must have at least 10 digits *)
  let digitCount := String.length (JS.digits normalized) in
  if Nat.ltb digitCount 10 then None else Some normalized.

End ResearcherParser.

(* ===================================================================== *)
(** * Step 5: parse and normalize
      ([src/pipeline/steps/05-parse-normalize.ts]) *)
(* ===================================================================== *)

Module ParsedName.
Record t := mk {
  first_name : string;
  last_name : string;
  full_name : string;
  prefix : option string;
  suffix : option string;
}.
End ParsedName.

Module ParseNormalize.

Section WithParsers.

(** The text functions of the normalizer that are built from regular
    expressions ([replace] and [trim] do not throw), and the parsers of
    names, titles, URLs and research areas, which are called inside [try]
    blocks and may throw. *)
Variable cleanHtml : string -> string.
Variable normalizeWhitespace : string -> string.
Variable parseName : string -> Outcome ParsedName.t.
Variable parseTitle : string -> Outcome string.
Variable parseWebsite : string -> Outcome (option string).
Variable parseResearchAreas : string -> Outcome (list string).

Definition error (card : RawCard.t) (field message : string)
    (raw_value : option string) : ParseError.t :=
  {| ParseError.card_index := RawCard.index card;
     ParseError.field := field;
     ParseError.error := message;
     ParseError.raw_value := raw_value |}.

(** The researcher object under construction and the errors pushed so
    far to the shared [errors] array. *)
Definition Building : Type := ParsedResearcher.t * list ParseError.t.

Definition set_title (v : string) (r : ParsedResearcher.t) : ParsedResearcher.t :=
  {| ParsedResearcher.first_name := ParsedResearcher.first_name r;
     ParsedResearcher.last_name := ParsedResearcher.last_name r;
     ParsedResearcher.full_name := ParsedResearcher.full_name r;
     ParsedResearcher.university := ParsedResearcher.university r;
     ParsedResearcher.department := ParsedResearcher.department r;
     ParsedResearcher.title := Some v;
     ParsedResearcher.email := ParsedResearcher.email r;
     ParsedResearcher.phone := ParsedResearcher.phone r;
     ParsedResearcher.office := ParsedResearcher.office r;
     ParsedResearcher.website := ParsedResearcher.website r;
     ParsedResearcher.photo_url := ParsedResearcher.photo_url r;
     ParsedResearcher.research_areas := ParsedResearcher.research_areas r |}.

Definition set_email (v : string) (r : ParsedResearcher.t) : ParsedResearcher.t :=
  {| ParsedResearcher.first_name := ParsedResearcher.first_name r;
     ParsedResearcher.last_name := ParsedResearcher.last_name r;
     ParsedResearcher.full_name := ParsedResearcher.full_name r;
     ParsedResearcher.university := ParsedResearcher.university r;
     ParsedResearcher.department := ParsedResearcher.department r;
     ParsedResearcher.title := ParsedResearcher.title r;
     ParsedResearcher.email := Some v;
     ParsedResearcher.phone := ParsedResearcher.phone r;
     ParsedResearcher.office := ParsedResearcher.office r;
     ParsedResearcher.website := ParsedResearcher.website r;
     ParsedResearcher.photo_url := ParsedResearcher.photo_url r;
     ParsedResearcher.research_areas := ParsedResearcher.research_areas r |}.

Definition set_phone (v : string) (r : ParsedResearcher.t) : ParsedResearcher.t :=
  {| ParsedResearcher.first_name := ParsedResearcher.first_name r;
     ParsedResearcher.last_name := ParsedResearcher.last_name r;
     ParsedResearcher.full_name := ParsedResearcher.full_name r;
     ParsedResearcher.university := ParsedResearcher.university r;
     ParsedResearcher.department := ParsedResearcher.department r;
     ParsedResearcher.title := ParsedResearcher.title r;
     ParsedResearcher.email := ParsedResearcher.email r;
     ParsedResearcher.phone := Some v;
     ParsedResearcher.office := ParsedResearcher.office r;
     ParsedResearcher.website := ParsedResearcher.website r;
     ParsedResearcher.photo_url := ParsedResearcher.photo_url r;
     ParsedResearcher.research_areas := ParsedResearcher.research_areas r |}.

Definition set_office (v : string) (r : ParsedResearcher.t) : ParsedResearcher.t :=
  {| ParsedResearcher.first_name := ParsedResearcher.first_name r;
     ParsedResearcher.last_name := ParsedResearcher.last_name r;
     ParsedResearcher.full_name := ParsedResearcher.full_name r;
     ParsedResearcher.university := ParsedResearcher.university r;
     ParsedResearcher.department := ParsedResearcher.department r;
     ParsedResearcher.title := ParsedResearcher.title r;
     ParsedResearcher.email := ParsedResearcher.email r;
     ParsedResearcher.phone := ParsedResearcher.phone r;
     ParsedResearcher.office := Some v;
     ParsedResearcher.website := ParsedResearcher.website r;
     ParsedResearcher.photo_url := ParsedResearcher.photo_url r;
     ParsedResearcher.research_areas := ParsedResearcher.research_areas r |}.

Definition set_website (v : string) (r : ParsedResearcher.t) : ParsedResearcher.t :=
  {| ParsedResearcher.first_name := ParsedResearcher.first_name r;
     ParsedResearcher.last_name := ParsedResearcher.last_name r;
     ParsedResearcher.full_name := ParsedResearcher.full_name r;
     ParsedResearcher.university := ParsedResearcher.university r;
     ParsedResearcher.department := ParsedResearcher.department r;
     ParsedResearcher.title := ParsedResearcher.title r;
     ParsedResearcher.email := ParsedResearcher.email r;
     ParsedResearcher.phone := ParsedResearcher.phone r;
     ParsedResearcher.office := ParsedResearcher.office r;
     ParsedResearcher.website := Some v;
     ParsedResearcher.photo_url := ParsedResearcher.photo_url r;
     ParsedResearcher.research_areas := ParsedResearcher.research_areas r |}.

Definition set_photo_url (v : string) (r : ParsedResearcher.t)
    : ParsedResearcher.t :=
  {| ParsedResearcher.first_name := ParsedResearcher.first_name r;
     ParsedResearcher.last_name := ParsedResearcher.last_name r;
     ParsedResearcher.full_name := ParsedResearcher.full_name r;
     ParsedResearcher.university := ParsedResearcher.university r;
     ParsedResearcher.department := ParsedResearcher.department r;
     ParsedResearcher.title := ParsedResearcher.title r;
     ParsedResearcher.email := ParsedResearcher.email r;
     ParsedResearcher.phone := ParsedResearcher.phone r;
     ParsedResearcher.office := ParsedResearcher.office r;
     ParsedResearcher.website := ParsedResearcher.website r;
     ParsedResearcher.photo_url := Some v;
     ParsedResearcher.research_areas := ParsedResearcher.research_areas r |}.

Definition set_research_areas (v : list string) (r : ParsedResearcher.t)
    : ParsedResearcher.t :=
  {| ParsedResearcher.first_name := ParsedResearcher.first_name r;
     ParsedResearcher.last_name := ParsedResearcher.last_name r;
     ParsedResearcher.full_name := ParsedResearcher.full_name r;
     ParsedResearcher.university := ParsedResearcher.university r;
     ParsedResearcher.department := ParsedResearcher.department r;
     ParsedResearcher.title := ParsedResearcher.title r;
     ParsedResearcher.email := ParsedResearcher.email r;
     ParsedResearcher.phone := ParsedResearcher.phone r;
     ParsedResearcher.office := ParsedResearcher.office r;
     ParsedResearcher.website := ParsedResearcher.website r;
     ParsedResearcher.photo_url := ParsedResearcher.photo_url r;
     ParsedResearcher.research_areas := Some v |}.

(** [if (card.f) { ... }] on an optional text of the card. *)
Definition when_present (text : option string) (step : string -> Building -> Building)
    (b : Building) : Building :=
  match text with
  | Some v => if negb (String.eqb v "") then step v b else b
  | None => b
  end.

Definition push (e : ParseError.t) (b : Building) : Building :=
  (fst b, snd b ++ [e]).

Definition update (f : ParsedResearcher.t -> ParsedResearcher.t) (b : Building)
    : Building :=
  (f (fst b), snd b).

(** The blocks of [parseCard] that follow the construction of the
    researcher object, in the order of the source. *)
Definition parse_title (card : RawCard.t) : Building -> Building :=
  when_present (RawCard.title_text card) (fun text b =>
    match parseTitle (cleanHtml text) with
    | Returned title => update (set_title title) b
    | Thrown _ => push (error card "title" "Title parsing failed" (Some text)) b
    end).

Definition parse_email (card : RawCard.t) : Building -> Building :=
  when_present (RawCard.email_text card) (fun text b =>
    match ResearcherParser.parseEmail text with
    | Some email =>
        if negb (String.eqb email "") then update (set_email email) b
        else push (error card "email" "Invalid email format" (Some text)) b
    | None => push (error card "email" "Invalid email format" (Some text)) b
    end).

Definition parse_phone (card : RawCard.t) : Building -> Building :=
  when_present (RawCard.phone_text card) (fun text b =>
    match ResearcherParser.parsePhone text with
    | Some phone =>
        if negb (String.eqb phone "") then update (set_phone phone) b else b
    | None => b
    end).

Definition parse_office (card : RawCard.t) : Building -> Building :=
  when_present (RawCard.office_text card) (fun text b =>
    update (set_office (normalizeWhitespace (cleanHtml text))) b).

Definition parse_website (card : RawCard.t) : Building -> Building :=
  when_present (RawCard.website_url card) (fun text b =>
    match parseWebsite text with
    | Returned (Some website) =>
        if negb (String.eqb website "") then update (set_website website) b
        else b
    | Returned None => b
    | Thrown _ => push (error card "website" "Website URL invalid" (Some text)) b
    end).

Definition parse_photo (card : RawCard.t) : Building -> Building :=
  when_present (RawCard.photo_url card) (fun text b =>
    match parseWebsite text with
    | Returned (Some photo) =>
        if negb (String.eqb photo "") then update (set_photo_url photo) b
        else b
    | Returned None => b
    | Thrown _ => b (* Photo URL errors are not critical *)
    end).

Definition parse_research_areas (card : RawCard.t) : Building -> Building :=
  when_present (RawCard.research_areas_text card) (fun text b =>
    match parseResearchAreas (cleanHtml text) with
    | Returned areas =>
        if 0 <? Z.of_nat (length areas)
        then update (set_research_areas areas) b else b
    | Thrown _ =>
        push (error card "research_areas" "Research areas parsing failed"
                    (Some text)) b
    end).

(** [parseCard]: the researcher, or [None] for [null], and the errors that
    the call pushes to the [errors] array. *)
Definition parseCard (card : RawCard.t) (university department : string)
    : option ParsedResearcher.t * list ParseError.t :=
  match RawCard.name_text card with
  | None => (None, [error card "name" "Missing name" None])
  | Some name_text =>
      if String.eqb name_text ""
      then (None, [error card "name" "Missing name" None])
      else
        match parseName (cleanHtml name_text) with
        | Thrown _ =>
            (None, [error card "name" "Name parsing failed" (Some name_text)])
        | Returned parsedName =>
            if String.eqb (ParsedName.first_name parsedName) ""
               && String.eqb (ParsedName.last_name parsedName) ""
            then
              (None, [error card "name" "Could not parse name" (Some name_text)])
            else
              let researcher :=
                {| ParsedResearcher.first_name := ParsedName.first_name parsedName;
                   ParsedResearcher.last_name := ParsedName.last_name parsedName;
                   ParsedResearcher.full_name := ParsedName.full_name parsedName;
                   ParsedResearcher.university := university;
                   ParsedResearcher.department := department;
                   ParsedResearcher.title := None;
                   ParsedResearcher.email := None;
                   ParsedResearcher.phone := None;
                   ParsedResearcher.office := None;
                   ParsedResearcher.website := None;
                   ParsedResearcher.photo_url := None;
                   ParsedResearcher.research_areas := None |} in
              let b :=
                parse_research_areas card
                  (parse_photo card
                     (parse_website card
                        (parse_office card
                           (parse_phone card
                              (parse_email card
                                 (parse_title card (researcher, []))))))) in
              (Some (fst b), snd b)
        end
  end.

(** The arrays and counters of [parseAndNormalize]. *)
Record Locals := mkLocals {
  researchers : list ParsedResearcher.t;
  parseErrors : list ParseError.t;
  stats : NormalizationStats.t;
}.

Definition count (b : bool) (n : Z) : Z := if b then n + 1 else n.

(** One iteration of the loop over [input.raw_cards].  [parseCard] does
    not throw, so the [catch] of the loop body is never entered. *)
Definition loop_body (university department : string) (l : Locals)
    (card : RawCard.t) : Locals :=
  let '(parsed, errors) := parseCard card university department in
  match parsed with
  | Some researcher =>
      {| researchers := researchers l ++ [researcher];
         parseErrors := parseErrors l ++ errors;
         stats :=
           {| NormalizationStats.total_parsed :=
                NormalizationStats.total_parsed (stats l) + 1;
              NormalizationStats.emails_normalized :=
                count (JS.truthy (ParsedResearcher.email researcher))
                      (NormalizationStats.emails_normalized (stats l));
              NormalizationStats.names_split :=
                count (negb (String.eqb (ParsedResearcher.first_name researcher) "")
                       && negb (String.eqb (ParsedResearcher.last_name researcher) ""))
                      (NormalizationStats.names_split (stats l));
              NormalizationStats.titles_standardized :=
                count (JS.truthy (ParsedResearcher.title researcher))
                      (NormalizationStats.titles_standardized (stats l)) |} |}
  | None =>
      {| researchers := researchers l;
         parseErrors := parseErrors l ++ errors;
         stats := stats l |}
  end.

Definition parseAndNormalize (input : Step5Input.t) : Step5Output.t :=
  let l :=
    fold_left (loop_body (Step5Input.university input)
                         (Step5Input.department input))
              (Step5Input.raw_cards input)
              (mkLocals [] [] (NormalizationStats.mk 0 0 0 0)) in
  {| Step5Output.researchers := researchers l;
     Step5Output.parse_errors := parseErrors l;
     Step5Output.normalization_stats := stats l |}.

Definition runStep5 := parseAndNormalize.

End WithParsers.

End ParseNormalize.

(* ===================================================================== *)
(** * Further vocabulary for the properties of the code *)
(* ===================================================================== *)

Module DedupAux.

Import DedupSpec.

(** The signal combinations that add up to the threshold of 0.9: the email
    domains agree, and either the titles are equal and the phone digits or
    the website hosts agree, or one title contains the other and both the
    phone digits and the website hosts agree. *)
Definition usable (s : Signals) : bool :=
  email_domain s
  && match title_signal s with
     | ExactTitle => phone_digits s || website_host s
     | SubstringTitle => phone_digits s && website_host s
     | NoTitleMatch => false
     end.

Definition is_insert (d : DedupeDecision.t) : bool :=
  match DedupeDecision.action d with
  | Insert => true
  | _ => false
  end.

(** [id] is the identity of a row of the table. *)
Definition stored_id (db : Repo.table) (id : Z) : Prop :=
  exists row, In row db /\ ResearcherRow.id row = id.

End DedupAux.

Module StoreAux.

(** The largest identity that the [researchers] table has ever assigned:
    the next [INSERT] gets the following integer. *)
Definition high_water (s : State.t) : Z :=
  Z.max (State.researchers_seq s)
        (ResearchersRepository.max_id (State.researchers s)).

Definition ids (db : Repo.table) : list Z := map ResearcherRow.id db.

(** [first + 1, ..., first + n] *)
Definition following (first : Z) (n : nat) : list Z :=
  map (fun i => first + Z.of_nat i) (seq 1 n).

(** No row collides with a later row on a unique index. *)
Fixpoint unique_rows (db : Repo.table) : bool :=
  match db with
  | [] => true
  | row :: rest =>
      negb (existsb (ResearchersRepository.collides None row) rest)
      && unique_rows rest
  end.

Fixpoint distinct (l : list Z) : bool :=
  match l with
  | [] => true
  | x :: r => negb (existsb (Z.eqb x) r) && distinct r
  end.

(** What SQLite maintains for the [researchers] table: positive and
    pairwise distinct row identities, and the two unique indexes. *)
Definition consistent (db : Repo.table) : bool :=
  forallb (fun row => 0 <? ResearcherRow.id row) db
  && distinct (ids db)
  && unique_rows db.

End StoreAux.

Module JobsAux.

(** The job has a row in [scrape_jobs]: the rows of [step_outputs] refer
    to it by a foreign key, so that the recorder can only store the
    input and output of a stage of such a job. *)
Definition job_known (s : State.t) (jobId : string) : bool :=
  existsb (fun r => String.eqb (JobRow.job_id r) jobId) (State.scrape_jobs s).

(** The sample world after [jobsRepository.create] has stored the row of
    the job ["job-1"]. *)
Definition world_with_job : State.t :=
  snd (JobsRepository.create "job-1" 1 STFull (Demo.world "body")).

End JobsAux.

Module QueueAux.

(** Every identity of the list is the identity of a stored researcher:
    the foreign key of [enrichment_queue.researcher_id]. *)
Definition all_stored (s : State.t) (researcherIds : list Z) : Prop :=
  Forall (fun id => In id (StoreAux.ids (State.researchers s))) researcherIds.

(** The researcher has an item in the enrichment queue. *)
Definition queued (queue : list QueueRow.t) (researcherId : Z) : bool :=
  existsb (fun q => QueueRow.researcher_id q =? researcherId) queue.

(** An item as [add] inserts it. *)
Definition fresh_item (priority : Z) (q : QueueRow.t) : Prop :=
  QueueRow.status q = QPending /\ QueueRow.priority q = priority
  /\ QueueRow.attempts q = 0.

(** [input.priority ?? 5] *)
Definition priority_of (input : Step8Input.t) : Z :=
  match Step8Input.priority input with
  | Some p => p
  | None => 5
  end.

End QueueAux.

Module FrameAux.

(** [c] leaves the component [proj] of the world alone, whether it returns
    or throws. *)
Definition preserves {A B} (proj : State.t -> B) (c : Eff A) : Prop :=
  forall s, proj (snd (c s)) = proj s.

(** The tables that hold data: researchers, the enrichment queue and the
    directories, with the counters of the first two.  The job-tracking
    tables and the debug directory are not part of it. *)
Definition store (s : State.t)
    : Repo.table * Z * list QueueRow.t * Z * list Directory.t :=
  (State.researchers s, State.researchers_seq s, State.enrichment_queue s,
   State.enrichment_queue_seq s, State.directories s).

(** The run is told to stop after one of the stages 1 to 6. *)
Definition stops_before_step7 (options : PipelineOptions.t) : bool :=
  match PipelineOptions.stopAfterStep options with
  | Some s =>
      String.eqb s "step1" || String.eqb s "step2" || String.eqb s "step3"
      || String.eqb s "step4" || String.eqb s "step5" || String.eqb s "step6"
  | None => false
  end.

Definition dry_run (options : PipelineOptions.t) : bool :=
  match PipelineOptions.dryRun options with
  | Some b => b
  | None => false
  end.

(** Whenever [c] returns, its result satisfies [P]. *)
Definition yields {A} (c : Eff A) (P : A -> Prop) : Prop :=
  forall s,
    match fst (c s) with
    | Returned a => P a
    | Thrown _ => True
    end.


(** The recorder's own state and what it has written. *)
Definition debug_state (s : State.t)
    : gmap string File * JobRecording.t * option StepRecording.t
      * list StepOutputRow.t :=
  (State.files s, State.recording s, State.currentStep s,
   State.step_outputs s).

(** The world in which [runStepWithTracking] runs the stage. *)
Definition started (jobId stepName : string) (s : State.t) : State.t :=
  snd (bind (JobsRepository.updateCurrentStep jobId stepName)
            (fun _ => Recorder.recordStepStart jobId stepName AEmptyObject) s).

End FrameAux.

(* ===================================================================== *)
(** * Step E4: the researcher update
      ([src/pipeline/steps/E4-persist-enriched.ts]) *)
(* ===================================================================== *)

Module PersistEnriched.

(** The [updateData] object that [persistEnrichedData] builds from
    [merged_data] and hands to [researchersRepository.update]: the ten
    properties that it copies when they are defined. *)
Definition updateData (merged_data : PartialResearcher.t)
    : PartialResearcher.t :=
  {| PartialResearcher.title := None;
     PartialResearcher.email := None;
     PartialResearcher.phone := None;
     PartialResearcher.office := None;
     PartialResearcher.website := None;
     PartialResearcher.photo_url := None;
     PartialResearcher.google_scholar_url :=
       PartialResearcher.google_scholar_url merged_data;
     PartialResearcher.dblp_url := PartialResearcher.dblp_url merged_data;
     PartialResearcher.semantic_scholar_id :=
       PartialResearcher.semantic_scholar_id merged_data;
     PartialResearcher.orcid := PartialResearcher.orcid merged_data;
     PartialResearcher.h_index := PartialResearcher.h_index merged_data;
     PartialResearcher.citations_total :=
       PartialResearcher.citations_total merged_data;
     PartialResearcher.research_areas :=
       PartialResearcher.research_areas merged_data;
     PartialResearcher.bio := PartialResearcher.bio merged_data;
     PartialResearcher.enrichment_status :=
       PartialResearcher.enrichment_status merged_data;
     PartialResearcher.last_verified :=
       PartialResearcher.last_verified merged_data |}.

End PersistEnriched.

Module MergeAux.

(** One enrichment of a stored row: the row is read as a record, merged
    with the bundle by [mergeEnrichmentData], and rewritten by the [SET]
    clause of [update] with the data that [persistEnrichedData] builds. *)
Definition enrich (now : string) (enriched : EnrichedData.t)
    (row : ResearcherRow.t) : ResearcherRow.t :=
  ResearchersRepository.apply_update now
    (PersistEnriched.updateData
       (StepE3Output.merged
          (Merge.mergeEnrichmentData now
             (StepE3Input.mk (Repo.rowToResearcher row) enriched))))
    row.

(** The row with its two time stamps set to [now]. *)
Definition touch (now : string) (row : ResearcherRow.t) : ResearcherRow.t :=
  {| ResearcherRow.id := ResearcherRow.id row;
     ResearcherRow.first_name := ResearcherRow.first_name row;
     ResearcherRow.last_name := ResearcherRow.last_name row;
     ResearcherRow.full_name := ResearcherRow.full_name row;
     ResearcherRow.university := ResearcherRow.university row;
     ResearcherRow.department := ResearcherRow.department row;
     ResearcherRow.title := ResearcherRow.title row;
     ResearcherRow.email := ResearcherRow.email row;
     ResearcherRow.phone := ResearcherRow.phone row;
     ResearcherRow.office := ResearcherRow.office row;
     ResearcherRow.website := ResearcherRow.website row;
     ResearcherRow.photo_url := ResearcherRow.photo_url row;
     ResearcherRow.google_scholar_url := ResearcherRow.google_scholar_url row;
     ResearcherRow.dblp_url := ResearcherRow.dblp_url row;
     ResearcherRow.semantic_scholar_id := ResearcherRow.semantic_scholar_id row;
     ResearcherRow.orcid := ResearcherRow.orcid row;
     ResearcherRow.h_index := ResearcherRow.h_index row;
     ResearcherRow.citations_total := ResearcherRow.citations_total row;
     ResearcherRow.publications_count := ResearcherRow.publications_count row;
     ResearcherRow.research_areas := ResearcherRow.research_areas row;
     ResearcherRow.bio := ResearcherRow.bio row;
     ResearcherRow.source_directory_id := ResearcherRow.source_directory_id row;
     ResearcherRow.enrichment_status := ResearcherRow.enrichment_status row;
     ResearcherRow.enrichment_error := ResearcherRow.enrichment_error row;
     ResearcherRow.last_verified := Some now;
     ResearcherRow.created_at := ResearcherRow.created_at row;
     ResearcherRow.updated_at := now |}.

(** The conflict entry that a merge of tag lists logs. *)
Definition areas_conflict (existing new : list string) : MergeConflict.t :=
  {| MergeConflict.field := "research_areas";
     MergeConflict.existing_value := VStrings existing;
     MergeConflict.new_value := VStrings new;
     MergeConflict.resolution := MergeBoth |}.

(** [update ?? old]: a defined property of the update data replaces the
    column. *)
Definition replace_by {A} (update : option A) (old : option A) : option A :=
  match update with
  | Some v => Some v
  | None => old
  end.

(** The bundle's tags, when it brings a non-empty list. *)
Definition new_areas (enriched : EnrichedData.t) : option (list string) :=
  match EnrichedData.research_areas enriched with
  | Some new => if 0 <? Z.of_nat (length new) then Some new else None
  | None => None
  end.

(** The row that one enrichment leaves, column by column. *)
Definition enriched_row (now : string) (enriched : EnrichedData.t)
    (row : ResearcherRow.t) : ResearcherRow.t :=
  let adopt new old :=
    replace_by (Merge.adopt_if_missing new (JS.or_undefined old)) old in
  {| ResearcherRow.id := ResearcherRow.id row;
     ResearcherRow.first_name := ResearcherRow.first_name row;
     ResearcherRow.last_name := ResearcherRow.last_name row;
     ResearcherRow.full_name := ResearcherRow.full_name row;
     ResearcherRow.university := ResearcherRow.university row;
     ResearcherRow.department := ResearcherRow.department row;
     ResearcherRow.title := ResearcherRow.title row;
     ResearcherRow.email := ResearcherRow.email row;
     ResearcherRow.phone := ResearcherRow.phone row;
     ResearcherRow.office := ResearcherRow.office row;
     ResearcherRow.website := ResearcherRow.website row;
     ResearcherRow.photo_url := ResearcherRow.photo_url row;
     ResearcherRow.google_scholar_url :=
       adopt (EnrichedData.google_scholar_url enriched)
             (ResearcherRow.google_scholar_url row);
     ResearcherRow.dblp_url :=
       adopt (EnrichedData.dblp_url enriched) (ResearcherRow.dblp_url row);
     ResearcherRow.semantic_scholar_id :=
       adopt (EnrichedData.semantic_scholar_id enriched)
             (ResearcherRow.semantic_scholar_id row);
     ResearcherRow.orcid :=
       adopt (EnrichedData.orcid enriched) (ResearcherRow.orcid row);
     ResearcherRow.h_index :=
       replace_by
         (MergeSpec.metric_update
            (Repo.num_or_undefined (ResearcherRow.h_index row))
            (EnrichedData.h_index enriched))
         (ResearcherRow.h_index row);
     ResearcherRow.citations_total :=
       MergeSpec.resolved (ResearcherRow.citations_total row)
         (MergeSpec.metric_update (Some (ResearcherRow.citations_total row))
            (EnrichedData.citations_total enriched));
     ResearcherRow.publications_count := ResearcherRow.publications_count row;
     ResearcherRow.research_areas :=
       match new_areas enriched with
       | Some new =>
           Some (JS.set_to_array
                   (DedupSpec.areas (ResearcherRow.research_areas row) ++ new))
       | None => ResearcherRow.research_areas row
       end;
     ResearcherRow.bio :=
       adopt (EnrichedData.bio enriched) (ResearcherRow.bio row);
     ResearcherRow.source_directory_id := ResearcherRow.source_directory_id row;
     ResearcherRow.enrichment_status := Complete;
     ResearcherRow.enrichment_error := ResearcherRow.enrichment_error row;
     ResearcherRow.last_verified := Some now;
     ResearcherRow.created_at := ResearcherRow.created_at row;
     ResearcherRow.updated_at := now |}.

(** The column of a scalar descriptive field. *)
Definition column (f : MergeSpec.DescriptiveField) (row : ResearcherRow.t)
    : option string :=
  match f with
  | MergeSpec.Bio => ResearcherRow.bio row
  | MergeSpec.GoogleScholarUrl => ResearcherRow.google_scholar_url row
  | MergeSpec.DblpUrl => ResearcherRow.dblp_url row
  | MergeSpec.SemanticScholarId => ResearcherRow.semantic_scholar_id row
  | MergeSpec.Orcid => ResearcherRow.orcid row
  end.

End MergeAux.

Module LoadConfigAux.

(** The directory that the store holds under the requested identity; an
    identity of 0 is not looked up. *)
Definition stored_directory (s : State.t) (input : Step1Input.t)
    : option Directory.t :=
  match Step1Input.directory_id input with
  | Some id =>
      if id =? 0 then None
      else List.find (fun d => Directory.id d =? id) (State.directories s)
  | None => None
  end.

Definition is_some {A} (o : option A) : bool :=
  match o with
  | Some _ => true
  | None => false
  end.

(** A configuration can be built: the directory is stored, or a Step 0
    analysis comes with a non-empty URL. *)
Definition resolvable (s : State.t) (input : Step1Input.t) : bool :=
  is_some (stored_directory s input)
  || (is_some (Step1Input.from_step0 input)
      && JS.truthy (Step1Input.url input)).

(** Every selector is a non-empty string. *)
Definition all_populated (sel : Selectors.t) : bool :=
  JS.truthy (Selectors.card sel) && JS.truthy (Selectors.name sel)
  && JS.truthy (Selectors.title sel) && JS.truthy (Selectors.email sel)
  && JS.truthy (Selectors.phone sel) && JS.truthy (Selectors.office sel)
  && JS.truthy (Selectors.website sel) && JS.truthy (Selectors.photo sel)
  && JS.truthy (Selectors.research_areas sel).

(** The selectors that the stored configuration of a directory holds. *)
Definition stored_selectors (d : Directory.t) : Selectors.t :=
  LoadConfig.selectors_or_empty
    (ScrapeConfig.selectors (LoadConfig.config_or_empty (Directory.scrape_config d))).

(** A Step 0 analysis that discovered the card selector only. *)
Definition analysis : Step0Output.t :=
  {| Step0Output.total_researchers_found := 3;
     Step0Output.load_more_detected := false;
     Step0Output.load_more_clicks := 0;
     Step0Output.scroll_performed := false;
     Step0Output.pagination_detected := false;
     Step0Output.pagination_pages := None;
     Step0Output.selectors_discovered :=
       {| SelectorsDiscovered.researcher_card := Some ".person";
          SelectorsDiscovered.name := None;
          SelectorsDiscovered.title := None;
          SelectorsDiscovered.email := None;
          SelectorsDiscovered.phone := None;
          SelectorsDiscovered.website := None;
          SelectorsDiscovered.photo := None |};
     Step0Output.final_page_html := "<html></html>";
     Step0Output.screenshots := [];
     Step0Output.analysis_notes := [] |}.

(** A request for the stored directory 1 with that analysis. *)
Definition request : Step1Input.t :=
  {| Step1Input.directory_id := Some 1;
     Step1Input.from_step0 := Some analysis;
     Step1Input.url := None |}.

End LoadConfigAux.

Module ParserAux.

(** No character of the text is a space. *)
Fixpoint no_space (s : string) : bool :=
  match s with
  | EmptyString => true
  | String c r => negb (Normalizer.is_space c) && no_space r
  end.

(** The number of digits of a text. *)
Definition digit_count (s : string) : nat := String.length (JS.digits s).

(** The error reports that a card was dropped for want of a name. *)
Definition is_name_error (e : ParseError.t) : bool :=
  String.eqb (ParseError.field e) "name".

(** An email as [parseEmail] returns it: not empty, in lower case, and
    accepted again as it is. *)
Definition normal_email (o : option string) : Prop :=
  match o with
  | Some e =>
      e <> "" /\ JS.toLowerCase e = e /\ ResearcherParser.parseEmail e = Some e
  | None => True
  end.

(** A phone number with at least ten digits. *)
Definition full_phone (o : option string) : Prop :=
  match o with
  | Some p => (10 <= digit_count p)%nat
  | None => True
  end.

(** What step 5 guarantees of a researcher that it emits for a directory. *)
Definition well_parsed (university department : string)
    (r : ParsedResearcher.t) : Prop :=
  ParsedResearcher.university r = university
  /\ ParsedResearcher.department r = department
  /\ (ParsedResearcher.first_name r <> "" \/ ParsedResearcher.last_name r <> "")
  /\ normal_email (ParsedResearcher.email r)
  /\ full_phone (ParsedResearcher.phone r).

(** What the blocks of [parseCard] keep true of the researcher under
    construction and of the errors pushed so far. *)
Definition sound (university department : string)
    (b : ParseNormalize.Building) : Prop :=
  well_parsed university department (fst b)
  /\ Forall (fun e => is_name_error e = false) (snd b).

Definition has_email (r : ParsedResearcher.t) : bool :=
  JS.truthy (ParsedResearcher.email r).

Definition has_title (r : ParsedResearcher.t) : bool :=
  JS.truthy (ParsedResearcher.title r).

Definition has_both_names (r : ParsedResearcher.t) : bool :=
  negb (String.eqb (ParsedResearcher.first_name r) "")
  && negb (String.eqb (ParsedResearcher.last_name r) "").

(** The number of entries of a list that satisfy a test. *)
Definition count_of {A} (f : A -> bool) (l : list A) : Z :=
  Dedup.len (List.filter f l).

(** The counters of step 5 agree with the lists it has built from [n]
    cards. *)
Definition counted (n : Z) (l : ParseNormalize.Locals) : Prop :=
  Dedup.len (ParseNormalize.researchers l)
  + count_of is_name_error (ParseNormalize.parseErrors l) = n
  /\ NormalizationStats.total_parsed (ParseNormalize.stats l)
     = Dedup.len (ParseNormalize.researchers l)
  /\ NormalizationStats.emails_normalized (ParseNormalize.stats l)
     = count_of has_email (ParseNormalize.researchers l)
  /\ NormalizationStats.names_split (ParseNormalize.stats l)
     = count_of has_both_names (ParseNormalize.researchers l)
  /\ NormalizationStats.titles_standardized (ParseNormalize.stats l)
     = count_of has_title (ParseNormalize.researchers l).

End ParserAux.

(* ===================================================================== *)
(** * Properties of the reconciliation engine *)
(* ===================================================================== *)

Module DedupFacts.

Import DedupSpec.

(** ** Change detection *)

Lemma opt_eqb_eq (a b : option string) : JS.opt_eqb a b = true <-> a = b.
Proof.
  destruct a as [x|], b as [y|]; simpl; try (split; congruence).
  rewrite String.eqb_eq. split; congruence.
Qed.

Lemma existsb_eqb_In (a : string) (l : list string) :
  existsb (String.eqb a) l = true <-> In a l.
Proof.
  rewrite existsb_exists. split.
  - intros (x & Hin & He). apply String.eqb_eq in He. subst. exact Hin.
  - intros Hin. exists a. split; [exact Hin|apply String.eqb_refl].
Qed.

Lemma field_changed_differs (inc ex : option string) :
  Dedup.field_changed inc ex = true <-> field_differs inc ex.
Proof.
  unfold Dedup.field_changed, Dedup.differs, field_differs.
  destruct inc as [a|].
  - rewrite andb_true_iff, !negb_true_iff. split.
    + intros [Ha Hd]. exists a. split; [reflexivity|]. split.
      * intros ->. rewrite String.eqb_refl in Ha. discriminate.
      * intros ->. simpl in Hd. rewrite String.eqb_refl in Hd. discriminate.
    + intros (v & Hv & Hne & Hex). injection Hv as <-. split.
      * apply String.eqb_neq. exact Hne.
      * destruct (JS.opt_eqb (Some a) ex) eqn:E; [|reflexivity].
        apply opt_eqb_eq in E. congruence.
  - split; [discriminate|]. intros (v & Hv & _). discriminate.
Qed.

Lemma areas_changed_introduces (inc ex : option (list string)) :
  areas_changed inc ex = true <-> introduces_area inc ex.
Proof.
  unfold areas_changed, introduces_area, areas at 2.
  destruct inc as [l|]; [|split; [discriminate|intros (a & [] & _)]].
  set (keep := fun a => negb (existsb (String.eqb a) (areas ex))).
  assert (Hk : forall a, keep a = true <-> ~ In a (areas ex)).
  { intros a. unfold keep. rewrite negb_true_iff, <- existsb_eqb_In.
    destruct (existsb _ _); split; congruence. }
  split.
  - intros H. destruct (0 <? Z.of_nat (length l)); [|discriminate].
    destruct (List.filter keep l) as [|a fl] eqn:Ef; [discriminate|].
    assert (Hin : In a (List.filter keep l)) by (rewrite Ef; left; reflexivity).
    apply filter_In in Hin as [Hin Hka]. exists a. split; [exact Hin|].
    apply Hk. exact Hka.
  - intros (a & Hin & Hna).
    assert (Hf : In a (List.filter keep l)).
    { apply filter_In. split; [exact Hin|]. apply Hk. exact Hna. }
    destruct l as [|x l']; [destruct Hin|].
    destruct (List.filter keep (x :: l')) as [|y fl]; [destruct Hf|].
    reflexivity.
Qed.

Lemma checkForChanges_orb c r :
  Dedup.checkForChanges c r
  = Dedup.field_changed (ParsedResearcher.title c) (Researcher.title r)
    || Dedup.field_changed (ParsedResearcher.email c) (Researcher.email r)
    || Dedup.field_changed (ParsedResearcher.phone c) (Researcher.phone r)
    || Dedup.field_changed (ParsedResearcher.office c) (Researcher.office r)
    || Dedup.field_changed (ParsedResearcher.website c) (Researcher.website r)
    || areas_changed (ParsedResearcher.research_areas c)
                     (Researcher.research_areas r).
Proof.
  unfold Dedup.checkForChanges, areas_changed, areas.
  repeat (destruct (Dedup.field_changed _ _); cbn [orb]; [reflexivity|]).
  reflexivity.
Qed.

(** [checkForChanges] holds exactly when a populated field of the candidate
    differs from the record or the candidate brings a new tag. *)
Lemma checkForChanges_new_information c r :
  Dedup.checkForChanges c r = true <-> new_information c r.
Proof.
  rewrite checkForChanges_orb. unfold new_information.
  rewrite !orb_true_iff, !field_changed_differs, areas_changed_introduces.
  tauto.
Qed.

(** ** The score as a function of the signals *)

(** The score lies between the base and the cap. *)
Lemma score_of_bounds (s : Signals) :
  JS.le Dedup.c_0_5 (score_of s) = true /\ JS.le (score_of s) Dedup.c_1_0 = true.
Proof.
  destruct s as [[] [] [] []]; vm_compute; split; reflexivity.
Qed.

(** More matching signals never lower the score. *)
Lemma score_of_mono (s s' : Signals) :
  signals_le s s' = true -> JS.le (score_of s) (score_of s') = true.
Proof.
  destruct s as [[] [] [] []], s' as [[] [] [] []];
    vm_compute; intros H; try reflexivity; discriminate H.
Qed.

(** Rounding does not move a score across the usability threshold: the
    binary64 comparison with [0.9] agrees with exact arithmetic. *)
Lemma score_of_threshold (s : Signals) :
  JS.ge (score_of s) Dedup.c_0_9 = (90 <=? hundredths s).
Proof.
  destruct s as [[] [] [] []]; vm_compute; reflexivity.
Qed.

(** The binary64 score is the sum that the specification writes in
    decimals, up to rounding. *)
Lemma score_of_claimed (s : Signals) :
  NumberSpec.close (score_of s) (claimed_score s).
Proof.
  destruct s as [[] [] [] []]; (split; [reflexivity|]);
    apply Qle_bool_imp_le; vm_compute; reflexivity.
Qed.

Lemma score_of_value_bounds (s : Signals) :
  (1 # 2 <= NumberSpec.value (score_of s))%Q
  /\ (NumberSpec.value (score_of s) <= 1)%Q.
Proof.
  destruct s as [[] [] [] []]; split;
    apply Qle_bool_imp_le; vm_compute; reflexivity.
Qed.

Lemma score_of_value_mono (s s' : Signals) :
  signals_le s s' = true ->
  (NumberSpec.value (score_of s) <= NumberSpec.value (score_of s'))%Q.
Proof.
  destruct s as [[] [] [] []], s' as [[] [] [] []]; intros H;
    try discriminate H; apply Qle_bool_imp_le; vm_compute; reflexivity.
Qed.

Section WithURL.

Variable url_hostname : string -> option string.

Local Opaque JS.add JS.min JS.lit JS.of_Z.

(** Each block of [calculateMatchConfidence] adds the bonus of its signal
    to whatever score it starts from. *)
Lemma title_block incoming existing (s : JS.number) :
  match ParsedResearcher.title incoming, Researcher.title existing with
  | Some it, Some et =>
      if negb (String.eqb it "") && negb (String.eqb et "") then
        if String.eqb (JS.toLowerCase it) (JS.toLowerCase et)
        then JS.add s Dedup.c_0_2
        else if JS.includes (JS.toLowerCase it) (JS.toLowerCase et)
                || JS.includes (JS.toLowerCase et) (JS.toLowerCase it)
        then JS.add s Dedup.c_0_1
        else s
      else s
  | _, _ => s
  end
  = plus s (title_bonus (title_signal (signals url_hostname incoming existing))).
Proof.
  unfold signals, populated, JS.or_undefined, JS.truthy.
  cbn [title_signal].
  destruct (ParsedResearcher.title incoming) as [it|],
           (Researcher.title existing) as [et|];
    try destruct (String.eqb it ""); try destruct (String.eqb et "");
    cbn [negb andb title_bonus plus];
    try destruct (String.eqb (JS.toLowerCase it) (JS.toLowerCase et));
    try destruct (JS.includes (JS.toLowerCase it) (JS.toLowerCase et)
                  || JS.includes (JS.toLowerCase et) (JS.toLowerCase it));
    reflexivity.
Qed.

Lemma email_block incoming existing (s : JS.number) :
  match ParsedResearcher.email incoming, Researcher.email existing with
  | Some ie, Some ee =>
      if negb (String.eqb ie "") && negb (String.eqb ee "") then
        if JS.opt_eqb (JS.split_at_1 ie) (JS.split_at_1 ee)
        then JS.add s Dedup.c_0_15
        else s
      else s
  | _, _ => s
  end
  = plus s (flag_bonus (email_domain (signals url_hostname incoming existing))
                       Dedup.c_0_15).
Proof.
  unfold signals, populated, JS.or_undefined, JS.truthy.
  cbn [email_domain].
  destruct (ParsedResearcher.email incoming) as [ie|],
           (Researcher.email existing) as [ee|];
    try destruct (String.eqb ie ""); try destruct (String.eqb ee "");
    cbn [negb andb flag_bonus plus];
    try destruct (JS.opt_eqb (JS.split_at_1 ie) (JS.split_at_1 ee));
    reflexivity.
Qed.

Lemma phone_block incoming existing (s : JS.number) :
  match ParsedResearcher.phone incoming, Researcher.phone existing with
  | Some ip, Some ep =>
      if negb (String.eqb ip "") && negb (String.eqb ep "") then
        if String.eqb (JS.digits ip) (JS.digits ep)
        then JS.add s Dedup.c_0_1
        else s
      else s
  | _, _ => s
  end
  = plus s (flag_bonus (phone_digits (signals url_hostname incoming existing))
                       Dedup.c_0_1).
Proof.
  unfold signals, populated, JS.or_undefined, JS.truthy.
  cbn [phone_digits].
  destruct (ParsedResearcher.phone incoming) as [ip|],
           (Researcher.phone existing) as [ep|];
    try destruct (String.eqb ip ""); try destruct (String.eqb ep "");
    cbn [negb andb flag_bonus plus];
    try destruct (String.eqb (JS.digits ip) (JS.digits ep));
    reflexivity.
Qed.

Lemma website_block incoming existing (s : JS.number) :
  match ParsedResearcher.website incoming, Researcher.website existing with
  | Some iw, Some ew =>
      if negb (String.eqb iw "") && negb (String.eqb ew "") then
        match url_hostname iw with
        | Some incomingHost =>
            match url_hostname ew with
            | Some existingHost =>
                if String.eqb incomingHost existingHost
                then JS.add s Dedup.c_0_05
                else s
            | None => s
            end
        | None => s
        end
      else s
  | _, _ => s
  end
  = plus s (flag_bonus (website_host (signals url_hostname incoming existing))
                       Dedup.c_0_05).
Proof.
  unfold signals, populated, JS.or_undefined, JS.truthy.
  cbn [website_host].
  destruct (ParsedResearcher.website incoming) as [iw|],
           (Researcher.website existing) as [ew|];
    try destruct (String.eqb iw ""); try destruct (String.eqb ew "");
    cbn [negb andb flag_bonus plus];
    try destruct (url_hostname iw) as [ih|];
    try destruct (url_hostname ew) as [eh|];
    try destruct (String.eqb ih eh);
    reflexivity.
Qed.

(** The sequential score of the source is the score of the signals. *)
Lemma calculateMatchConfidence_score incoming existing :
  Dedup.calculateMatchConfidence url_hostname incoming existing
  = score_of (signals url_hostname incoming existing).
Proof.
  unfold Dedup.calculateMatchConfidence, score_of.
  cbv zeta.
  rewrite title_block, email_block, phone_block, website_block.
  reflexivity.
Qed.

(** ** The decision procedure, case by case *)

(** [checkDuplicate] follows the precedence order of the algorithm. *)
Lemma checkDuplicate_reconcile db c dir :
  Dedup.checkDuplicate url_hostname db c dir = reconcile url_hostname db c.
Proof.
  unfold Dedup.checkDuplicate, reconcile, email_match, name_match, populated,
    JS.or_undefined, JS.truthy, email_decision, name_decision, insert_decision.
  cbv zeta.
  destruct (ParsedResearcher.email c) as [e|];
    [destruct (String.eqb e ""); cbn [negb];
     [|destruct (Repo.findByEmail db e) as [r|]; [reflexivity|]]|];
    (destruct (String.eqb (ParsedResearcher.university c) ""); cbn [negb];
     [reflexivity|];
     destruct (Repo.findByNameAndUniversity db _ _ _) as [r|]; [|reflexivity];
     destruct (JS.ge _ _); reflexivity).
Qed.

(** Without a usable match the decision is [insert]. *)
Lemma checkDuplicate_no_match db c dir :
  email_match db c = None ->
  (forall r, name_match db c = Some r ->
     JS.ge (Dedup.calculateMatchConfidence url_hostname c r) Dedup.c_0_9 = false) ->
  Dedup.checkDuplicate url_hostname db c dir = insert_decision c.
Proof.
  intros He Hn. rewrite checkDuplicate_reconcile. unfold reconcile.
  rewrite He. destruct (name_match db c) as [r|]; [|reflexivity].
  cbv zeta. rewrite (Hn r eq_refl). reflexivity.
Qed.

Lemma findByEmail_row db e r :
  Repo.findByEmail db e = Some r ->
  exists row, In row db /\ Repo.email_matches e row = true
              /\ r = Repo.rowToResearcher row.
Proof.
  unfold Repo.findByEmail. intros H.
  destruct (List.find (Repo.email_matches e) db) as [row|] eqn:Hf;
    [|discriminate].
  injection H as <-. apply find_some in Hf as [Hin Hm]. eauto.
Qed.

Lemma index_first_In rows row :
  Repo.index_first rows = Some row -> In row rows.
Proof.
  revert row. induction rows as [|x rows IH]; intros row;
    cbn [Repo.index_first]; [discriminate|].
  destruct (Repo.index_first rows) as [other|].
  - intros H. injection H as <-.
    destruct (Repo.index_before x other); [now left|right; now apply IH].
  - intros H. injection H as <-. now left.
Qed.

Lemma findByNameAndUniversity_row db n u d r :
  Repo.findByNameAndUniversity db n u d = Some r ->
  exists row, In row db /\ r = Repo.rowToResearcher row.
Proof.
  unfold Repo.findByNameAndUniversity. intros H.
  destruct (Repo.index_first (List.filter (Repo.name_matches n u d) db))
    as [row|] eqn:Hf; [|discriminate].
  injection H as <-. apply index_first_In, List.filter_In in Hf as [Hin _].
  eauto.
Qed.

(** A decision other than [insert] names a stored row. *)
Lemma checkDuplicate_existing_row db c dir :
  DedupeDecision.action (Dedup.checkDuplicate url_hostname db c dir) <> Insert ->
  exists row, In row db
    /\ DedupeDecision.existing_id (Dedup.checkDuplicate url_hostname db c dir)
       = Some (ResearcherRow.id row).
Proof.
  rewrite checkDuplicate_reconcile. unfold reconcile.
  destruct (email_match db c) as [r|] eqn:He.
  - intros _. unfold email_match in He.
    destruct (populated (ParsedResearcher.email c)) as [e|]; [|discriminate].
    apply findByEmail_row in He as (row & Hin & _ & ->).
    exists row. split; [exact Hin|].
    unfold email_decision. destruct (Dedup.checkForChanges _ _); reflexivity.
  - destruct (name_match db c) as [r|] eqn:Hn;
      [|intros H; contradiction H; reflexivity].
    cbv zeta. destruct (JS.ge _ _); [|intros H; contradiction H; reflexivity].
    intros _. unfold name_match in Hn.
    destruct (String.eqb (ParsedResearcher.university c) ""); [discriminate|].
    apply findByNameAndUniversity_row in Hn as (row & Hin & ->).
    exists row. split; [exact Hin|].
    unfold name_decision. destruct (Dedup.checkForChanges _ _); reflexivity.
Qed.

(** ** Lookup of a unique row *)

Lemma find_unique {A} (f : A -> bool) (l : list A) (x : A) :
  In x l -> f x = true ->
  (forall y, In y l -> f y = true -> y = x) ->
  List.find f l = Some x.
Proof.
  intros Hin Hfx Huniq.
  destruct (List.find f l) as [y|] eqn:Hf.
  - apply find_some in Hf as [Hy Hfy]. f_equal. apply Huniq; assumption.
  - apply (find_none f l Hf) in Hin. congruence.
Qed.

Lemma email_matches_iff e row :
  Repo.email_matches e row = true
  <-> ResearcherRow.email row = Some (JS.toLowerCase e).
Proof.
  unfold Repo.email_matches, Repo.col_eqb.
  destruct (ResearcherRow.email row) as [x|]; [|split; discriminate].
  rewrite String.eqb_eq. split; congruence.
Qed.

(** ** The loop of [deduplicate] *)

Lemma truthy_id_positive (id : Z) : 0 < id -> Dedup.truthy_id (Some id) = Some id.
Proof.
  intros H. unfold Dedup.truthy_id.
  destruct (Z.eqb_spec id 0); [lia|reflexivity].
Qed.

Lemma loop_body_placed db dir acc x :
  Forall (fun row => 0 < ResearcherRow.id row) db ->
  Permutation (placed_acc (Dedup.loop_body url_hostname db dir acc x))
              (placed_acc acc ++ [x]).
Proof.
  intros Hpos. unfold Dedup.loop_body. cbv zeta.
  pose proof (checkDuplicate_existing_row db x dir) as Hrow.
  destruct (DedupeDecision.action (Dedup.checkDuplicate url_hostname db x dir))
    eqn:Ha.
  - unfold placed_acc; cbn [Dedup.toInsert Dedup.toUpdate Dedup.duplicates].
    rewrite <- !app_assoc. apply Permutation_app_head.
    etransitivity; [apply Permutation_app_comm|].
    rewrite <- app_assoc. reflexivity.
  - destruct Hrow as (row & Hin & ->); [discriminate|].
    rewrite List.Forall_forall in Hpos. rewrite truthy_id_positive by auto.
    unfold placed_acc; cbn [Dedup.toInsert Dedup.toUpdate Dedup.duplicates].
    rewrite map_app. cbn [map UpdateItem.researcher].
    rewrite <- !app_assoc. do 2 apply Permutation_app_head.
    apply Permutation_app_comm.
  - destruct Hrow as (row & Hin & ->); [discriminate|].
    rewrite List.Forall_forall in Hpos. rewrite truthy_id_positive by auto.
    unfold placed_acc; cbn [Dedup.toInsert Dedup.toUpdate Dedup.duplicates].
    rewrite map_app. cbn [map DuplicateItem.researcher].
    rewrite <- !app_assoc. reflexivity.
Qed.

Lemma fold_loop_placed db dir l :
  Forall (fun row => 0 < ResearcherRow.id row) db ->
  forall acc,
    Permutation
      (placed_acc (fold_left (Dedup.loop_body url_hostname db dir) l acc))
      (placed_acc acc ++ l).
Proof.
  intros Hpos. induction l as [|x l IH]; intros acc; cbn [fold_left].
  - rewrite app_nil_r. reflexivity.
  - rewrite IH. rewrite (loop_body_placed db dir acc x Hpos).
    rewrite <- app_assoc. reflexivity.
Qed.

(** ** The properties of the specification *)

(** C3.  A candidate with a populated email whose lower-cased form is the
    email of exactly one stored record is never inserted: the decision
    carries that record's identity and confidence 1.0, and it is [update]
    when one of the candidate's populated fields among title, email,
    phone, office and website (the fields that change detection compares)
    differs from the stored value or the candidate brings a research-area
    tag that the record lacks, and [skip] otherwise. *)
Theorem checkDuplicate_email_match db c dir e row :
  ParsedResearcher.email c = Some e ->
  e <> "" ->
  In row db ->
  ResearcherRow.email row = Some (JS.toLowerCase e) ->
  (forall row', In row' db ->
     ResearcherRow.email row' = Some (JS.toLowerCase e) -> row' = row) ->
  let r := Repo.rowToResearcher row in
  let d := Dedup.checkDuplicate url_hostname db c dir in
  (new_information c r -> DedupeDecision.action d = Update)
  /\ (~ new_information c r -> DedupeDecision.action d = Skip)
  /\ DedupeDecision.action d <> Insert
  /\ DedupeDecision.existing_id d = Some (ResearcherRow.id row)
  /\ DedupeDecision.confidence d = JS.of_Z 1.
Proof.
  intros He Hne Hin Hrow Huniq r d.
  assert (Hm : email_match db c = Some r).
  { unfold email_match, populated, JS.or_undefined, JS.truthy. rewrite He.
    apply String.eqb_neq in Hne. rewrite Hne. cbn [negb].
    unfold Repo.findByEmail.
    rewrite (find_unique (Repo.email_matches e) db row); [reflexivity|exact Hin| |].
    - apply email_matches_iff. exact Hrow.
    - intros y Hy Hmy. apply Huniq; [exact Hy|].
      apply email_matches_iff. exact Hmy. }
  subst d. rewrite checkDuplicate_reconcile. unfold reconcile. rewrite Hm.
  unfold email_decision.
  pose proof (checkForChanges_new_information c r) as Hc.
  destruct (Dedup.checkForChanges c r); cbn.
  - repeat split; try reflexivity; try discriminate.
    intros Hn. exfalso. apply Hn. apply Hc. reflexivity.
  - repeat split; try reflexivity; try discriminate.
    intros Hn. apply Hc in Hn. discriminate Hn.
Qed.

(** C6.  The confidence of a composite match is the base 0.5 plus the
    bonuses of the matching signals (0.2 for an exact and 0.1 for a
    substring title match, 0.15 for the email domain, 0.10 for the phone
    digits, 0.05 for the website host), capped at 1.0: the binary64 score
    is that decimal sum up to rounding.  Its value lies between the base
    and the cap, and it does not decrease when signals are added. *)
Theorem calculateMatchConfidence_monotone incoming existing incoming' existing' :
  let score := Dedup.calculateMatchConfidence url_hostname in
  NumberSpec.close (score incoming existing)
    (claimed_score (signals url_hostname incoming existing))
  /\ (1 # 2 <= NumberSpec.value (score incoming existing))%Q
  /\ (NumberSpec.value (score incoming existing) <= 1)%Q
  /\ (signals_le (signals url_hostname incoming existing)
                 (signals url_hostname incoming' existing') = true ->
      (NumberSpec.value (score incoming existing)
       <= NumberSpec.value (score incoming' existing'))%Q
      /\ JS.le (score incoming existing) (score incoming' existing') = true).
Proof.
  intros score. subst score.
  rewrite !calculateMatchConfidence_score.
  split; [apply score_of_claimed|]. split; [apply score_of_value_bounds|].
  split; [apply score_of_value_bounds|].
  intros H. split; [apply score_of_value_mono, H|apply score_of_mono, H].
Qed.

(** C7.  A candidate without a usable match (no populated email and no
    university; or no stored record by email nor by name and affiliation;
    or a composite match scoring below 0.9) is decided [insert] with
    confidence 1.0, and [deduplicate] lists it for insertion, not as a
    duplicate. *)
Theorem checkDuplicate_inserts_without_usable_match db c dir :
  (JS.truthy (ParsedResearcher.email c) = false
   /\ ParsedResearcher.university c = "")
  \/ (email_match db c = None /\ name_match db c = None)
  \/ (email_match db c = None
      /\ exists r, name_match db c = Some r
           /\ JS.ge (Dedup.calculateMatchConfidence url_hostname c r)
                    (JS.lit 9 10) = false) ->
  Dedup.checkDuplicate url_hostname db c dir = insert_decision c
  /\ DedupeDecision.action (Dedup.checkDuplicate url_hostname db c dir) = Insert
  /\ DedupeDecision.confidence (Dedup.checkDuplicate url_hostname db c dir)
     = JS.of_Z 1
  /\ Dedup.deduplicate url_hostname db
       {| Step6Input.researchers := [c]; Step6Input.directory_id := dir |}
     = {| Step6Output.to_insert := [c];
          Step6Output.to_update := [];
          Step6Output.duplicates := [];
          Step6Output.stats :=
            {| Step6Stats.total_input := 1;
               Step6Stats.to_insert := 1;
               Step6Stats.to_update := 0;
               Step6Stats.duplicates := 0 |} |}.
Proof.
  intros H.
  assert (E : Dedup.checkDuplicate url_hostname db c dir = insert_decision c).
  { apply checkDuplicate_no_match.
    - destruct H as [[He _]|[[He _]|[He _]]]; try exact He.
      unfold email_match, populated, JS.or_undefined. rewrite He. reflexivity.
    - intros r Hr. destruct H as [[_ Hu]|[[_ Hn]|[_ (r' & Hn & Hs)]]].
      + unfold name_match in Hr. rewrite Hu in Hr. discriminate Hr.
      + congruence.
      + rewrite Hn in Hr. injection Hr as <-. exact Hs. }
  split; [exact E|]. split; [rewrite E; reflexivity|].
  split; [rewrite E; reflexivity|].
  unfold Dedup.deduplicate, Dedup.run_loop.
  cbn [Step6Input.researchers Step6Input.directory_id fold_left].
  unfold Dedup.loop_body. rewrite E. reflexivity.
Qed.

(** C10.  When every stored record has a positive identity, the three
    output lists of [deduplicate] hold each input candidate exactly once
    between them, and the statistics are the lengths of the lists, with
    [total_input] their sum. *)
Theorem deduplicate_partition db input :
  Forall (fun row => 0 < ResearcherRow.id row) db ->
  let out := Dedup.deduplicate url_hostname db input in
  Permutation (Step6Input.researchers input) (placed out)
  /\ Step6Stats.total_input (Step6Output.stats out)
     = Step6Stats.to_insert (Step6Output.stats out)
       + Step6Stats.to_update (Step6Output.stats out)
       + Step6Stats.duplicates (Step6Output.stats out)
  /\ Step6Stats.total_input (Step6Output.stats out)
     = Z.of_nat (length (Step6Input.researchers input))
  /\ Step6Stats.to_insert (Step6Output.stats out)
     = Z.of_nat (length (Step6Output.to_insert out))
  /\ Step6Stats.to_update (Step6Output.stats out)
     = Z.of_nat (length (Step6Output.to_update out))
  /\ Step6Stats.duplicates (Step6Output.stats out)
     = Z.of_nat (length (Step6Output.duplicates out)).
Proof.
  intros Hpos out.
  assert (Hperm : Permutation (Step6Input.researchers input) (placed out)).
  { symmetry.
    exact (fold_loop_placed db (Step6Input.directory_id input)
             (Step6Input.researchers input) Hpos (Dedup.mkAcc [] [] [] [])). }
  split; [exact Hperm|].
  split; [|repeat split].
  apply Permutation_length in Hperm.
  unfold placed in Hperm. rewrite !length_app, !length_map in Hperm.
  subst out. unfold Dedup.deduplicate in *.
  cbn [Step6Output.stats Step6Output.to_insert Step6Output.to_update
       Step6Output.duplicates Step6Stats.total_input Step6Stats.to_insert
       Step6Stats.to_update Step6Stats.duplicates] in *.
  unfold Dedup.len. lia.
Qed.

End WithURL.

(** ** Instances on the sample data *)

(** The re-submitted candidate with a new title is an update of record 1. *)
Lemma checkDuplicate_email_match_witness :
  DedupeDecision.action
    (Dedup.checkDuplicate Demo.url_hostname [Demo.jane_row] Demo.jane_promoted 1)
  = Update.
Proof.
  refine (proj1 (checkDuplicate_email_match Demo.url_hostname [Demo.jane_row]
                   Demo.jane_promoted 1 "jane@x.edu" Demo.jane_row
                   eq_refl _ _ eq_refl _) _).
  - discriminate.
  - left. reflexivity.
  - intros row' [<-|[]] _. reflexivity.
  - left. exists "Associate Professor".
    split; [reflexivity|]. split; discriminate.
Defined.

(** Adding the phone signal to a title match raises the score. *)
Lemma calculateMatchConfidence_monotone_witness :
  JS.le
    (Dedup.calculateMatchConfidence Demo.url_hostname Demo.jane_no_email
       (Repo.rowToResearcher Demo.jane_row_with_phone))
    (Dedup.calculateMatchConfidence Demo.url_hostname Demo.jane_with_phone
       (Repo.rowToResearcher Demo.jane_row_with_phone))
  = true.
Proof.
  refine (proj2 (proj2 (proj2 (proj2
    (calculateMatchConfidence_monotone Demo.url_hostname
       Demo.jane_no_email (Repo.rowToResearcher Demo.jane_row_with_phone)
       Demo.jane_with_phone (Repo.rowToResearcher Demo.jane_row_with_phone))))
    _)).
  vm_compute. reflexivity.
Defined.

(** A name-and-affiliation match that only shares the title scores 0.7 and
    is inserted. *)
Lemma checkDuplicate_inserts_without_usable_match_witness :
  DedupeDecision.action
    (Dedup.checkDuplicate Demo.url_hostname [Demo.jane_row] Demo.jane_no_email 1)
  = Insert.
Proof.
  refine (proj1 (proj2
    (checkDuplicate_inserts_without_usable_match Demo.url_hostname
       [Demo.jane_row] Demo.jane_no_email 1 _))).
  right. right. split; [reflexivity|].
  exists (Repo.rowToResearcher Demo.jane_row).
  split; vm_compute; reflexivity.
Defined.

(** One new candidate, one update and one duplicate against a store of one
    record. *)
Lemma deduplicate_partition_witness :
  Permutation
    [Demo.jane_no_email; Demo.jane_promoted; Demo.jane]
    (placed (Dedup.deduplicate Demo.url_hostname [Demo.jane_row]
       {| Step6Input.researchers :=
            [Demo.jane_no_email; Demo.jane_promoted; Demo.jane];
          Step6Input.directory_id := 1 |})).
Proof.
  refine (proj1 (deduplicate_partition Demo.url_hostname [Demo.jane_row]
    {| Step6Input.researchers :=
         [Demo.jane_no_email; Demo.jane_promoted; Demo.jane];
       Step6Input.directory_id := 1 |} _)).
  repeat constructor.
Defined.

(** The hypothesis of [deduplicate_partition] is needed: a match on a
    record whose identity is 0 is pushed to none of the lists. *)
Lemma deduplicate_drops_match_on_identity_zero :
  Dedup.deduplicate Demo.url_hostname [Demo.jane_row_zero]
    {| Step6Input.researchers := [Demo.jane]; Step6Input.directory_id := 1 |}
  = {| Step6Output.to_insert := [];
       Step6Output.to_update := [];
       Step6Output.duplicates := [];
       Step6Output.stats :=
         {| Step6Stats.total_input := 1;
            Step6Stats.to_insert := 0;
            Step6Stats.to_update := 0;
            Step6Stats.duplicates := 0 |} |}.
Proof.
  reflexivity.
Qed.

End DedupFacts.

(* ===================================================================== *)
(** * Properties of the enrichment merge engine *)
(* ===================================================================== *)

Module MergeFacts.

Import MergeSpec.

Local Opaque JS.add JS.min JS.lit JS.of_Z JS.set_to_array.

(** Case analysis on everything that [mergeEnrichmentData] inspects when it
    builds the conflict log and the two metrics. *)
Ltac merge_cases existing enriched :=
  unfold Merge.mergeEnrichmentData, conflicts_for, Merge.neq_opt, Merge.gt_opt,
    Merge.num_value;
  cbn [StepE3Input.existing StepE3Input.enriched];
  destruct (EnrichedData.h_index enriched) as [hn|];
    [destruct (Researcher.h_index existing) as [ho|];
     [destruct (Z.eqb_spec ho hn); [|destruct (Z.ltb_spec ho hn)]|]|];
  (destruct (EnrichedData.citations_total enriched) as [cn|];
    [destruct (Researcher.citations_total existing) as [co|];
     [destruct (Z.eqb_spec co cn); [|destruct (Z.ltb_spec co cn)]|]|]);
  (destruct (EnrichedData.research_areas enriched) as [an|];
    [destruct (0 <? Z.of_nat (length an));
     [destruct (0 <? Z.of_nat (length match Researcher.research_areas existing with
                                      | Some l => l
                                      | None => []
                                      end))|]|]);
  cbn.

(** The h-index entry of the partial update and of the conflict log. *)
Lemma merge_h_index now existing enriched :
  let out := Merge.mergeEnrichmentData now (StepE3Input.mk existing enriched) in
  PartialResearcher.h_index (StepE3Output.merged out)
  = metric_update (Researcher.h_index existing) (EnrichedData.h_index enriched)
  /\ conflicts_for "h_index" out
     = metric_conflict "h_index" (Researcher.h_index existing)
                       (EnrichedData.h_index enriched).
Proof.
  unfold metric_update, metric_conflict.
  merge_cases existing enriched;
    repeat match goal with
    | |- context [?a =? ?b] => destruct (Z.eqb_spec a b); try lia
    | |- context [?a <? ?b] => destruct (Z.ltb_spec a b); try lia
    end;
    split; reflexivity.
Qed.

(** The citation-count entries when the record has a citation count. *)
Lemma merge_citations_total now existing enriched old :
  Researcher.citations_total existing = Some old ->
  let out := Merge.mergeEnrichmentData now (StepE3Input.mk existing enriched) in
  PartialResearcher.citations_total (StepE3Output.merged out)
  = metric_update (Some old) (EnrichedData.citations_total enriched)
  /\ conflicts_for "citations_total" out
     = metric_conflict "citations_total" (Some old)
                       (EnrichedData.citations_total enriched).
Proof.
  intros Hold. unfold metric_update, metric_conflict.
  merge_cases existing enriched; try discriminate Hold;
    try (injection Hold as <-);
    repeat match goal with
    | |- context [?a =? ?b] => destruct (Z.eqb_spec a b); try lia
    | |- context [?a <? ?b] => destruct (Z.ltb_spec a b); try lia
    end;
    split; reflexivity.
Qed.

Lemma resolved_metric_update_max (old new : Z) :
  resolved old (metric_update (Some old) (Some new)) = Z.max old new.
Proof.
  unfold resolved, metric_update.
  destruct (Z.ltb_spec old new); lia.
Qed.

(** Conflicts are only ever logged for the two metrics and the tag set. *)
Lemma merge_conflict_fields now existing enriched :
  Forall (fun c => In (MergeConflict.field c)
                      ["h_index"; "citations_total"; "research_areas"])
         (StepE3Output.conflicts
            (Merge.mergeEnrichmentData now (StepE3Input.mk existing enriched))).
Proof.
  merge_cases existing enriched;
    repeat (apply List.Forall_cons; [cbn; auto|]); apply List.Forall_nil.
Qed.

Lemma filter_none {A} (f : A -> bool) (l : list A) :
  (forall x, In x l -> f x = false) -> List.filter f l = [].
Proof.
  induction l as [|x l IH]; intros H; [reflexivity|].
  cbn [List.filter]. rewrite (H x) by (left; reflexivity).
  apply IH. intros y Hy. apply H. right. exact Hy.
Qed.

Lemma conflicts_for_descriptive now existing enriched (f : DescriptiveField) :
  conflicts_for (field_name f)
    (Merge.mergeEnrichmentData now (StepE3Input.mk existing enriched)) = [].
Proof.
  unfold conflicts_for. apply filter_none. intros c Hc.
  pose proof (merge_conflict_fields now existing enriched) as Hall.
  rewrite List.Forall_forall in Hall.
  destruct (Hall c Hc) as [<-|[<-|[<-|[]]]]; destruct f; reflexivity.
Qed.

(** Naming the results of the three blocks that return a pair, without
    looking inside them. *)
Ltac name_blocks :=
  unfold Merge.mergeEnrichmentData;
  cbn [StepE3Input.existing StepE3Input.enriched];
  repeat match goal with
  | |- context [match ?p with pair _ _ => _ end] => destruct p; cbv beta iota
  end;
  cbn [StepE3Output.merged StepE3Output.confidence
       StepE3Output.publications_to_add StepE3Output.conflicts
       PartialResearcher.h_index PartialResearcher.citations_total
       PartialResearcher.research_areas PartialResearcher.bio
       PartialResearcher.google_scholar_url PartialResearcher.dblp_url
       PartialResearcher.semantic_scholar_id PartialResearcher.orcid].

Lemma merge_adopted now existing enriched (f : DescriptiveField) :
  adopted f (StepE3Output.merged
               (Merge.mergeEnrichmentData now (StepE3Input.mk existing enriched)))
  = if JS.truthy (proposed f enriched) && negb (JS.truthy (current f existing))
    then proposed f enriched else None.
Proof.
  name_blocks. destruct f; reflexivity.
Qed.

Lemma merge_confidence now existing enriched :
  let out := Merge.mergeEnrichmentData now (StepE3Input.mk existing enriched) in
  StepE3Output.confidence out
  = confidence_of
      (present_nonzero (PartialResearcher.h_index (StepE3Output.merged out)))
      (present_nonzero (PartialResearcher.citations_total (StepE3Output.merged out)))
      (present_list (PartialResearcher.research_areas (StepE3Output.merged out)))
      (0 <? Z.of_nat (length (StepE3Output.publications_to_add out))).
Proof.
  name_blocks. unfold confidence_of, Merge.truthy_num, present_nonzero.
  repeat match goal with
  | |- context [match ?o with Some _ => _ | None => _ end] => destruct o
  | |- context [if ?b then _ else _] => destruct b
  end; reflexivity.
Qed.

Lemma confidence_of_bounds (h c a p : bool) :
  JS.le Merge.c_0_5 (confidence_of h c a p) = true
  /\ JS.le (confidence_of h c a p) Merge.c_1_0 = true.
Proof.
  destruct h, c, a, p; vm_compute; split; reflexivity.
Qed.

Lemma confidence_of_claimed (h c a p : bool) :
  NumberSpec.close (confidence_of h c a p) (claimed_confidence h c a p).
Proof.
  destruct h, c, a, p; (split; [reflexivity|]);
    apply Qle_bool_imp_le; vm_compute; reflexivity.
Qed.

Lemma confidence_of_value_bounds (h c a p : bool) :
  (1 # 2 <= NumberSpec.value (confidence_of h c a p))%Q
  /\ (NumberSpec.value (confidence_of h c a p) <= 1)%Q.
Proof.
  destruct h, c, a, p; split; apply Qle_bool_imp_le; vm_compute; reflexivity.
Qed.

(** The score is exact up to rounding: it is 1.0 when and only when the
    exact sum reaches ten tenths, and it is the double written [0.5] when
    no bonus applies. *)
Lemma confidence_of_exact (h c a p : bool) :
  JS.ge (confidence_of h c a p) Merge.c_1_0 = (10 <=? tenths h c a p)
  /\ JS.le (confidence_of h c a p) Merge.c_0_5 = (tenths h c a p <=? 5).
Proof.
  destruct h, c, a, p; vm_compute; split; reflexivity.
Qed.

(** ** The properties of the specification *)

(** C4 (as amended).  For the h-index, and for the citation count of a
    record that has one, the partial update takes the new value exactly
    when it is the larger one, so that the metric ends up as the larger
    of the two; when the two values are present and differ, exactly one
    conflict is logged for the field, resolved [use_new] if the new value
    is larger and [keep_existing] otherwise; and an absent existing h-index
    adopts the new value with no conflict entry. *)
Theorem merge_quality_metrics now existing enriched :
  let out := Merge.mergeEnrichmentData now (StepE3Input.mk existing enriched) in
  let merged := StepE3Output.merged out in
  (PartialResearcher.h_index merged
   = metric_update (Researcher.h_index existing) (EnrichedData.h_index enriched)
   /\ conflicts_for "h_index" out
      = metric_conflict "h_index" (Researcher.h_index existing)
                        (EnrichedData.h_index enriched))
  /\ (forall old new,
        Researcher.h_index existing = Some old ->
        EnrichedData.h_index enriched = Some new ->
        resolved old (PartialResearcher.h_index merged) = Z.max old new)
  /\ (forall new,
        Researcher.h_index existing = None ->
        EnrichedData.h_index enriched = Some new ->
        PartialResearcher.h_index merged = Some new
        /\ conflicts_for "h_index" out = [])
  /\ (forall old,
        Researcher.citations_total existing = Some old ->
        PartialResearcher.citations_total merged
        = metric_update (Some old) (EnrichedData.citations_total enriched)
        /\ conflicts_for "citations_total" out
           = metric_conflict "citations_total" (Some old)
                             (EnrichedData.citations_total enriched))
  /\ (forall old new,
        Researcher.citations_total existing = Some old ->
        EnrichedData.citations_total enriched = Some new ->
        resolved old (PartialResearcher.citations_total merged) = Z.max old new).
Proof.
  intros out merged.
  pose proof (merge_h_index now existing enriched) as [Hh Hhc].
  fold out in Hh, Hhc. fold merged in Hh.
  split; [split; assumption|].
  split.
  { intros old new Ho Hn. rewrite Hh, Ho, Hn.
    apply resolved_metric_update_max. }
  split.
  { intros new Ho Hn. rewrite Hh, Hhc, Ho, Hn. split; reflexivity. }
  split.
  { intros old Ho. exact (merge_citations_total now existing enriched old Ho). }
  intros old new Ho Hn.
  destruct (merge_citations_total now existing enriched old Ho) as [Hc _].
  fold out in Hc. fold merged in Hc. rewrite Hc, Hn.
  apply resolved_metric_update_max.
Qed.

(** C5 (as amended).  For each scalar descriptive field, the partial update
    holds the new value exactly when the new value is non-empty and the
    existing field is empty, and the field is absent from it otherwise: a
    populated field is never overwritten.  No conflict is ever logged for
    these fields, neither on an adoption nor when both values are
    non-empty and differ. *)
Theorem merge_descriptive_fields now existing enriched (f : DescriptiveField) :
  let out := Merge.mergeEnrichmentData now (StepE3Input.mk existing enriched) in
  adopted f (StepE3Output.merged out)
  = (if JS.truthy (proposed f enriched) && negb (JS.truthy (current f existing))
     then proposed f enriched else None)
  /\ (if JS.truthy (current f existing)
      then adopted f (StepE3Output.merged out) = None
      else True)
  /\ conflicts_for (field_name f) out = [].
Proof.
  intros out. subst out. rewrite merge_adopted.
  split; [reflexivity|]. split; [|apply conflicts_for_descriptive].
  destruct (JS.truthy (current f existing)); [|exact I].
  rewrite andb_false_r. reflexivity.
Qed.

(** C8 (as amended).  The confidence of a merge is 0.5, plus 0.1 if the
    partial update carries a non-zero h-index, plus 0.1 if it carries a
    non-zero citation count, plus 0.1 if it carries research areas, plus
    0.2 if at least one publication was proposed, capped at 1.0: the
    binary64 confidence is that decimal sum up to rounding, and its value
    lies between 0.5 and 1.0. *)
Theorem merge_confidence_formula now existing enriched :
  let out := Merge.mergeEnrichmentData now (StepE3Input.mk existing enriched) in
  let merged := StepE3Output.merged out in
  NumberSpec.close (StepE3Output.confidence out)
    (claimed_confidence
       (present_nonzero (PartialResearcher.h_index merged))
       (present_nonzero (PartialResearcher.citations_total merged))
       (present_list (PartialResearcher.research_areas merged))
       (0 <? Z.of_nat (length (StepE3Output.publications_to_add out))))
  /\ (1 # 2 <= NumberSpec.value (StepE3Output.confidence out))%Q
  /\ (NumberSpec.value (StepE3Output.confidence out) <= 1)%Q.
Proof.
  intros out merged. subst merged out. rewrite merge_confidence.
  split; [apply confidence_of_claimed|]. apply confidence_of_value_bounds.
Qed.

(** ** Instances on the sample data *)

(** The scenario of the test suite: h-index 25 against 28, citation count
    5000 against 6000. *)
Lemma merge_quality_metrics_witness :
  let out := Merge.mergeEnrichmentData Demo.now
               (StepE3Input.mk (Demo.john (Some 25) (Some 5000) None)
                               (Demo.bundle (Some 28) (Some 6000) None)) in
  resolved 25 (PartialResearcher.h_index (StepE3Output.merged out)) = Z.max 25 28
  /\ resolved 5000 (PartialResearcher.citations_total (StepE3Output.merged out))
     = Z.max 5000 6000.
Proof.
  pose proof (merge_quality_metrics Demo.now
                (Demo.john (Some 25) (Some 5000) None)
                (Demo.bundle (Some 28) (Some 6000) None)) as H.
  split.
  - exact (proj1 (proj2 H) 25 28 eq_refl eq_refl).
  - exact (proj2 (proj2 (proj2 (proj2 H))) 5000 6000 eq_refl eq_refl).
Defined.

(** A record without a citation count against a bundle that has one: a
    conflict is logged, resolved [keep_existing], and the new value is not
    adopted. *)
Lemma merge_quality_metrics_counterexample :
  let existing := Demo.john (Some 25) None None in
  let enriched := Demo.bundle None (Some 5000) None in
  let out := Merge.mergeEnrichmentData Demo.now (StepE3Input.mk existing enriched) in
  Researcher.citations_total existing = None
  /\ EnrichedData.citations_total enriched = Some 5000
  /\ PartialResearcher.citations_total (StepE3Output.merged out) = None
  /\ conflicts_for "citations_total" out
     = [{| MergeConflict.field := "citations_total";
           MergeConflict.existing_value := VUndefined;
           MergeConflict.new_value := VNumber 5000;
           MergeConflict.resolution := KeepExisting |}].
Proof.
  repeat split.
Qed.

(** Biography "A" against biography "B": nothing is logged. *)
Lemma merge_descriptive_fields_counterexample :
  let existing := Demo.john None (Some 0) (Some "A") in
  let enriched := Demo.bundle None None (Some "B") in
  let out := Merge.mergeEnrichmentData Demo.now (StepE3Input.mk existing enriched) in
  JS.truthy (Researcher.bio existing) = true
  /\ JS.truthy (EnrichedData.bio enriched) = true
  /\ Researcher.bio existing <> EnrichedData.bio enriched
  /\ StepE3Output.conflicts out = [].
Proof.
  repeat split. discriminate.
Qed.

(** An h-index of 0 adopted into the partial update is present in it and
    earns no bonus: the confidence is 0.5, not the 0.6 of a present
    h-index. *)
Lemma merge_confidence_formula_counterexample :
  let existing := Demo.john None (Some 0) None in
  let enriched := Demo.bundle (Some 0) None None in
  let out := Merge.mergeEnrichmentData Demo.now (StepE3Input.mk existing enriched) in
  PartialResearcher.h_index (StepE3Output.merged out) = Some 0
  /\ (NumberSpec.value (StepE3Output.confidence out) == 0.5)%Q
  /\ (claimed_confidence
        (present (PartialResearcher.h_index (StepE3Output.merged out)))
        (present (PartialResearcher.citations_total (StepE3Output.merged out)))
        (present_list (PartialResearcher.research_areas (StepE3Output.merged out)))
        (0 <? Z.of_nat (length (StepE3Output.publications_to_add out)))
      == 0.6)%Q
  /\ ~ NumberSpec.close (StepE3Output.confidence out)
        (claimed_confidence
           (present (PartialResearcher.h_index (StepE3Output.merged out)))
           (present (PartialResearcher.citations_total (StepE3Output.merged out)))
           (present_list (PartialResearcher.research_areas (StepE3Output.merged out)))
           (0 <? Z.of_nat (length (StepE3Output.publications_to_add out)))).
Proof.
  cbv zeta. split; [reflexivity|].
  split; [vm_compute; reflexivity|]. split; [vm_compute; reflexivity|].
  intros [_ H]. apply Qle_bool_iff in H. vm_compute in H. discriminate H.
Qed.

End MergeFacts.
(* ===================================================================== *)
(** * Properties of the runner and the recorder *)
(* ===================================================================== *)

Module RunnerFacts.

Import RunnerSpec.

Local Open Scope eff_scope.

(** ** Rules for [hoare] *)

Lemma hoare_ret {A} job (e : list string) (a : A)
    (Q : list string -> A -> Prop) :
  Q e a -> hoare job e (ret a) Q.
Proof.
  intros HQ s Ht Hs. exists a, s. rewrite Hs. auto.
Qed.

Lemma hoare_bind {A B} job (e : list string) (c : Eff A) (k : A -> Eff B)
    (Q : list string -> A -> Prop) (R : list string -> B -> Prop) :
  hoare job e c Q ->
  (forall e' a, Q e' a -> hoare job e' (k a) R) ->
  hoare job e (bind c k) R.
Proof.
  intros Hc Hk s Ht Hs. unfold bind.
  destruct (Hc s Ht Hs) as (a & s1 & -> & Ht1 & Ha).
  exact (Hk (State.errors s1) a Ha s1 Ht1 eq_refl).
Qed.


(** After a computation that leaves [errors] alone, the rest runs from
    the same array. *)
Lemma hoare_seq {A B} job (e : list string) (c : Eff A) (k : A -> Eff B)
    (R : list string -> B -> Prop) :
  steady job c -> (forall a, hoare job e (k a) R) -> hoare job e (bind c k) R.
Proof.
  intros Hc Hk. apply (hoare_bind job e c k (fun e' _ => e' = e)); [apply Hc|].
  intros e' a ->. apply Hk.
Qed.

Lemma hoare_try_catch {A} job (e : list string) (c : Eff A)
    (h : string -> Eff A) (Q : list string -> A -> Prop) :
  hoare job e c Q -> hoare job e (try_catch c h) Q.
Proof.
  intros Hc s Ht Hs. unfold try_catch.
  destruct (Hc s Ht Hs) as (a & s1 & -> & Ht1 & Ha).
  exists a, s1. split; [reflexivity|]. split; [exact Ht1|exact Ha].
Qed.



Lemma steady_ret {A} job (a : A) : steady job (ret a).
Proof.
  intros e. apply hoare_ret. reflexivity.
Qed.

Lemma steady_bind {A B} job (c : Eff A) (k : A -> Eff B) :
  steady job c -> (forall a, steady job (k a)) -> steady job (bind c k).
Proof.
  intros Hc Hk e. apply hoare_seq; [exact Hc|]. intros a. apply Hk.
Qed.

Lemma steady_modify job (f : State.t -> State.t) :
  (forall s, State.errors (f s) = State.errors s) ->
  (forall s, tracked job (f s) = tracked job s) ->
  steady job (modify f).
Proof.
  intros Hf Hj e s Ht Hs. exists tt, (f s). rewrite Hf, Hj. auto.
Qed.

Lemma steady_gets {A} job (f : State.t -> A) : steady job (gets f).
Proof.
  intros e s Ht Hs. exists (f s), s. auto.
Qed.

Lemma steady_try_catch {A} job (c : Eff A) (h : string -> Eff A) :
  steady job c -> steady job (try_catch c h).
Proof.
  intros Hc e. apply hoare_try_catch. apply Hc.
Qed.

(** A [try] block that may throw, with a handler that recovers. *)
Lemma steady_try_catch_recover {A} job (c : Eff A) (h : string -> Eff A) :
  keeps job c -> (forall m, steady job (h m)) -> steady job (try_catch c h).
Proof.
  intros Hc Hh e s Ht Hs. unfold try_catch.
  pose proof (Hc s) as [Hk Hj]. destruct (c s) as [[a|m] s1]; cbn [snd] in Hk, Hj.
  - exists a, s1. split; [reflexivity|]. split; congruence.
  - apply Hh; congruence.
Qed.

Lemma keeps_bind {A B} job (c : Eff A) (k : A -> Eff B) :
  keeps job c -> (forall a, keeps job (k a)) -> keeps job (bind c k).
Proof.
  intros Hc Hk s. unfold bind.
  pose proof (Hc s) as [H1 H2]. destruct (c s) as [[a|m] s1]; cbn [snd] in H1, H2.
  - destruct (Hk a s1) as [H3 H4]. split; congruence.
  - split; assumption.
Qed.

Lemma keeps_ret {A} job (a : A) : keeps job (ret a).
Proof.
  intros s. split; reflexivity.
Qed.

Create HintDb eff discriminated.

#[local] Hint Resolve steady_ret steady_gets steady_try_catch keeps_ret : eff.

(** Decomposition of a computation built from [bind], [ret], [gets] and
    [modify] with setters that touch neither [errors] nor [scrape_jobs]. *)
Ltac steady_step :=
  first
  [ assumption
  | solve [auto with eff]
  | apply steady_ret
  | apply steady_gets
  | apply steady_modify; intros ?; reflexivity
  | apply steady_bind; [|intros ?]
  | apply steady_try_catch ].

Ltac steady_tac := repeat steady_step.

(** ** Repositories and recorder *)

Lemma tracked_app job jobs rows s :
  State.scrape_jobs s = jobs ++ rows ->
  tracked job s
  = existsb (fun r => String.eqb (JobRow.job_id r) job) jobs
    || existsb (fun r => String.eqb (JobRow.job_id r) job) rows.
Proof.
  unfold tracked, JobsRepository.references_job. intros ->. apply existsb_app.
Qed.

Lemma steady_jobs_create job j d t : steady job (JobsRepository.create j d t).
Proof.
  intros e s Ht Hs. unfold JobsRepository.create, modify.
  eexists tt, _. split; [reflexivity|]. split; [|exact Hs].
  erewrite tracked_app by reflexivity.
  unfold tracked, JobsRepository.references_job in Ht. rewrite Ht. reflexivity.
Qed.

(** An update of the job rows that keeps their identifiers keeps
    [tracked]. *)
Lemma tracked_update_where job j f s :
  (forall r, JobRow.job_id (f r) = JobRow.job_id r) ->
  tracked job (snd (JobsRepository.update_where j f s)) = tracked job s.
Proof.
  intros Hf. unfold JobsRepository.update_where, modify, tracked,
    JobsRepository.references_job.
  cbn [snd State.scrape_jobs State.set_scrape_jobs].
  induction (State.scrape_jobs s) as [|r l IH]; cbn [map existsb];
    [reflexivity|].
  rewrite IH. destruct (String.eqb (JobRow.job_id r) j); [rewrite Hf|];
    reflexivity.
Qed.

Lemma steady_update_where job j f :
  (forall r, JobRow.job_id (f r) = JobRow.job_id r) ->
  steady job (JobsRepository.update_where j f).
Proof.
  intros Hf e s Ht Hs.
  exists tt, (snd (JobsRepository.update_where j f s)).
  split; [reflexivity|]. rewrite (tracked_update_where job j f s Hf).
  split; [exact Ht|exact Hs].
Qed.

Lemma steady_updateStatus job j st m :
  steady job (JobsRepository.updateStatus j st m).
Proof. apply steady_update_where. reflexivity. Qed.

Lemma steady_updateCurrentStep job j st :
  steady job (JobsRepository.updateCurrentStep j st).
Proof. apply steady_update_where. reflexivity. Qed.

Lemma steady_updateStats job j a b c d :
  steady job (JobsRepository.updateStats j a b c d).
Proof. apply steady_update_where. reflexivity. Qed.

(** For a job that has its row, [storeStepOutput] returns. *)
Lemma steady_storeStepOutput job n i o b m :
  steady job (JobsRepository.storeStepOutput job n i o b m).
Proof.
  intros e s Ht Hs. unfold JobsRepository.storeStepOutput.
  unfold tracked in Ht. rewrite Ht.
  eexists tt, _. split; [reflexivity|]. split; [exact Ht|exact Hs].
Qed.

Lemma steady_writeFileSync job p f : steady job (Recorder.writeFileSync p f).
Proof. unfold Recorder.writeFileSync. steady_tac. Qed.

#[local] Hint Resolve steady_jobs_create steady_updateStatus
  steady_updateCurrentStep steady_updateStats steady_storeStepOutput
  steady_writeFileSync : eff.

Lemma steady_createStepRecorder job j d :
  steady job (Recorder.createStepRecorder j d).
Proof. unfold Recorder.createStepRecorder. steady_tac. Qed.

Lemma steady_recordStepStart job n i :
  steady job (Recorder.recordStepStart job n i).
Proof. unfold Recorder.recordStepStart. steady_tac. Qed.

Lemma steady_push_step job st : steady job (Recorder.push_step st).
Proof. unfold Recorder.push_step. steady_tac. Qed.

#[local] Hint Resolve steady_push_step : eff.

Lemma steady_recordStepEnd job n o : steady job (Recorder.recordStepEnd job n o).
Proof.
  unfold Recorder.recordStepEnd. apply steady_bind; [steady_tac|].
  intros [cur|]; [destruct (String.eqb _ _)|]; steady_tac.
Qed.

Lemma steady_recordStepError job n m :
  steady job (Recorder.recordStepError job n m).
Proof.
  unfold Recorder.recordStepError. apply steady_bind; [steady_tac|].
  intros [cur|]; [destruct (String.eqb _ _)|]; steady_tac.
Qed.

Lemma steady_finalize job j : steady job (Recorder.finalize j).
Proof. unfold Recorder.finalize. steady_tac. Qed.

#[local] Hint Resolve steady_createStepRecorder steady_recordStepStart
  steady_recordStepEnd steady_recordStepError steady_finalize : eff.

Lemma keeps_create job now data dir :
  keeps job (ResearchersRepository.create now data dir).
Proof.
  intros s. unfold ResearchersRepository.create. cbv zeta.
  destruct (ResearchersRepository.violates_unique _ _ _);
    [split; reflexivity|].
  destruct (negb _); split; reflexivity.
Qed.

Lemma keeps_update job now id data :
  keeps job (ResearchersRepository.update now id data).
Proof.
  intros s. unfold ResearchersRepository.update.
  destruct (List.find _ _); [|split; reflexivity].
  destruct (ResearchersRepository.no_fields data); [split; reflexivity|].
  destruct (ResearchersRepository.violates_unique _ _ _); split; reflexivity.
Qed.

Lemma steady_findByResearcher job id :
  steady job (EnrichmentQueueRepository.findByResearcher id).
Proof. unfold EnrichmentQueueRepository.findByResearcher. steady_tac. Qed.

Lemma steady_getPosition job id :
  steady job (EnrichmentQueueRepository.getPosition id).
Proof. unfold EnrichmentQueueRepository.getPosition. steady_tac. Qed.

#[local] Hint Resolve steady_findByResearcher steady_getPosition : eff.

Lemma steady_queue_add job now id p :
  steady job (EnrichmentQueueRepository.add now id p).
Proof.
  unfold EnrichmentQueueRepository.add. apply steady_bind; [|steady_tac].
  apply steady_modify; intros s;
    (destruct (existsb _ _); [reflexivity|]); destruct (negb _); reflexivity.
Qed.

Lemma steady_updateLastScraped job now id n :
  steady job (DirectoriesRepository.updateLastScraped now id n).
Proof. unfold DirectoriesRepository.updateLastScraped. steady_tac. Qed.

#[local] Hint Resolve steady_queue_add steady_updateLastScraped : eff.

(** ** Steps 7 and 8 never throw *)

Lemma steady_insert_loop job now dir l :
  forall locals, steady job (Persist.insert_loop now dir l locals).
Proof.
  induction l as [|x l IH]; intros locals; cbn [Persist.insert_loop];
    [steady_tac|].
  apply steady_bind; [|intros ?; apply IH].
  apply steady_try_catch_recover; [|intros ?; steady_tac].
  apply keeps_bind; [apply keeps_create|intros ?; apply keeps_ret].
Qed.

Lemma steady_update_loop job now l :
  forall locals, steady job (Persist.update_loop now l locals).
Proof.
  induction l as [|x l IH]; intros locals; cbn [Persist.update_loop];
    [steady_tac|].
  apply steady_bind; [|intros ?; apply IH].
  apply steady_try_catch_recover; [|intros ?; steady_tac].
  cbv zeta. apply keeps_bind; [apply keeps_update|].
  intros [r|]; apply keeps_ret.
Qed.

#[local] Hint Resolve steady_insert_loop steady_update_loop : eff.

Lemma steady_persist job now input : steady job (Persist.persist now input).
Proof. unfold Persist.persist. steady_tac. Qed.

Lemma steady_queue_loop job now p l :
  forall locals, steady job (QueueEnrich.queue_loop now p l locals).
Proof.
  induction l as [|x l IH]; intros locals; cbn [QueueEnrich.queue_loop];
    [steady_tac|].
  apply steady_bind; [steady_tac|]. intros existing.
  apply steady_bind; [|intros ?; apply IH].
  destruct existing; steady_tac.
Qed.

#[local] Hint Resolve steady_queue_loop : eff.

Lemma steady_queueForEnrichment job now input :
  steady job (QueueEnrich.queueForEnrichment now input).
Proof. unfold QueueEnrich.queueForEnrichment. cbv zeta. steady_tac. Qed.

#[local] Hint Resolve steady_persist steady_queueForEnrichment : eff.

(** ** The tracking wrapper *)



(** ** The files of the recorder *)

Lemma append_inj_r (a x y : string) : a +:+ x = a +:+ y -> x = y.
Proof.
  induction a as [|c a IH]; cbn [String.append]; intros H; [exact H|].
  injection H as H. apply IH. exact H.
Qed.

Lemma inputPath_outputPath j n : Recorder.outputPath j n <> Recorder.inputPath j n.
Proof.
  unfold Recorder.inputPath, Recorder.outputPath. intros H.
  do 3 apply append_inj_r in H. discriminate H.
Qed.

Lemma inputPath_errorPath j n : Recorder.errorPath j n <> Recorder.inputPath j n.
Proof.
  unfold Recorder.inputPath, Recorder.errorPath. intros H.
  do 3 apply append_inj_r in H. discriminate H.
Qed.

Lemma summaryPath_step1_input j :
  Recorder.summaryPath j <> Recorder.inputPath j "step1".
Proof.
  unfold Recorder.inputPath, Recorder.summaryPath. intros H.
  apply append_inj_r in H. discriminate H.
Qed.

Lemma summaryPath_step1_error j :
  Recorder.summaryPath j <> Recorder.errorPath j "step1".
Proof.
  unfold Recorder.errorPath, Recorder.summaryPath. intros H.
  apply append_inj_r in H. discriminate H.
Qed.

(** ** The tracking wrapper for a job without a row *)

(** [recordStepStart] writes the input file and then throws on the
    foreign key; the [catch] block records the error, writes the error
    file and throws on the foreign key in its turn, before the stage
    function is called. *)
Lemma runStepWithTracking_untracked {T} context stepName (stepFn : Eff T)
    (enc : T -> Artifact) s :
  tracked (Runner.jobId context) s = false ->
  exists s',
    Runner.runStepWithTracking context stepName stepFn enc s
    = (Thrown "FOREIGN KEY constraint failed", s')
    /\ State.files s'
       = <[Recorder.errorPath (Runner.jobId context) stepName :=
             FJson (AErrorReport "FOREIGN KEY constraint failed" AEmptyObject)]>
           (<[Recorder.inputPath (Runner.jobId context) stepName :=
                FJson AEmptyObject]> (State.files s))
    /\ JobRecording.steps (State.recording s')
       = JobRecording.steps (State.recording s)
         ++ [{| StepRecording.stepName := stepName;
                StepRecording.input := AEmptyObject;
                StepRecording.output := None;
                StepRecording.error := Some "FOREIGN KEY constraint failed";
                StepRecording.success := false |}]
    /\ State.researchers s' = State.researchers s
    /\ State.researchers_seq s' = State.researchers_seq s
    /\ State.enrichment_queue s' = State.enrichment_queue s
    /\ State.enrichment_queue_seq s' = State.enrichment_queue_seq s
    /\ State.directories s' = State.directories s
    /\ State.step_outputs s' = State.step_outputs s
    /\ State.errors s' = State.errors s.
Proof.
  intros Ht.
  assert (Ht0 : JobsRepository.references_job
                  (snd (JobsRepository.updateCurrentStep
                          (Runner.jobId context) stepName s))
                  (Runner.jobId context) = false).
  { unfold JobsRepository.updateCurrentStep. rewrite <- Ht.
    apply (tracked_update_where (Runner.jobId context)). reflexivity. }
  unfold Runner.runStepWithTracking.
  unfold bind at 1.
  change (JobsRepository.updateCurrentStep (Runner.jobId context) stepName s)
    with (Returned tt,
          snd (JobsRepository.updateCurrentStep (Runner.jobId context)
                 stepName s)).
  cbv beta iota.
  set (s0 := snd (JobsRepository.updateCurrentStep (Runner.jobId context)
                    stepName s)) in *.
  assert (Hsame : State.files s0 = State.files s
                  /\ State.recording s0 = State.recording s
                  /\ State.researchers s0 = State.researchers s
                  /\ State.researchers_seq s0 = State.researchers_seq s
                  /\ State.enrichment_queue s0 = State.enrichment_queue s
                  /\ State.enrichment_queue_seq s0 = State.enrichment_queue_seq s
                  /\ State.directories s0 = State.directories s
                  /\ State.step_outputs s0 = State.step_outputs s
                  /\ State.errors s0 = State.errors s)
    by (repeat split; reflexivity).
  destruct Hsame as (Hf & Hr & H1 & H2 & H3 & H4 & H5 & H6 & H7).
  rewrite <- Hf, <- Hr, <- H1, <- H2, <- H3, <- H4, <- H5, <- H6, <- H7.
  clearbody s0.
  unfold try_catch, Recorder.recordStepStart, Recorder.recordStepError,
    Recorder.push_step, Recorder.writeFileSync,
    JobsRepository.storeStepOutput, bind, modify, gets, throw.
  unfold JobsRepository.references_job in *.
  cbn [snd fst State.files State.recording State.currentStep
       State.step_outputs State.scrape_jobs State.errors State.researchers
       State.set_files State.set_currentStep State.set_step_outputs
       State.set_scrape_jobs State.set_recording State.set_errors].
  rewrite Ht0.
  cbn [snd fst State.files State.recording State.currentStep
       State.step_outputs State.scrape_jobs State.errors State.researchers
       State.set_files State.set_currentStep State.set_step_outputs
       State.set_scrape_jobs State.set_recording State.set_errors
       StepRecording.stepName StepRecording.input].
  rewrite String.eqb_refl.
  cbn [snd fst State.files State.recording State.currentStep
       State.step_outputs State.scrape_jobs State.errors State.researchers
       State.set_files State.set_currentStep State.set_step_outputs
       State.set_scrape_jobs State.set_recording State.set_errors
       StepRecording.stepName StepRecording.input].
  rewrite Ht0.
  eexists. split; [reflexivity|]. repeat split.
Qed.

(** ** The pipeline *)





Section WithStages.

Variable url_hostname : string -> option string.
Variable runStep4 : Step4Input.t -> Outcome Step4Output.t.
Variable runStep5 : Step5Input.t -> Outcome Step5Output.t.



(** ** The properties of the specification *)


(** In test mode the [try] block of [runPipeline] is the same computation
    as in full mode: the mode is only ever stored in the job row. *)
Lemma pipeline_body_ignores_mode now jobId directoryId dir debug stop dryRun :
  Runner.pipeline_body url_hostname runStep4 runStep5 now
    (Runner.mkContext jobId directoryId dir
       (PipelineOptions.mk Test debug stop dryRun))
  = Runner.pipeline_body url_hostname runStep4 runStep5 now
      (Runner.mkContext jobId directoryId dir
         (PipelineOptions.mk Full debug stop dryRun)).
Proof.
  unfold Runner.pipeline_body, Runner.pipeline_back, Runner.returnResult,
    Runner.createResult, Runner.stopAfter, Runner.isDryRun,
    Runner.runStepWithTracking.
  cbn [Runner.options Runner.jobId Runner.directoryId Runner.directory
       PipelineOptions.stopAfterStep PipelineOptions.dryRun].
  reflexivity.
Qed.

(** A run in which the recorder's job gets no row fails in stage 1, before
    any stage function is called: it returns a failed result with the
    message of the foreign key, leaves the data tables and [step_outputs]
    as they were, and the debug directory holds [{}] as the input of
    stage 1 and the error report. *)
Lemma runPipeline_fails_in_step1 jobId repoJobId now directoryId options s dir :
  List.find (fun d => Directory.id d =? directoryId) (State.directories s)
  = Some dir ->
  recorded jobId repoJobId s = false ->
  exists s',
    Runner.runPipeline url_hostname runStep4 runStep5 jobId repoJobId now
      directoryId options s
    = (Returned {| ScrapeResult.job_id := jobId;
                   ScrapeResult.status := RFailed;
                   ScrapeResult.records_found := 0;
                   ScrapeResult.records_created := 0;
                   ScrapeResult.records_updated := 0;
                   ScrapeResult.errors :=
                     Some ["FOREIGN KEY constraint failed"] |}, s')
    /\ State.researchers s' = State.researchers s
    /\ State.researchers_seq s' = State.researchers_seq s
    /\ State.enrichment_queue s' = State.enrichment_queue s
    /\ State.enrichment_queue_seq s' = State.enrichment_queue_seq s
    /\ State.directories s' = State.directories s
    /\ State.step_outputs s' = State.step_outputs s
    /\ Recorder.loadStepInput s' jobId "step1" = Some (FJson AEmptyObject)
    /\ State.files s' !! Recorder.errorPath jobId "step1"
       = Some (FJson (AErrorReport "FOREIGN KEY constraint failed"
                                   AEmptyObject))
    /\ JobRecording.steps (State.recording s')
       = [{| StepRecording.stepName := "step1";
             StepRecording.input := AEmptyObject;
             StepRecording.output := None;
             StepRecording.error := Some "FOREIGN KEY constraint failed";
             StepRecording.success := false |}].
Proof.
  intros Hdir Hrec.
  unfold Runner.runPipeline.
  unfold bind at 1. unfold DirectoriesRepository.findById, gets.
  rewrite Hdir.
  unfold bind at 1. unfold JobsRepository.create at 1, modify at 1.
  unfold bind at 1. unfold Recorder.createStepRecorder at 1,
    Recorder.writeFileSync at 1, bind at 1, modify at 1 2.
  unfold bind at 1.
  change (JobsRepository.updateStatus jobId JRunning None ?st)
    with (Returned tt, snd (JobsRepository.updateStatus jobId JRunning None st)).
  cbv beta iota.
  unfold bind at 1. unfold modify at 1.
  match goal with
  | |- context [try_catch ?c ?h ?s0] => set (s4 := s0)
  end.
  assert (Ht4 : tracked jobId s4 = false).
  { subst s4. unfold tracked, JobsRepository.references_job.
    cbn [State.scrape_jobs State.set_errors].
    change (existsb (fun r => String.eqb (JobRow.job_id r) jobId)
              (State.scrape_jobs ?st))
      with (tracked jobId st).
    unfold JobsRepository.updateStatus.
    rewrite tracked_update_where by reflexivity.
    erewrite tracked_app by reflexivity. cbn [existsb JobRow.job_id].
    rewrite orb_false_r, orb_comm. exact Hrec. }
  unfold try_catch. unfold Runner.pipeline_body. cbv zeta. unfold bind at 1.
  destruct (runStepWithTracking_untracked
              (Runner.mkContext jobId directoryId dir options) "step1"
              (ret {| Step1Output.directory := dir;
                      Step1Output.url := Directory.directory_url dir;
                      Step1Output.scrape_method := Directory.scrape_method dir;
                      Step1Output.selectors := selectors_of dir;
                      Step1Output.load_more_config :=
                        match Directory.scrape_config dir with
                        | Some c =>
                            match ScrapeConfig.load_more_selector c with
                            | Some sel =>
                                if negb (String.eqb sel "") then
                                  Some {| LoadMoreConfig.selector := sel;
                                          LoadMoreConfig.max_clicks := 50;
                                          LoadMoreConfig.wait_between_clicks_ms := 1000 |}
                                else None
                            | None => None
                            end
                        | None => None
                        end;
                      Step1Output.scroll_config :=
                        match Directory.scrape_config dir with
                        | Some c => ScrapeConfig.scroll_config c
                        | None => None
                        end;
                      Step1Output.use_step0_html := false |})
              AStep1Output s4 Ht4)
    as (s5 & Hrun & Hfiles & Hsteps & H1 & H2 & H3 & H4 & H5 & H6 & H7).
  cbn [Runner.directory Runner.jobId] in *. unfold selectors_of in Hrun.
  rewrite Hrun.
  cbv [bind Recorder.finalize Recorder.writeFileSync modify gets ret
       JobsRepository.updateStatus JobsRepository.update_where].
  cbn [State.errors State.set_files State.set_scrape_jobs].
  eexists. split.
  { rewrite H7. reflexivity. }
  unfold Recorder.loadStepInput.
  cbn [State.researchers State.researchers_seq State.enrichment_queue
       State.enrichment_queue_seq State.directories State.step_outputs
       State.files State.recording State.set_files State.set_scrape_jobs].
  rewrite H1, H2, H3, H4, H5, H6, Hfiles, Hsteps.
  repeat (split; [reflexivity|]).
  split; [|split; [|reflexivity]].
  - rewrite (lookup_insert_ne _ _ _ _ (summaryPath_step1_input jobId)).
    rewrite (lookup_insert_ne _ _ _ _ (inputPath_errorPath _ _)).
    apply lookup_insert_eq.
  - rewrite (lookup_insert_ne _ _ _ _ (summaryPath_step1_error jobId)).
    apply lookup_insert_eq.
Qed.

End WithStages.

(** ** Instances on the sample data *)





End RunnerFacts.

(* ===================================================================== *)
(** * Further properties of the reconciliation engine *)
(* ===================================================================== *)

Module DedupLaws.

Import DedupSpec DedupAux.

Section WithURL.

Variable url_hostname : string -> option string.

(** X1.  A composite match reaches the threshold of 0.9 exactly on the signal
    combinations of [usable]: never without equal email domains, and never
    on the name, affiliation and title alone. *)
Theorem calculateMatchConfidence_usable incoming existing :
  JS.ge (Dedup.calculateMatchConfidence url_hostname incoming existing)
        Dedup.c_0_9
  = usable (signals url_hostname incoming existing).
Proof.
  rewrite DedupFacts.calculateMatchConfidence_score.
  rewrite DedupFacts.score_of_threshold.
  destruct (signals url_hostname incoming existing) as [t e p w].
  destruct t, e, p, w; reflexivity.
Qed.

(** X2.  A candidate without a populated email is always decided [insert],
    whatever the store holds: the lookup by email is skipped, and a match
    by name and affiliation scores at most 0.85 without the email-domain
    signal. *)
Theorem checkDuplicate_without_email_inserts db c dir :
  JS.truthy (ParsedResearcher.email c) = false ->
  Dedup.checkDuplicate url_hostname db c dir = insert_decision c.
Proof.
  intros He. apply DedupFacts.checkDuplicate_no_match.
  - unfold email_match, populated, JS.or_undefined. rewrite He. reflexivity.
  - intros r _.
    rewrite DedupFacts.calculateMatchConfidence_score.
    rewrite DedupFacts.score_of_threshold.
    apply Z.leb_gt. unfold hundredths, signals.
    cbn [title_signal email_domain phone_digits website_host].
    unfold populated, JS.or_undefined. rewrite He.
    repeat match goal with
           | |- context [match ?x with _ => _ end] => destruct x
           end; lia.
Qed.

(** ** The loop of [deduplicate] *)

Lemma fold_loop_invariant (P : Dedup.Acc -> Prop) db dir :
  (forall acc x, P acc -> P (Dedup.loop_body url_hostname db dir acc x)) ->
  forall l acc, P acc -> P (fold_left (Dedup.loop_body url_hostname db dir) l acc).
Proof.
  intros Hstep. induction l as [|x l IH]; intros acc Hacc; cbn [fold_left].
  - exact Hacc.
  - apply IH, Hstep, Hacc.
Qed.

Lemma fold_loop_toInsert db dir l :
  forall acc,
    Dedup.toInsert (fold_left (Dedup.loop_body url_hostname db dir) l acc)
    = Dedup.toInsert acc
      ++ List.filter
           (fun c => is_insert (Dedup.checkDuplicate url_hostname db c dir)) l.
Proof.
  induction l as [|x l IH]; intros acc; cbn [fold_left List.filter].
  - symmetry. apply app_nil_r.
  - rewrite IH. unfold Dedup.loop_body. cbv zeta. unfold is_insert.
    destruct (DedupeDecision.action (Dedup.checkDuplicate url_hostname db x dir)).
    + cbn [Dedup.toInsert]. rewrite <- app_assoc. reflexivity.
    + destruct (Dedup.truthy_id _); reflexivity.
    + destruct (Dedup.truthy_id _); reflexivity.
Qed.

(** X3.  Every entry of [to_update] and of [duplicates] pairs a candidate with
    the decision that [checkDuplicate] takes on it: the action is [update],
    respectively [skip], and the identity is the one the decision carries,
    is not 0, and is the identity of a stored row. *)
Theorem deduplicate_entries_name_stored_rows db input :
  let out := Dedup.deduplicate url_hostname db input in
  let decide c :=
    Dedup.checkDuplicate url_hostname db c (Step6Input.directory_id input) in
  Forall (fun u =>
            DedupeDecision.action (decide (UpdateItem.researcher u)) = Update
            /\ DedupeDecision.existing_id (decide (UpdateItem.researcher u))
               = Some (UpdateItem.existing_id u)
            /\ UpdateItem.existing_id u <> 0
            /\ stored_id db (UpdateItem.existing_id u))
         (Step6Output.to_update out)
  /\ Forall (fun d =>
            DedupeDecision.action (decide (DuplicateItem.researcher d)) = Skip
            /\ DedupeDecision.existing_id (decide (DuplicateItem.researcher d))
               = Some (DuplicateItem.existing_id d)
            /\ DuplicateItem.existing_id d <> 0
            /\ stored_id db (DuplicateItem.existing_id d))
         (Step6Output.duplicates out).
Proof.
  cbv zeta. unfold Dedup.deduplicate, Dedup.run_loop.
  cbn [Step6Output.to_update Step6Output.duplicates].
  set (dir := Step6Input.directory_id input).
  apply (fold_loop_invariant
           (fun acc =>
              Forall _ (Dedup.toUpdate acc) /\ Forall _ (Dedup.duplicates acc)));
    [|split; apply List.Forall_nil].
  intros acc x [Hu Hd]. unfold Dedup.loop_body. cbv zeta.
  pose proof (DedupFacts.checkDuplicate_existing_row url_hostname db x dir) as Hrow.
  destruct (DedupeDecision.action (Dedup.checkDuplicate url_hostname db x dir))
    eqn:Ha.
  - split; assumption.
  - destruct Hrow as (row & Hin & Hid); [discriminate|].
    destruct (Dedup.truthy_id _) as [id|] eqn:Ht; [|split; assumption].
    cbn [Dedup.toUpdate Dedup.duplicates]. split; [|exact Hd].
    apply List.Forall_app. split; [exact Hu|].
    apply List.Forall_cons; [|apply List.Forall_nil].
    cbn [UpdateItem.researcher UpdateItem.existing_id].
    rewrite Hid in Ht. unfold Dedup.truthy_id in Ht.
    destruct (Z.eqb_spec (ResearcherRow.id row) 0) as [|Hnz]; [discriminate|].
    injection Ht as <-.
    split; [exact Ha|]. split; [exact Hid|]. split; [exact Hnz|].
    exists row. split; [exact Hin|reflexivity].
  - destruct Hrow as (row & Hin & Hid); [discriminate|].
    destruct (Dedup.truthy_id _) as [id|] eqn:Ht; [|split; assumption].
    cbn [Dedup.toUpdate Dedup.duplicates]. split; [exact Hu|].
    apply List.Forall_app. split; [exact Hd|].
    apply List.Forall_cons; [|apply List.Forall_nil].
    cbn [DuplicateItem.researcher DuplicateItem.existing_id].
    rewrite Hid in Ht. unfold Dedup.truthy_id in Ht.
    destruct (Z.eqb_spec (ResearcherRow.id row) 0) as [|Hnz]; [discriminate|].
    injection Ht as <-.
    split; [exact Ha|]. split; [exact Hid|]. split; [exact Hnz|].
    exists row. split; [exact Hin|reflexivity].
Qed.

(** X4.  [to_insert] is the list of the candidates that [checkDuplicate]
    decides to insert, in the order of the input. *)
Theorem deduplicate_to_insert_in_input_order db input :
  Step6Output.to_insert (Dedup.deduplicate url_hostname db input)
  = List.filter
      (fun c => is_insert (Dedup.checkDuplicate url_hostname db c
                             (Step6Input.directory_id input)))
      (Step6Input.researchers input).
Proof.
  unfold Dedup.deduplicate, Dedup.run_loop. cbn [Step6Output.to_insert].
  rewrite fold_loop_toInsert. reflexivity.
Qed.

Lemma checkDuplicate_empty_store c dir :
  Dedup.checkDuplicate url_hostname [] c dir = insert_decision c.
Proof.
  apply DedupFacts.checkDuplicate_no_match.
  - unfold email_match. destruct (populated _); reflexivity.
  - intros r Hr. unfold name_match in Hr.
    destruct (String.eqb _ _); discriminate.
Qed.

(** X5.  On an empty store every candidate is inserted: [to_insert] is the
    input list itself, and [to_update] and [duplicates] are empty. *)
Theorem deduplicate_empty_store input :
  Dedup.deduplicate url_hostname [] input
  = {| Step6Output.to_insert := Step6Input.researchers input;
       Step6Output.to_update := [];
       Step6Output.duplicates := [];
       Step6Output.stats :=
         {| Step6Stats.total_input := Dedup.len (Step6Input.researchers input);
            Step6Stats.to_insert := Dedup.len (Step6Input.researchers input);
            Step6Stats.to_update := 0;
            Step6Stats.duplicates := 0 |} |}.
Proof.
  unfold Dedup.deduplicate, Dedup.run_loop.
  set (dir := Step6Input.directory_id input).
  assert (H : forall l acc,
             let acc' := fold_left (Dedup.loop_body url_hostname [] dir) l acc in
             Dedup.toInsert acc' = Dedup.toInsert acc ++ l
             /\ Dedup.toUpdate acc' = Dedup.toUpdate acc
             /\ Dedup.duplicates acc' = Dedup.duplicates acc).
  { induction l as [|x l IH]; intros acc; cbn [fold_left]; cbv zeta.
    - rewrite app_nil_r. auto.
    - destruct (IH (Dedup.loop_body url_hostname [] dir acc x)) as (H1 & H2 & H3).
      rewrite H1, H2, H3. unfold Dedup.loop_body.
      rewrite checkDuplicate_empty_store. cbn. rewrite <- app_assoc. auto. }
  destruct (H (Step6Input.researchers input) (Dedup.mkAcc [] [] [] []))
    as (H1 & H2 & H3).
  cbn [Dedup.toInsert Dedup.toUpdate Dedup.duplicates app] in H1, H2, H3.
  rewrite H1, H2, H3. reflexivity.
Qed.

End WithURL.

Lemma checkDuplicate_without_email_inserts_witness :
  Dedup.checkDuplicate Demo.url_hostname [Demo.jane_row_with_phone]
    Demo.jane_with_phone 1
  = insert_decision Demo.jane_with_phone.
Proof.
  apply (checkDuplicate_without_email_inserts Demo.url_hostname).
  reflexivity.
Defined.

End DedupLaws.

(* ===================================================================== *)
(** * Properties of the researchers repository and of step 7 *)
(* ===================================================================== *)

Module StoreLaws.

Import StoreAux.

(** ** Lists and strings *)

Lemma toLowerCase_nonempty e : e <> "" -> JS.toLowerCase e <> "".
Proof. destruct e; [congruence|discriminate]. Qed.

Lemma or_undefined_some v : v <> "" -> JS.or_undefined (Some v) = Some v.
Proof.
  intros H. unfold JS.or_undefined, JS.truthy.
  destruct (String.eqb_spec v ""); [contradiction|reflexivity].
Qed.

Lemma find_all_false {A} (f : A -> bool) (l : list A) :
  (forall x, In x l -> f x = false) -> List.find f l = None.
Proof.
  induction l as [|x l IH]; intros H; cbn [List.find]; [reflexivity|].
  rewrite (H x (or_introl eq_refl)). apply IH. intros y Hy. apply H. now right.
Qed.

Lemma find_app_none {A} (f : A -> bool) (l l' : list A) :
  List.find f l = None -> List.find f (l ++ l') = List.find f l'.
Proof.
  induction l as [|x l IH]; cbn [List.find app]; [reflexivity|].
  destruct (f x); [discriminate|exact IH].
Qed.

Lemma existsb_false {A} (f : A -> bool) (l : list A) :
  existsb f l = false <-> forall x, In x l -> f x = false.
Proof.
  induction l as [|y l IH]; cbn [existsb In].
  - split; [intros _ x []|reflexivity].
  - rewrite orb_false_iff, IH. split.
    + intros [Hy Hl] x [<-|Hx]; auto.
    + intros H. split; [apply H; now left|]. intros x Hx. apply H. now right.
Qed.

(** ** Row identities *)

Lemma max_id_nonneg db : 0 <= ResearchersRepository.max_id db.
Proof.
  induction db as [|row db IH]; cbn [ResearchersRepository.max_id fold_right];
    [reflexivity|].
  fold (ResearchersRepository.max_id db). lia.
Qed.

Lemma max_id_ge db row :
  In row db -> ResearcherRow.id row <= ResearchersRepository.max_id db.
Proof.
  induction db as [|x db IH]; intros []; cbn [ResearchersRepository.max_id fold_right];
    fold (ResearchersRepository.max_id db).
  - subst. lia.
  - specialize (IH H). lia.
Qed.

Lemma max_id_app db row :
  ResearchersRepository.max_id (db ++ [row])
  = Z.max (ResearchersRepository.max_id db) (Z.max (ResearcherRow.id row) 0).
Proof.
  induction db as [|x db IH]; cbn [ResearchersRepository.max_id fold_right app].
  - lia.
  - fold (ResearchersRepository.max_id (db ++ [row])).
    fold (ResearchersRepository.max_id db). rewrite IH. lia.
Qed.

Lemma high_water_nonneg s : 0 <= high_water s.
Proof. unfold high_water. pose proof (max_id_nonneg (State.researchers s)). lia. Qed.

Lemma following_S first n :
  following first (S n) = (first + 1) :: following (first + 1) n.
Proof.
  unfold following. cbn [seq map]. f_equal.
  rewrite <- seq_shift, map_map. apply map_ext. intros i. lia.
Qed.

Lemma following_snoc first n :
  following first (S n) = following first n ++ [first + Z.of_nat (S n)].
Proof.
  unfold following. rewrite seq_S, map_app. reflexivity.
Qed.

(** ** [create] *)

Lemma create_returned now data source s r s' :
  ResearchersRepository.create now data source s = (Returned r, s') ->
  let row := ResearchersRepository.new_row now (high_water s + 1) data source in
  ResearchersRepository.violates_unique (State.researchers s) None row = false
  /\ r = Repo.rowToResearcher row
  /\ s' = State.set_researchers_seq (high_water s + 1)
            (State.set_researchers (State.researchers s ++ [row]) s).
Proof.
  unfold ResearchersRepository.create. fold (high_water s). cbv zeta.
  destruct (ResearchersRepository.violates_unique _ _ _); [discriminate|].
  destruct (negb _); [discriminate|].
  intros H. injection H as <- <-. auto.
Qed.

Lemma create_thrown now data source s m s' :
  ResearchersRepository.create now data source s = (Thrown m, s') -> s' = s.
Proof.
  unfold ResearchersRepository.create. cbv zeta.
  destruct (ResearchersRepository.violates_unique _ _ _);
    [intros H; injection H as _ <-; reflexivity|].
  destruct (negb _); [|discriminate].
  intros H. injection H as _ <-. reflexivity.
Qed.

Lemma new_row_email now id data source e :
  ParsedResearcher.email data = Some e -> e <> "" ->
  ResearcherRow.email (ResearchersRepository.new_row now id data source)
  = Some (JS.toLowerCase e).
Proof.
  intros He Hne. cbn [ResearchersRepository.new_row ResearcherRow.email].
  rewrite He. cbn [option_map].
  apply or_undefined_some, toLowerCase_nonempty, Hne.
Qed.

Lemma findByEmail_after_create now data source s r s' e e' :
  ParsedResearcher.email data = Some e -> e <> "" ->
  JS.toLowerCase e' = JS.toLowerCase e ->
  ResearchersRepository.create now data source s = (Returned r, s') ->
  Repo.findByEmail (State.researchers s') e' = Some r.
Proof.
  intros He Hne Hlow Hc.
  apply create_returned in Hc as (Hu & -> & ->).
  cbn [State.researchers State.set_researchers State.set_researchers_seq].
  pose proof (new_row_email now (high_water s + 1) data source e He Hne) as Hrow.
  unfold Repo.findByEmail. rewrite find_app_none.
  - cbn [List.find]. unfold Repo.email_matches at 1. rewrite Hrow, Hlow.
    cbn [Repo.col_eqb]. rewrite String.eqb_refl. reflexivity.
  - apply find_all_false. intros other Hin.
    unfold ResearchersRepository.violates_unique in Hu.
    rewrite existsb_false in Hu. specialize (Hu other Hin).
    unfold ResearchersRepository.collides in Hu. rewrite Hrow in Hu.
    cbn [negb andb] in Hu. apply orb_false_iff in Hu as [Hu _].
    unfold Repo.email_matches. rewrite Hlow. exact Hu.
Qed.

Lemma findById_after_create now data source s r s' :
  ResearchersRepository.create now data source s = (Returned r, s') ->
  Repo.findById (State.researchers s') (Researcher.id r) = Some r.
Proof.
  intros Hc. apply create_returned in Hc as (_ & -> & ->).
  cbn [State.researchers State.set_researchers State.set_researchers_seq
       Repo.rowToResearcher Researcher.id ResearchersRepository.new_row
       ResearcherRow.id].
  unfold Repo.findById. rewrite find_app_none.
  - cbn [List.find ResearchersRepository.new_row ResearcherRow.id].
    rewrite Z.eqb_refl. reflexivity.
  - apply find_all_false. intros other Hin. apply Z.eqb_neq.
    pose proof (max_id_ge _ _ Hin). unfold high_water. lia.
Qed.

(** X6.  Insert and look up.  When [create] returns on a record with a
    populated email, [findByEmail] finds the created record under every
    spelling of the email that differs in letter case only, and [findById]
    finds it under its new identity. *)
Theorem create_then_find now data source s r s' e e' :
  ParsedResearcher.email data = Some e -> e <> "" ->
  JS.toLowerCase e' = JS.toLowerCase e ->
  ResearchersRepository.create now data source s = (Returned r, s') ->
  Repo.findByEmail (State.researchers s') e' = Some r
  /\ Repo.findById (State.researchers s') (Researcher.id r) = Some r.
Proof.
  intros He Hne Hlow Hc. split.
  - exact (findByEmail_after_create now data source s r s' e e' He Hne Hlow Hc).
  - exact (findById_after_create now data source s r s' Hc).
Qed.

Lemma create_then_find_witness :
  exists r s',
    ResearchersRepository.create Demo.now Demo.jane (Some 1) (Demo.world "body")
    = (Returned r, s')
    /\ Repo.findByEmail (State.researchers s') "Jane@X.EDU" = Some r
    /\ Repo.findById (State.researchers s') (Researcher.id r) = Some r.
Proof.
  eexists _, _. split; [vm_compute; reflexivity|].
  eapply (create_then_find Demo.now Demo.jane (Some 1) (Demo.world "body")
            _ _ "jane@x.edu" "Jane@X.EDU");
    [reflexivity | discriminate | reflexivity | vm_compute; reflexivity].
Defined.

(** ** A created record is recognised when it is submitted again *)

Lemma field_changed_stored inc :
  Dedup.field_changed inc (JS.or_undefined (JS.or_undefined inc)) = false.
Proof.
  destruct inc as [a|]; [|reflexivity]. cbn [Dedup.field_changed].
  destruct (String.eqb_spec a "") as [->|Hne]; [reflexivity|].
  rewrite !(or_undefined_some a Hne). cbn [negb andb].
  unfold Dedup.differs. cbn [JS.opt_eqb]. rewrite String.eqb_refl. reflexivity.
Qed.

Lemma areas_unchanged o : DedupSpec.areas_changed o o = false.
Proof.
  destruct o as [l|]; [|reflexivity]. cbn [DedupSpec.areas_changed DedupSpec.areas].
  destruct (0 <? Z.of_nat (length l)); [|reflexivity].
  assert (H : List.filter (fun a => negb (existsb (String.eqb a) l)) l = []).
  { assert (G : forall l', (forall a, In a l' -> In a l) ->
                List.filter (fun a => negb (existsb (String.eqb a) l)) l' = []).
    { induction l' as [|a l' IH]; intros Hsub; cbn [List.filter]; [reflexivity|].
      assert (Ha : existsb (String.eqb a) l = true).
      { apply DedupFacts.existsb_eqb_In, Hsub. now left. }
      rewrite Ha. cbn [negb]. apply IH. intros b Hb. apply Hsub. now right. }
    apply G. auto. }
  rewrite H. reflexivity.
Qed.

Section WithURL.

Variable url_hostname : string -> option string.

(** X7.  Insert, then reconcile.  A candidate with a populated lower-case email
    that [create] has stored is decided [skip] when it is submitted again,
    with the identity of the created record and confidence 1.0. *)
Theorem create_then_checkDuplicate_skips now c source s r s' e dir :
  ParsedResearcher.email c = Some e -> e <> "" ->
  JS.toLowerCase e = e ->
  ResearchersRepository.create now c source s = (Returned r, s') ->
  Dedup.checkDuplicate url_hostname (State.researchers s') c dir
  = {| DedupeDecision.researcher := c;
       DedupeDecision.action := Skip;
       DedupeDecision.existing_id := Some (Researcher.id r);
       DedupeDecision.match_reason := Some "Exact email match";
       DedupeDecision.confidence := Dedup.c_1_0 |}.
Proof.
  intros He Hne Hlow Hc.
  pose proof (findByEmail_after_create now c source s r s' e e He Hne eq_refl Hc)
    as Hfind.
  unfold Dedup.checkDuplicate. rewrite He.
  destruct (String.eqb_spec e "") as [|_]; [contradiction|]. cbn [negb].
  rewrite Hfind.
  assert (Hsame : Dedup.checkForChanges c r = false).
  { apply create_returned in Hc as (_ & -> & _).
    rewrite DedupFacts.checkForChanges_orb.
    cbn [Repo.rowToResearcher ResearchersRepository.new_row
         Researcher.title Researcher.email Researcher.phone Researcher.office
         Researcher.website Researcher.research_areas
         ResearcherRow.title ResearcherRow.email ResearcherRow.phone
         ResearcherRow.office ResearcherRow.website ResearcherRow.research_areas].
    rewrite !field_changed_stored.
    rewrite He. cbn [option_map]. rewrite Hlow. rewrite field_changed_stored.
    rewrite areas_unchanged. reflexivity. }
  rewrite Hsame. reflexivity.
Qed.

End WithURL.

Lemma create_then_checkDuplicate_skips_witness :
  exists r s',
    ResearchersRepository.create Demo.now Demo.jane (Some 1) (Demo.world "body")
    = (Returned r, s')
    /\ DedupeDecision.action
         (Dedup.checkDuplicate Demo.url_hostname (State.researchers s')
            Demo.jane 1)
       = Skip.
Proof.
  eexists _, _. split; [vm_compute; reflexivity|].
  erewrite (create_then_checkDuplicate_skips Demo.url_hostname Demo.now
              Demo.jane (Some 1) (Demo.world "body") _ _ "jane@x.edu" 1);
    [reflexivity | reflexivity | discriminate | reflexivity
    | vm_compute; reflexivity].
Defined.

(** ** [update] *)

Lemma find_id_row db id old :
  List.find (fun row => ResearcherRow.id row =? id) db = Some old ->
  In old db /\ ResearcherRow.id old = id.
Proof.
  intros H. apply find_some in H as [Hin Hid]. split; [exact Hin|].
  apply Z.eqb_eq, Hid.
Qed.

Lemma ids_replace db id row :
  ResearcherRow.id row = id ->
  ids (map (fun r => if ResearcherRow.id r =? id then row else r) db) = ids db.
Proof.
  intros Hid. unfold ids. rewrite map_map. apply map_ext. intros r.
  destruct (Z.eqb_spec (ResearcherRow.id r) id); congruence.
Qed.

Lemma max_id_ids db :
  ResearchersRepository.max_id db = fold_right Z.max 0 (ids db).
Proof.
  unfold ResearchersRepository.max_id, ids.
  induction db as [|r db IH]; cbn [fold_right map]; congruence.
Qed.

Lemma high_water_ids s s' :
  ids (State.researchers s') = ids (State.researchers s) ->
  State.researchers_seq s' = State.researchers_seq s ->
  high_water s' = high_water s.
Proof. intros Hi Hs. unfold high_water. rewrite !max_id_ids, Hi, Hs. reflexivity. Qed.

(** [update] rewrites one row in place: the identities of the table, their
    order and the counter of the table stay as they were, also when the
    statement fails. *)
Lemma update_frame now id data s :
  ids (State.researchers (snd (ResearchersRepository.update now id data s)))
  = ids (State.researchers s)
  /\ State.researchers_seq (snd (ResearchersRepository.update now id data s))
     = State.researchers_seq s.
Proof.
  unfold ResearchersRepository.update.
  destruct (List.find _ _) as [old|] eqn:Hf; [|split; reflexivity].
  destruct (ResearchersRepository.no_fields data); [split; reflexivity|].
  cbv zeta. destruct (ResearchersRepository.violates_unique _ _ _);
    [split; reflexivity|].
  cbn [snd State.researchers State.set_researchers State.researchers_seq].
  split; [|reflexivity].
  apply ids_replace. apply find_id_row in Hf as [_ Hid]. exact Hid.
Qed.

Lemma update_returned_some now id data s r s' :
  ResearchersRepository.update now id data s = (Returned (Some r), s') ->
  In id (ids (State.researchers s)).
Proof.
  unfold ResearchersRepository.update.
  destruct (List.find _ _) as [old|] eqn:Hf; [|discriminate].
  intros _. apply find_id_row in Hf as [Hin Hid].
  unfold ids. rewrite <- Hid. apply in_map, Hin.
Qed.

(** ** The two loops of [persist] *)

Lemma insert_loop_spec now dir l :
  forall loc s,
    exists k s',
      Persist.insert_loop now dir l loc s
      = (Returned
           (Persist.mkLocals
              (Persist.insertedIds loc ++ following (high_water s) k)
              (Persist.updatedIds loc)
              (Persist.skipped loc + (Dedup.len l - Z.of_nat k))),
         s')
      /\ (k <= length l)%nat
      /\ ids (State.researchers s')
         = ids (State.researchers s) ++ following (high_water s) k
      /\ high_water s' = high_water s + Z.of_nat k.
Proof.
  induction l as [|x l IH]; intros loc s; cbn [Persist.insert_loop].
  - exists 0%nat, s. unfold ret, following, Dedup.len. cbn [seq map length].
    rewrite !app_nil_r, Z.add_0_r. destruct loc.
    split; [reflexivity|]. split; [lia|]. split; [reflexivity|lia].
  - unfold bind at 1. unfold try_catch, bind at 1.
    destruct (ResearchersRepository.create now x (Some dir) s) as [[r|m] s1]
      eqn:Hc.
    + apply create_returned in Hc as (_ & -> & ->).
      cbn [ret Persist.insertedIds Persist.updatedIds Persist.skipped
           Repo.rowToResearcher Researcher.id ResearchersRepository.new_row
           ResearcherRow.id].
      set (s1 := State.set_researchers_seq _ _).
      assert (Hhw : high_water s1 = high_water s + 1).
      { unfold high_water at 1. subst s1.
        cbn [State.researchers State.researchers_seq State.set_researchers
             State.set_researchers_seq].
        rewrite max_id_app.
        cbn [ResearchersRepository.new_row ResearcherRow.id].
        fold (high_water s). pose proof (high_water_nonneg s).
        unfold high_water in *. lia. }
      destruct (IH (Persist.mkLocals
                      (Persist.insertedIds loc ++ [high_water s + 1])
                      (Persist.updatedIds loc) (Persist.skipped loc)) s1)
        as (k & s' & Hrun & Hk & Hids & Hw).
      exists (S k), s'. rewrite Hrun.
      cbn [Persist.insertedIds Persist.updatedIds Persist.skipped].
      rewrite Hhw in *. rewrite following_S, <- app_assoc. cbn [app].
      split; [|split; [|split]].
      * do 3 f_equal. unfold Dedup.len. cbn [length]. lia.
      * cbn [length]. lia.
      * rewrite Hids. subst s1.
        cbn [State.researchers State.set_researchers State.set_researchers_seq].
        unfold ids. rewrite map_app, <- app_assoc. reflexivity.
      * lia.
    + apply create_thrown in Hc as ->.
      cbn [ret Persist.insertedIds Persist.updatedIds Persist.skipped].
      destruct (IH (Persist.mkLocals (Persist.insertedIds loc)
                      (Persist.updatedIds loc) (Persist.skipped loc + 1)) s)
        as (k & s' & Hrun & Hk & Hids & Hw).
      exists k, s'. rewrite Hrun.
      cbn [Persist.insertedIds Persist.updatedIds Persist.skipped].
      split; [|split; [|split]]; auto.
      * do 3 f_equal. unfold Dedup.len. cbn [length]. lia.
      * cbn [length]. lia.
Qed.

Lemma update_loop_spec now l :
  forall loc s,
    exists done s',
      Persist.update_loop now l loc s
      = (Returned
           (Persist.mkLocals
              (Persist.insertedIds loc)
              (Persist.updatedIds loc ++ done)
              (Persist.skipped loc + (Dedup.len l - Dedup.len done))),
         s')
      /\ (length done <= length l)%nat
      /\ Forall (fun id => In id (ids (State.researchers s))) done
      /\ ids (State.researchers s') = ids (State.researchers s)
      /\ State.researchers_seq s' = State.researchers_seq s.
Proof.
  induction l as [|x l IH]; intros loc s; cbn [Persist.update_loop].
  - exists [], s. unfold ret, Dedup.len. cbn [length].
    rewrite app_nil_r, Z.add_0_r. destruct loc.
    split; [reflexivity|]. split; [lia|]. split; [apply List.Forall_nil|].
    split; reflexivity.
  - unfold bind at 1. unfold try_catch. cbv zeta. unfold bind at 1.
    pose proof (update_frame now (UpdateItem.existing_id x)
                  (Persist.buildUpdateData now (UpdateItem.researcher x)) s)
      as [Hfi Hfs].
    destruct (ResearchersRepository.update now (UpdateItem.existing_id x)
                (Persist.buildUpdateData now (UpdateItem.researcher x)) s)
      as [[[r|]|m] s1] eqn:Hu; cbn [snd] in Hfi, Hfs;
      cbn [ret Persist.insertedIds Persist.updatedIds Persist.skipped].
    + apply update_returned_some in Hu.
      destruct (IH (Persist.mkLocals (Persist.insertedIds loc)
                      (Persist.updatedIds loc ++ [UpdateItem.existing_id x])
                      (Persist.skipped loc)) s1)
        as (done & s' & Hrun & Hk & Hin & Hids & Hseq).
      exists (UpdateItem.existing_id x :: done), s'. rewrite Hrun.
      cbn [Persist.insertedIds Persist.updatedIds Persist.skipped].
      rewrite <- app_assoc. cbn [app].
      split; [|split; [|split; [|split]]].
      * do 3 f_equal. unfold Dedup.len. cbn [length]. lia.
      * cbn [length]. lia.
      * apply List.Forall_cons; [exact Hu|]. rewrite <- Hfi. exact Hin.
      * congruence.
      * congruence.
    + destruct (IH (Persist.mkLocals (Persist.insertedIds loc)
                      (Persist.updatedIds loc) (Persist.skipped loc + 1)) s1)
        as (done & s' & Hrun & Hk & Hin & Hids & Hseq).
      exists done, s'. rewrite Hrun.
      cbn [Persist.insertedIds Persist.updatedIds Persist.skipped].
      split; [|split; [|split; [|split]]].
      * do 3 f_equal. unfold Dedup.len. cbn [length]. lia.
      * cbn [length]. lia.
      * rewrite <- Hfi. exact Hin.
      * congruence.
      * congruence.
    + destruct (IH (Persist.mkLocals (Persist.insertedIds loc)
                      (Persist.updatedIds loc) (Persist.skipped loc + 1)) s1)
        as (done & s' & Hrun & Hk & Hin & Hids & Hseq).
      exists done, s'. rewrite Hrun.
      cbn [Persist.insertedIds Persist.updatedIds Persist.skipped].
      split; [|split; [|split; [|split]]].
      * do 3 f_equal. unfold Dedup.len. cbn [length]. lia.
      * cbn [length]. lia.
      * rewrite <- Hfi. exact Hin.
      * congruence.
      * congruence.
Qed.

Lemma following_length first n : length (following first n) = n.
Proof. unfold following. rewrite length_map, length_seq. reflexivity. Qed.

(** [persist] as a function of the two loops. *)
Lemma persist_spec now input s :
  exists k done s',
    Persist.persist now input s
    = (Returned
         {| Step7Output.inserted_ids := following (high_water s) k;
            Step7Output.updated_ids := done;
            Step7Output.job_stats :=
              {| JobStats.records_created := Z.of_nat k;
                 JobStats.records_updated := Dedup.len done;
                 JobStats.records_skipped :=
                   (Dedup.len (Step7Input.to_insert input) - Z.of_nat k)
                   + (Dedup.len (Step7Input.to_update input) - Dedup.len done)
              |} |}, s')
    /\ (k <= length (Step7Input.to_insert input))%nat
    /\ (length done <= length (Step7Input.to_update input))%nat
    /\ Forall (fun id => In id (ids (State.researchers s'))) done
    /\ ids (State.researchers s')
       = ids (State.researchers s) ++ following (high_water s) k.
Proof.
  destruct (insert_loop_spec now (Step7Input.directory_id input)
              (Step7Input.to_insert input) (Persist.mkLocals [] [] 0) s)
    as (k & s1 & Hi & Hk & Hids1 & _).
  cbn [Persist.insertedIds Persist.updatedIds Persist.skipped app] in Hi.
  destruct (update_loop_spec now (Step7Input.to_update input)
              (Persist.mkLocals (following (high_water s) k) []
                 (0 + (Dedup.len (Step7Input.to_insert input) - Z.of_nat k))) s1)
    as (done & s2 & Hu & Hd & Hin & Hids2 & _).
  cbn [Persist.insertedIds Persist.updatedIds Persist.skipped app] in Hu.
  exists k, done.
  eexists. split.
  - unfold Persist.persist. unfold bind at 1. unfold try_catch.
    unfold bind at 1. rewrite Hi. unfold bind at 1. rewrite Hu.
    unfold bind, JobsRepository.updateStats, JobsRepository.update_where,
      modify, ret.
    cbn [Persist.insertedIds Persist.updatedIds Persist.skipped].
    assert (E : Dedup.len (following (high_water s) k) = Z.of_nat k)
      by (unfold Dedup.len; rewrite following_length; reflexivity).
    rewrite E, Z.add_0_l. reflexivity.
  - cbn [State.researchers State.set_scrape_jobs].
    split; [exact Hk|]. split; [exact Hd|].
    rewrite Hids2. split; [exact Hin|exact Hids1].
Qed.

(** X8.  [persist] always returns, and every item of its two input lists is
    counted once: as created, as updated or as skipped.  The counts of
    created and updated records are the lengths of the two lists of
    identities. *)
Theorem persist_accounts_for_every_item now input s :
  exists out s',
    Persist.persist now input s = (Returned out, s')
    /\ JobStats.records_created (Step7Output.job_stats out)
       = Dedup.len (Step7Output.inserted_ids out)
    /\ JobStats.records_updated (Step7Output.job_stats out)
       = Dedup.len (Step7Output.updated_ids out)
    /\ 0 <= JobStats.records_skipped (Step7Output.job_stats out)
    /\ JobStats.records_created (Step7Output.job_stats out)
       + JobStats.records_updated (Step7Output.job_stats out)
       + JobStats.records_skipped (Step7Output.job_stats out)
       = Dedup.len (Step7Input.to_insert input)
         + Dedup.len (Step7Input.to_update input).
Proof.
  destruct (persist_spec now input s) as (k & done & s' & Hrun & Hk & Hd & _).
  eexists _, s'. split; [exact Hrun|].
  cbn [Step7Output.job_stats Step7Output.inserted_ids Step7Output.updated_ids
       JobStats.records_created JobStats.records_updated
       JobStats.records_skipped].
  unfold Dedup.len in *. rewrite following_length.
  split; [reflexivity|]. split; [reflexivity|]. split; lia.
Qed.

(** X9.  The records that [persist] creates get the integers that follow the
    largest identity the table has assigned so far, in the order of
    [to_insert]; their rows are appended to the table, whose other
    identities keep their place; and every identity in [updated_ids] is the
    identity of a row. *)
Theorem persist_appends_following_ids now input s :
  exists out s',
    Persist.persist now input s = (Returned out, s')
    /\ Step7Output.inserted_ids out
       = following (high_water s) (length (Step7Output.inserted_ids out))
    /\ ids (State.researchers s')
       = ids (State.researchers s) ++ Step7Output.inserted_ids out
    /\ Forall (fun id => In id (ids (State.researchers s')))
              (Step7Output.updated_ids out).
Proof.
  destruct (persist_spec now input s)
    as (k & done & s' & Hrun & _ & _ & Hin & Hids).
  eexists _, s'. split; [exact Hrun|].
  cbn [Step7Output.inserted_ids Step7Output.updated_ids].
  rewrite following_length. auto.
Qed.

(** ** Consistency of the table *)

Lemma collides_sym a b :
  ResearchersRepository.collides None a b
  = ResearchersRepository.collides None b a.
Proof.
  unfold ResearchersRepository.collides, Repo.col_eqb. cbn [negb andb].
  rewrite (String.eqb_sym (ResearcherRow.full_name a)).
  destruct (ResearcherRow.email a) as [ea|], (ResearcherRow.email b) as [eb|];
    destruct (ResearcherRow.university a) as [ua|],
             (ResearcherRow.university b) as [ub|];
    destruct (ResearcherRow.department a) as [da|],
             (ResearcherRow.department b) as [db|];
    rewrite ?(String.eqb_sym ea), ?(String.eqb_sym ua), ?(String.eqb_sym da),
      ?andb_false_r; reflexivity.
Qed.

Lemma collides_self_other id new other :
  ResearcherRow.id other <> id ->
  ResearchersRepository.collides (Some id) new other
  = ResearchersRepository.collides None new other.
Proof.
  intros H. unfold ResearchersRepository.collides.
  destruct (Z.eqb_spec (ResearcherRow.id other) id); [contradiction|reflexivity].
Qed.

Lemma existsb_eqb_In_Z x l : existsb (Z.eqb x) l = true <-> In x l.
Proof.
  rewrite existsb_exists. split.
  - intros (y & Hy & E). apply Z.eqb_eq in E. now subst.
  - intros H. exists x. split; [exact H|apply Z.eqb_refl].
Qed.

Lemma distinct_cons x l :
  distinct (x :: l) = true <-> ~ In x l /\ distinct l = true.
Proof.
  cbn [distinct]. rewrite andb_true_iff, negb_true_iff.
  rewrite <- existsb_eqb_In_Z. destruct (existsb (Z.eqb x) l); intuition congruence.
Qed.

Lemma distinct_snoc l x :
  distinct l = true -> ~ In x l -> distinct (l ++ [x]) = true.
Proof.
  induction l as [|y l IH]; intros Hd Hx; [reflexivity|].
  cbn [app]. apply distinct_cons in Hd as [Hy Hd]. apply distinct_cons. split.
  - rewrite in_app_iff. cbn [In]. intros [H|[H|[]]]; [auto|].
    apply Hx. left. congruence.
  - apply IH; [exact Hd|]. intros H. apply Hx. now right.
Qed.

Lemma distinct_ids_inj db a b :
  distinct (ids db) = true -> In a db -> In b db ->
  ResearcherRow.id a = ResearcherRow.id b -> a = b.
Proof.
  induction db as [|r db IH]; intros Hd Ha Hb E; [destruct Ha|].
  cbn [ids map] in Hd. apply distinct_cons in Hd as [Hr Hd].
  fold (ids db) in Hr, Hd.
  destruct Ha as [<-|Ha], Hb as [<-|Hb]; [reflexivity| | |auto].
  - contradiction Hr. rewrite E. apply in_map, Hb.
  - contradiction Hr. rewrite <- E. apply in_map, Ha.
Qed.

Lemma unique_rows_pair db a b :
  unique_rows db = true -> In a db -> In b db -> a <> b ->
  ResearchersRepository.collides None a b = false.
Proof.
  induction db as [|r db IH]; intros Hu Ha Hb Hne; [destruct Ha|].
  cbn [unique_rows] in Hu. apply andb_true_iff in Hu as [Hr Hu].
  apply negb_true_iff in Hr. rewrite existsb_false in Hr.
  destruct Ha as [<-|Ha], Hb as [<-|Hb]; [contradiction| | |auto].
  - apply Hr, Hb.
  - rewrite collides_sym. apply Hr, Ha.
Qed.

Lemma unique_rows_snoc db row :
  unique_rows db = true ->
  (forall other, In other db ->
     ResearchersRepository.collides None row other = false) ->
  unique_rows (db ++ [row]) = true.
Proof.
  induction db as [|r db IH]; intros Hu Hrow; [reflexivity|].
  cbn [app unique_rows] in *. apply andb_true_iff in Hu as [Hr Hu].
  apply andb_true_iff. split.
  - apply negb_true_iff in Hr. rewrite existsb_false in Hr.
    apply negb_true_iff, existsb_false. intros x Hx.
    apply in_app_iff in Hx as [Hx|[<-|[]]]; [auto|].
    rewrite collides_sym. apply Hrow. now left.
  - apply IH; [exact Hu|]. intros other Ho. apply Hrow. now right.
Qed.

Lemma unique_rows_replace db id row :
  distinct (ids db) = true -> unique_rows db = true ->
  ResearcherRow.id row = id ->
  (forall other, In other db -> ResearcherRow.id other <> id ->
     ResearchersRepository.collides None row other = false) ->
  unique_rows (map (fun r => if ResearcherRow.id r =? id then row else r) db)
  = true.
Proof.
  set (f := fun r => if ResearcherRow.id r =? id then row else r).
  induction db as [|r db IH]; intros Hd Hu Hid Hrow; [reflexivity|].
  cbn [ids map] in Hd. apply distinct_cons in Hd as [Hr Hd].
  fold (ids db) in Hr, Hd.
  cbn [unique_rows] in Hu. apply andb_true_iff in Hu as [Hc Hu].
  apply negb_true_iff in Hc. rewrite existsb_false in Hc.
  cbn [map unique_rows]. apply andb_true_iff. split.
  - apply negb_true_iff, existsb_false. intros y Hy.
    apply in_map_iff in Hy as (x & <- & Hx).
    unfold f at 1 2.
    destruct (Z.eqb_spec (ResearcherRow.id r) id) as [Er|Er];
      destruct (Z.eqb_spec (ResearcherRow.id x) id) as [Ex|Ex].
    + contradiction Hr. rewrite Er, <- Ex. apply in_map, Hx.
    + apply Hrow; [now right|exact Ex].
    + rewrite collides_sym. apply Hrow; [now left|exact Er].
    + apply Hc, Hx.
  - apply IH; [exact Hd|exact Hu|exact Hid|].
    intros other Ho. apply Hrow. now right.
Qed.

Lemma positive_ids db :
  forallb (fun row => 0 <? ResearcherRow.id row) db
  = forallb (Z.ltb 0) (ids db).
Proof. unfold ids. induction db as [|r db IH]; cbn; congruence. Qed.

Lemma consistent_iff db :
  consistent db = true
  <-> forallb (Z.ltb 0) (ids db) = true /\ distinct (ids db) = true
      /\ unique_rows db = true.
Proof.
  unfold consistent. rewrite !andb_true_iff, positive_ids. tauto.
Qed.

(** [create] keeps the table consistent, whether it returns or throws. *)
Lemma create_consistent now data source s :
  consistent (State.researchers s) = true ->
  consistent
    (State.researchers (snd (ResearchersRepository.create now data source s)))
  = true.
Proof.
  intros Hc.
  destruct (ResearchersRepository.create now data source s) as [[r|m] s'] eqn:E.
  - apply create_returned in E as (Hu & _ & ->).
    cbn [snd State.researchers State.set_researchers State.set_researchers_seq].
    apply consistent_iff in Hc as (Hp & Hd & Hq). apply consistent_iff.
    unfold ids in *. rewrite map_app.
    cbn [map ResearchersRepository.new_row ResearcherRow.id].
    split; [|split].
    + rewrite forallb_app, Hp. cbn [forallb andb].
      pose proof (high_water_nonneg s). destruct (Z.ltb_spec 0 (high_water s + 1));
        [reflexivity|lia].
    + apply distinct_snoc; [exact Hd|]. intros Hin.
      apply in_map_iff in Hin as (row & Hid & Hin).
      pose proof (max_id_ge _ _ Hin). unfold high_water in Hid. lia.
    + apply unique_rows_snoc; [exact Hq|].
      unfold ResearchersRepository.violates_unique in Hu.
      rewrite existsb_false in Hu. exact Hu.
  - apply create_thrown in E as ->. exact Hc.
Qed.

(** [update] keeps the table consistent, whether it returns or throws. *)
Lemma update_consistent now id data s :
  consistent (State.researchers s) = true ->
  consistent
    (State.researchers (snd (ResearchersRepository.update now id data s)))
  = true.
Proof.
  intros Hc. pose proof (update_frame now id data s) as [Hids _].
  revert Hids. unfold ResearchersRepository.update.
  destruct (List.find _ _) as [old|] eqn:Hf; [|intros _; exact Hc].
  destruct (ResearchersRepository.no_fields data); [intros _; exact Hc|].
  cbv zeta.
  destruct (ResearchersRepository.violates_unique _ _ _) eqn:Hv;
    [intros _; exact Hc|].
  cbn [snd State.researchers State.set_researchers]. intros Hids.
  apply consistent_iff in Hc as (Hp & Hd & Hq). apply consistent_iff.
  rewrite Hids. split; [exact Hp|]. split; [exact Hd|].
  apply find_id_row in Hf as [_ Hid].
  apply unique_rows_replace; [exact Hd|exact Hq|exact Hid|].
  intros other Ho Hne.
  unfold ResearchersRepository.violates_unique in Hv.
  rewrite existsb_false in Hv. specialize (Hv other Ho).
  rewrite collides_self_other in Hv by exact Hne. exact Hv.
Qed.

Lemma insert_loop_consistent now dir l :
  forall loc s,
    consistent (State.researchers s) = true ->
    consistent (State.researchers (snd (Persist.insert_loop now dir l loc s)))
    = true.
Proof.
  induction l as [|x l IH]; intros loc s Hc; cbn [Persist.insert_loop];
    [exact Hc|].
  unfold bind at 1. unfold try_catch, bind at 1.
  pose proof (create_consistent now x (Some dir) s Hc) as Hc1.
  destruct (ResearchersRepository.create now x (Some dir) s) as [[r|m] s1];
    cbn [snd ret] in *; apply IH, Hc1.
Qed.

Lemma update_loop_consistent now l :
  forall loc s,
    consistent (State.researchers s) = true ->
    consistent (State.researchers (snd (Persist.update_loop now l loc s)))
    = true.
Proof.
  induction l as [|x l IH]; intros loc s Hc; cbn [Persist.update_loop];
    [exact Hc|].
  unfold bind at 1. unfold try_catch. cbv zeta. unfold bind at 1.
  pose proof (update_consistent now (UpdateItem.existing_id x)
                (Persist.buildUpdateData now (UpdateItem.researcher x)) s Hc)
    as Hc1.
  destruct (ResearchersRepository.update now (UpdateItem.existing_id x)
              (Persist.buildUpdateData now (UpdateItem.researcher x)) s)
    as [[[r|]|m] s1]; cbn [snd ret] in *; apply IH, Hc1.
Qed.

(** X10.  [persist] keeps the [researchers] table consistent: the row
    identities stay positive and pairwise distinct, and no two rows share a
    non-null email or a name with university and department. *)
Theorem persist_keeps_table_consistent now input s :
  consistent (State.researchers s) = true ->
  consistent (State.researchers (snd (Persist.persist now input s))) = true.
Proof.
  intros Hc.
  pose proof (insert_loop_consistent now (Step7Input.directory_id input)
                (Step7Input.to_insert input) (Persist.mkLocals [] [] 0) s Hc)
    as H1.
  unfold Persist.persist. unfold bind at 1. unfold try_catch.
  unfold bind at 1.
  destruct (Persist.insert_loop now (Step7Input.directory_id input)
              (Step7Input.to_insert input) (Persist.mkLocals [] [] 0) s)
    as [[l1|m1] s1]; cbn [snd] in H1.
  - unfold bind at 1.
    pose proof (update_loop_consistent now (Step7Input.to_update input) l1 s1 H1)
      as H2.
    destruct (Persist.update_loop now (Step7Input.to_update input) l1 s1)
      as [[l2|m2] s2]; cbn [snd] in H2; exact H2.
  - exact H1.
Qed.

Lemma persist_keeps_table_consistent_witness :
  consistent
    (State.researchers
       (snd (Persist.persist Demo.now
               {| Step7Input.to_insert := [Demo.jane; Demo.jane_promoted];
                  Step7Input.to_update := [];
                  Step7Input.job_id := "job-1";
                  Step7Input.directory_id := 1 |}
               (Demo.world "body"))))
  = true.
Proof.
  apply persist_keeps_table_consistent. reflexivity.
Defined.

(** ** An update that step 6 decides is one that step 7 can apply *)

Lemma or_undefined_inv o v :
  JS.or_undefined o = Some v -> o = Some v /\ v <> "".
Proof.
  unfold JS.or_undefined, JS.truthy. destruct o as [x|]; [|discriminate].
  destruct (String.eqb_spec x ""); [discriminate|].
  intros H. injection H as <-. auto.
Qed.

Lemma buildUpdateData_has_fields now c :
  ResearchersRepository.no_fields (Persist.buildUpdateData now c) = false.
Proof.
  unfold Persist.buildUpdateData, ResearchersRepository.no_fields.
  repeat (destruct (Persist.truthy_opt _); [reflexivity|]).
  destruct (ParsedResearcher.research_areas c) as [l|]; [|reflexivity].
  destruct (0 <? Z.of_nat (length l)); reflexivity.
Qed.

Lemma find_replace (p : ResearcherRow.t -> bool) db id row row0 :
  In row0 db -> ResearcherRow.id row0 = id -> p row = true ->
  (forall x, In x db -> ResearcherRow.id x <> id -> p x = false) ->
  List.find p (map (fun r => if ResearcherRow.id r =? id then row else r) db)
  = Some row.
Proof.
  intros Hin Hid Hrow Hothers.
  induction db as [|r db IH]; [destruct Hin|]. cbn [map List.find].
  destruct (Z.eqb_spec (ResearcherRow.id r) id) as [E|E].
  - rewrite Hrow. reflexivity.
  - rewrite (Hothers r (or_introl eq_refl) E). apply IH.
    + destruct Hin as [->|Hin]; [contradiction|exact Hin].
    + intros x Hx. apply Hothers. now right.
Qed.

Lemma field_changed_updated inc old :
  Dedup.field_changed inc
    (JS.or_undefined (ResearchersRepository.set_str (Persist.truthy_opt inc) old))
  = false.
Proof.
  destruct inc as [a|]; [|reflexivity]. cbn [Dedup.field_changed].
  destruct (String.eqb_spec a "") as [->|Hne]; [reflexivity|].
  unfold Persist.truthy_opt. rewrite (or_undefined_some a Hne).
  cbn [ResearchersRepository.set_str]. rewrite (or_undefined_some a Hne).
  cbn [negb andb]. unfold Dedup.differs. cbn [JS.opt_eqb].
  rewrite String.eqb_refl. reflexivity.
Qed.

Section WithURL.

Variable url_hostname : string -> option string.

(** The row that a decision other than [insert] names: the candidate has
    a populated email, and no other row of a consistent table has it. *)
Lemma decision_target db c dir id :
  distinct (ids db) = true -> unique_rows db = true ->
  DedupeDecision.action (Dedup.checkDuplicate url_hostname db c dir) <> Insert ->
  DedupeDecision.existing_id (Dedup.checkDuplicate url_hostname db c dir)
  = Some id ->
  exists row0 e,
    In row0 db /\ ResearcherRow.id row0 = id
    /\ ParsedResearcher.email c = Some e /\ e <> ""
    /\ forall other, In other db -> ResearcherRow.id other <> id ->
         Repo.col_eqb (ResearcherRow.email other) (JS.toLowerCase e) = false.
Proof.
  intros Hd Hq. rewrite DedupFacts.checkDuplicate_reconcile.
  unfold DedupSpec.reconcile.
  destruct (DedupSpec.email_match db c) as [r|] eqn:He.
  - intros _ Hid. unfold DedupSpec.email_match, DedupSpec.populated in He.
    destruct (JS.or_undefined (ParsedResearcher.email c)) as [e|] eqn:Hpe;
      [|discriminate].
    apply or_undefined_inv in Hpe as [Hpe Hne].
    apply DedupFacts.findByEmail_row in He as (row0 & Hin & Hm & ->).
    assert (Hrid : ResearcherRow.id row0 = id).
    { unfold DedupSpec.email_decision in Hid.
      destruct (Dedup.checkForChanges _ _); cbn in Hid; congruence. }
    exists row0, e. split; [exact Hin|]. split; [exact Hrid|].
    split; [exact Hpe|]. split; [exact Hne|].
    intros other Ho Hoid.
    assert (Hneq : row0 <> other) by (intros ->; contradiction).
    pose proof (unique_rows_pair db row0 other Hq Hin Ho Hneq) as Hc.
    unfold ResearchersRepository.collides in Hc. cbn [negb andb] in Hc.
    apply DedupFacts.email_matches_iff in Hm. rewrite Hm in Hc.
    apply orb_false_iff in Hc as [Hc _]. exact Hc.
  - destruct (DedupSpec.name_match db c) as [r|] eqn:Hn;
      [|intros H; contradiction H; reflexivity].
    cbv zeta.
    destruct (JS.ge _ _) eqn:Hge; [|intros H; contradiction H; reflexivity].
    intros _ Hid.
    rewrite DedupFacts.calculateMatchConfidence_score in Hge.
    rewrite DedupFacts.score_of_threshold in Hge.
    assert (Hdom : DedupSpec.email_domain (DedupSpec.signals url_hostname c r)
                   = true).
    { apply Z.leb_le in Hge. unfold DedupSpec.hundredths in Hge.
      destruct (DedupSpec.email_domain _); [reflexivity|].
      destruct (DedupSpec.title_signal _), (DedupSpec.phone_digits _),
        (DedupSpec.website_host _); lia. }
    unfold DedupSpec.signals in Hdom. cbn [DedupSpec.email_domain] in Hdom.
    unfold DedupSpec.populated in Hdom.
    destruct (JS.or_undefined (ParsedResearcher.email c)) as [e|] eqn:Hpe;
      [|discriminate].
    apply or_undefined_inv in Hpe as [Hpe Hne].
    unfold DedupSpec.email_match, DedupSpec.populated in He.
    rewrite Hpe, (or_undefined_some e Hne) in He.
    unfold DedupSpec.name_match in Hn.
    destruct (String.eqb (ParsedResearcher.university c) ""); [discriminate|].
    apply DedupFacts.findByNameAndUniversity_row in Hn as (row0 & Hin & ->).
    assert (Hrid : ResearcherRow.id row0 = id).
    { unfold DedupSpec.name_decision in Hid.
      destruct (Dedup.checkForChanges _ _); cbn in Hid; congruence. }
    exists row0, e. split; [exact Hin|]. split; [exact Hrid|].
    split; [exact Hpe|]. split; [exact Hne|].
    intros other Ho _. unfold Repo.findByEmail in He.
    destruct (List.find (Repo.email_matches e) db) eqn:Hf; [discriminate|].
    apply (find_none _ _ Hf other Ho).
Qed.

End WithURL.

Section Applied.

Variable url_hostname : string -> option string.

(** X11.  Reconcile, update, reconcile again.  On a consistent table, an
    [update] that [checkDuplicate] decides for a candidate with a
    lower-case email is applied by [update] with the data of
    [buildUpdateData] (it neither throws nor misses the row), and on the
    table that results the same candidate is decided [skip] with the same
    identity. *)
Theorem decided_update_is_applied_then_skipped now s c dir id :
  consistent (State.researchers s) = true ->
  (forall e, ParsedResearcher.email c = Some e -> JS.toLowerCase e = e) ->
  DedupeDecision.action
    (Dedup.checkDuplicate url_hostname (State.researchers s) c dir) = Update ->
  DedupeDecision.existing_id
    (Dedup.checkDuplicate url_hostname (State.researchers s) c dir) = Some id ->
  exists r s',
    ResearchersRepository.update now id (Persist.buildUpdateData now c) s
    = (Returned (Some r), s')
    /\ Researcher.id r = id
    /\ DedupeDecision.action
         (Dedup.checkDuplicate url_hostname (State.researchers s') c dir) = Skip
    /\ DedupeDecision.existing_id
         (Dedup.checkDuplicate url_hostname (State.researchers s') c dir)
       = Some id.
Proof.
  intros Hc Hlow Hact Hid.
  apply consistent_iff in Hc as (_ & Hd & Hq).
  destruct (decision_target url_hostname (State.researchers s) c dir id Hd Hq)
    as (row0 & e & Hin & Hrid & He & Hne & Hothers);
    [rewrite Hact; discriminate|exact Hid|].
  specialize (Hlow e He).
  set (row := ResearchersRepository.apply_update now
                (Persist.buildUpdateData now c) row0).
  assert (Hemail : ResearcherRow.email row = Some e).
  { subst row.
    cbn [ResearchersRepository.apply_update ResearcherRow.email
         Persist.buildUpdateData PartialResearcher.email].
    unfold Persist.truthy_opt. rewrite He, (or_undefined_some e Hne).
    cbn [option_map ResearchersRepository.set_str].
    destruct (String.eqb_spec e ""); [contradiction|]. congruence. }
  assert (Hfind : List.find (fun r => ResearcherRow.id r =? id)
                            (State.researchers s) = Some row0).
  { apply DedupFacts.find_unique; [exact Hin|apply Z.eqb_eq, Hrid|].
    intros y Hy Hyid. apply Z.eqb_eq in Hyid.
    apply (distinct_ids_inj (State.researchers s)); congruence. }
  assert (Hfree : ResearchersRepository.violates_unique (State.researchers s)
                    (Some id) row = false).
  { unfold ResearchersRepository.violates_unique. apply existsb_false.
    intros other Ho.
    destruct (Z.eq_dec (ResearcherRow.id other) id) as [E|E].
    - unfold ResearchersRepository.collides. rewrite (proj2 (Z.eqb_eq _ _) E).
      reflexivity.
    - rewrite collides_self_other by exact E.
      assert (Hneq : row0 <> other) by (intros ->; contradiction).
      pose proof (unique_rows_pair _ row0 other Hq Hin Ho Hneq) as Hcol.
      unfold ResearchersRepository.collides in Hcol |- *.
      cbn [negb andb] in Hcol |- *.
      apply orb_false_iff in Hcol as [_ Hname].
      rewrite Hemail, <- Hlow, (Hothers other Ho E). cbn [orb].
      subst row.
      cbn [ResearchersRepository.apply_update ResearcherRow.full_name
           ResearcherRow.university ResearcherRow.department].
      exact Hname. }
  set (db' := map (fun r => if ResearcherRow.id r =? id then row else r)
                  (State.researchers s)).
  assert (Hrow_id : ResearcherRow.id row = id) by exact Hrid.
  assert (Hbyid : Repo.findById db' id = Some (Repo.rowToResearcher row)).
  { unfold Repo.findById, db'.
    rewrite (find_replace _ _ id row row0 Hin Hrid).
    - reflexivity.
    - apply Z.eqb_eq, Hrow_id.
    - intros x _ Hx. apply Z.eqb_neq, Hx. }
  assert (Hbyemail : Repo.findByEmail db' e = Some (Repo.rowToResearcher row)).
  { unfold Repo.findByEmail, db'.
    rewrite (find_replace _ _ id row row0 Hin Hrid).
    - reflexivity.
    - unfold Repo.email_matches. rewrite Hemail, Hlow. cbn [Repo.col_eqb].
      apply String.eqb_refl.
    - intros x Hx Hxid. unfold Repo.email_matches. apply Hothers; assumption. }
  assert (Hsame : Dedup.checkForChanges c (Repo.rowToResearcher row) = false).
  { rewrite DedupFacts.checkForChanges_orb.
    cbn [Repo.rowToResearcher Researcher.title Researcher.email
         Researcher.phone Researcher.office Researcher.website
         Researcher.research_areas].
    rewrite Hemail. subst row.
    cbn [ResearchersRepository.apply_update ResearcherRow.title
         ResearcherRow.phone ResearcherRow.office ResearcherRow.website
         ResearcherRow.research_areas Persist.buildUpdateData
         PartialResearcher.title PartialResearcher.phone
         PartialResearcher.office PartialResearcher.website
         PartialResearcher.research_areas].
    rewrite !field_changed_updated.
    rewrite He. cbn [Dedup.field_changed].
    rewrite (or_undefined_some e Hne). unfold Dedup.differs.
    cbn [JS.opt_eqb]. rewrite String.eqb_refl, andb_false_r. cbn [orb].
    destruct (ParsedResearcher.research_areas c) as [l|]; [|reflexivity].
    destruct (0 <? Z.of_nat (length l)) eqn:Hl.
    - apply areas_unchanged.
    - cbn [DedupSpec.areas_changed]. rewrite Hl. reflexivity. }
  exists (Repo.rowToResearcher row), (State.set_researchers db' s).
  split; [|split; [exact Hrow_id|]].
  - unfold ResearchersRepository.update. rewrite Hfind.
    rewrite buildUpdateData_has_fields. cbv zeta. fold row. rewrite Hfree.
    fold db'. rewrite Hbyid. reflexivity.
  - cbn [State.researchers State.set_researchers].
    unfold Dedup.checkDuplicate. rewrite He.
    destruct (String.eqb_spec e ""); [contradiction|]. cbn [negb].
    rewrite Hbyemail, Hsame.
    cbn [DedupeDecision.action DedupeDecision.existing_id Repo.rowToResearcher
         Researcher.id].
    split; [reflexivity|]. congruence.
Qed.

End Applied.

Lemma decided_update_is_applied_then_skipped_witness :
  exists r s',
    ResearchersRepository.update Demo.now 1
      (Persist.buildUpdateData Demo.now Demo.jane_promoted)
      (State.set_researchers [Demo.jane_row] (Demo.world "body"))
    = (Returned (Some r), s')
    /\ Researcher.id r = 1
    /\ DedupeDecision.action
         (Dedup.checkDuplicate Demo.url_hostname (State.researchers s')
            Demo.jane_promoted 1) = Skip
    /\ DedupeDecision.existing_id
         (Dedup.checkDuplicate Demo.url_hostname (State.researchers s')
            Demo.jane_promoted 1) = Some 1.
Proof.
  apply (decided_update_is_applied_then_skipped Demo.url_hostname Demo.now
           (State.set_researchers [Demo.jane_row] (Demo.world "body"))
           Demo.jane_promoted 1 1).
  - reflexivity.
  - intros e He. injection He as <-. reflexivity.
  - reflexivity.
  - reflexivity.
Defined.

End StoreLaws.

(* ===================================================================== *)
(** * Properties of step 8 and of the enrichment queue *)
(* ===================================================================== *)

Module QueueLaws.

Import QueueAux.

(** ** The monad *)

Lemma bind_gets {A B} (f : State.t -> A) (k : A -> Eff B) s :
  bind (gets f) k s = k (f s) s.
Proof. reflexivity. Qed.

Lemma bind_modify {B} (f : State.t -> State.t) (k : unit -> Eff B) s :
  bind (modify f) k s = k tt (f s).
Proof. reflexivity. Qed.

Lemma bind_ret {A B} (a : A) (k : A -> Eff B) s : bind (ret a) k s = k a s.
Proof. reflexivity. Qed.

Lemma bind_assoc {A B C} (c : Eff A) (k : A -> Eff B) (h : B -> Eff C) s :
  bind (bind c k) h s = bind c (fun a => bind (k a) h) s.
Proof. unfold bind. destruct (c s) as [[a|m] s']; reflexivity. Qed.

(** ** The repository *)

Lemma find_queued queue id :
  queued queue id
  = match List.find (fun q => QueueRow.researcher_id q =? id) queue with
    | Some _ => true
    | None => false
    end.
Proof.
  unfold queued. induction queue as [|q queue IH]; cbn [existsb List.find];
    [reflexivity|].
  destruct (QueueRow.researcher_id q =? id); [reflexivity|exact IH].
Qed.

Lemma queued_app queue queue' id :
  queued (queue ++ queue') id = queued queue id || queued queue' id.
Proof. unfold queued. apply existsb_app. Qed.

Lemma getPosition_spec id s :
  exists p,
    EnrichmentQueueRepository.getPosition id s = (Returned (Some p), s)
    /\ 1 <= p.
Proof.
  unfold EnrichmentQueueRepository.getPosition, gets.
  destruct (List.find _ _) as [me|].
  - eexists. split; [reflexivity|]. lia.
  - exists 1. split; [reflexivity|]. lia.
Qed.

Lemma push_position_some id p l :
  1 <= p ->
  QueueEnrich.push_position id (Some p) l = l ++ [QueuePosition.mk id p].
Proof.
  intros H. unfold QueueEnrich.push_position.
  destruct (Z.eqb_spec p 0); [lia|reflexivity].
Qed.

(** [add] always returns, and leaves the researchers alone. *)
Lemma add_returns now id p s :
  exists r s1,
    EnrichmentQueueRepository.add now id p s = (Returned r, s1)
    /\ State.researchers s1 = State.researchers s.
Proof.
  unfold EnrichmentQueueRepository.add.
  unfold bind, modify, EnrichmentQueueRepository.findByResearcher, gets.
  eexists _, _. split; [reflexivity|].
  destruct (existsb _ _); [reflexivity|].
  destruct (negb _); reflexivity.
Qed.

Lemma stored_references s id :
  In id (StoreAux.ids (State.researchers s)) ->
  EnrichmentQueueRepository.references_researcher s id = true.
Proof.
  unfold EnrichmentQueueRepository.references_researcher, StoreAux.ids.
  intros H. apply in_map_iff in H as (row & Hid & Hin).
  apply existsb_exists. exists row. split; [exact Hin|]. apply Z.eqb_eq, Hid.
Qed.

(** For a stored researcher without an item, [add] appends one. *)
Lemma add_appends now id p s :
  queued (State.enrichment_queue s) id = false ->
  In id (StoreAux.ids (State.researchers s)) ->
  exists r row s1,
    EnrichmentQueueRepository.add now id p s = (Returned r, s1)
    /\ State.enrichment_queue s1 = State.enrichment_queue s ++ [row]
    /\ State.researchers s1 = State.researchers s
    /\ fresh_item p row
    /\ QueueRow.researcher_id row = id.
Proof.
  intros Hq Hin. apply stored_references in Hin.
  unfold EnrichmentQueueRepository.add.
  unfold bind, modify, EnrichmentQueueRepository.findByResearcher, gets.
  fold (queued (State.enrichment_queue s) id). rewrite Hq, Hin. cbn [negb].
  eexists _, _, _. split; [reflexivity|].
  cbn [State.enrichment_queue State.set_enrichment_queue
       State.set_enrichment_queue_seq State.researchers].
  split; [reflexivity|]. split; [reflexivity|].
  split; [repeat split|reflexivity].
Qed.

(** ** The loop of [queueForEnrichment] *)

(** The counters of the loop, whatever the store holds: [known] of the
    identities had an item when their turn came. *)
Lemma queue_loop_counts now priority l :
  forall loc s,
    exists positions known s',
      QueueEnrich.queue_loop now priority l loc s
      = (Returned
           (QueueEnrich.mkLocals
              (QueueEnrich.queuePositions loc ++ positions)
              (QueueEnrich.alreadyQueued loc + known)),
         s')
      /\ 0 <= known <= Dedup.len l
      /\ map QueuePosition.researcher_id positions = l
      /\ Forall (fun p => 1 <= QueuePosition.position p) positions.
Proof.
  induction l as [|x l IH]; intros loc s; cbn [QueueEnrich.queue_loop].
  - exists [], 0, s. unfold ret, Dedup.len. cbn [length map].
    rewrite !app_nil_r, Z.add_0_r. destruct loc.
    split; [reflexivity|]. split; [lia|]. split; [reflexivity|].
    apply List.Forall_nil.
  - unfold EnrichmentQueueRepository.findByResearcher at 1.
    rewrite bind_gets.
    destruct (List.find _ (State.enrichment_queue s)) as [me|].
    + destruct (getPosition_spec x s) as (p & Hp & Hp1).
      rewrite bind_assoc. unfold bind at 1. rewrite Hp. rewrite bind_ret.
      rewrite (push_position_some x p _ Hp1).
      destruct (IH (QueueEnrich.mkLocals
                      (QueueEnrich.queuePositions loc ++ [QueuePosition.mk x p])
                      (QueueEnrich.alreadyQueued loc + 1)) s)
        as (positions & known & s' & Hrun & Hk & Hpos & Hp').
      exists (QueuePosition.mk x p :: positions), (known + 1), s'. rewrite Hrun.
      cbn [QueueEnrich.queuePositions QueueEnrich.alreadyQueued].
      rewrite <- app_assoc. cbn [app].
      split; [do 3 f_equal; lia|].
      split; [unfold Dedup.len in *; cbn [length]; lia|].
      split; [cbn [map QueuePosition.researcher_id]; rewrite Hpos; reflexivity|].
      apply List.Forall_cons; [exact Hp1|exact Hp'].
    + rewrite bind_assoc. unfold bind at 1.
      destruct (add_returns now x priority s) as (r & s1 & Ha & _). rewrite Ha.
      destruct (getPosition_spec x s1) as (p & Hp & Hp1).
      rewrite bind_assoc. unfold bind at 1. rewrite Hp. rewrite bind_ret.
      rewrite (push_position_some x p _ Hp1).
      destruct (IH (QueueEnrich.mkLocals
                      (QueueEnrich.queuePositions loc ++ [QueuePosition.mk x p])
                      (QueueEnrich.alreadyQueued loc)) s1)
        as (positions & known & s' & Hrun & Hk & Hpos & Hp').
      exists (QueuePosition.mk x p :: positions), known, s'. rewrite Hrun.
      cbn [QueueEnrich.queuePositions QueueEnrich.alreadyQueued].
      rewrite <- app_assoc. cbn [app].
      split; [reflexivity|].
      split; [unfold Dedup.len in *; cbn [length]; lia|].
      split; [cbn [map QueuePosition.researcher_id]; rewrite Hpos; reflexivity|].
      apply List.Forall_cons; [exact Hp1|exact Hp'].
Qed.

(** The loop on identities of stored researchers. *)
Lemma queue_loop_spec now priority l :
  forall loc s,
    all_stored s l ->
    exists added positions s',
      QueueEnrich.queue_loop now priority l loc s
      = (Returned
           (QueueEnrich.mkLocals
              (QueueEnrich.queuePositions loc ++ positions)
              (QueueEnrich.alreadyQueued loc
               + (Dedup.len l - Dedup.len added))),
         s')
      /\ State.enrichment_queue s' = State.enrichment_queue s ++ added
      /\ State.researchers s' = State.researchers s
      /\ (length added <= length l)%nat
      /\ Forall (fun q => fresh_item priority q
                          /\ In (QueueRow.researcher_id q) l
                          /\ queued (State.enrichment_queue s)
                                    (QueueRow.researcher_id q) = false)
                added
      /\ forall id, In id l -> queued (State.enrichment_queue s') id = true.
Proof.
  induction l as [|x l IH]; intros loc s Hst; cbn [QueueEnrich.queue_loop].
  - exists [], [], s. unfold ret, Dedup.len. cbn [length map].
    rewrite !app_nil_r, Z.add_0_r. destruct loc.
    split; [reflexivity|]. split; [reflexivity|]. split; [reflexivity|].
    split; [lia|]. split; [apply List.Forall_nil|]. intros id [].
  - apply List.Forall_cons_iff in Hst as [Hx Hst].
    unfold EnrichmentQueueRepository.findByResearcher at 1.
    rewrite bind_gets.
    pose proof (find_queued (State.enrichment_queue s) x) as Hq.
    destruct (List.find _ (State.enrichment_queue s)) as [me|] eqn:Hf.
    + (* already queued *)
      destruct (getPosition_spec x s) as (p & Hp & Hp1).
      rewrite bind_assoc. unfold bind at 1. rewrite Hp. rewrite bind_ret.
      rewrite (push_position_some x p _ Hp1).
      destruct (IH (QueueEnrich.mkLocals
                      (QueueEnrich.queuePositions loc ++ [QueuePosition.mk x p])
                      (QueueEnrich.alreadyQueued loc + 1)) s Hst)
        as (added & positions & s' & Hrun & Hqueue & Hres & Hlen & Hadd & Hall).
      exists added, (QueuePosition.mk x p :: positions), s'. rewrite Hrun.
      cbn [QueueEnrich.queuePositions QueueEnrich.alreadyQueued].
      rewrite <- app_assoc. cbn [app].
      split; [|split; [exact Hqueue|split; [exact Hres|split; [|split]]]].
      * do 3 f_equal. unfold Dedup.len. cbn [length]. lia.
      * cbn [length]. lia.
      * eapply List.Forall_impl; [|exact Hadd].
        cbn beta. intros q (H1 & H2 & H3). split; [exact H1|].
        split; [now right|exact H3].
      * intros id [<-|Hin]; [|apply Hall, Hin].
        rewrite Hqueue, queued_app, Hq. reflexivity.
    + (* not queued: add *)
      rewrite bind_assoc. unfold bind at 1.
      destruct (add_appends now x priority s Hq Hx)
        as (r & row & s1 & Ha & Hq1 & Hr1 & Hfresh & Hrow).
      rewrite Ha.
      destruct (getPosition_spec x s1) as (p & Hp & Hp1).
      rewrite bind_assoc. unfold bind at 1. rewrite Hp. rewrite bind_ret.
      rewrite (push_position_some x p _ Hp1).
      assert (Hst1 : all_stored s1 l) by (unfold all_stored; rewrite Hr1; exact Hst).
      destruct (IH (QueueEnrich.mkLocals
                      (QueueEnrich.queuePositions loc ++ [QueuePosition.mk x p])
                      (QueueEnrich.alreadyQueued loc)) s1 Hst1)
        as (added & positions & s' & Hrun & Hqueue & Hres & Hlen & Hadd & Hall).
      exists (row :: added), (QueuePosition.mk x p :: positions), s'.
      rewrite Hrun.
      cbn [QueueEnrich.queuePositions QueueEnrich.alreadyQueued].
      rewrite <- app_assoc. cbn [app].
      split; [|split; [|split; [|split; [|split]]]].
      * do 3 f_equal. unfold Dedup.len. cbn [length]. lia.
      * rewrite Hqueue, Hq1, <- app_assoc. reflexivity.
      * rewrite Hres. exact Hr1.
      * cbn [length]. lia.
      * apply List.Forall_cons.
        -- split; [exact Hfresh|]. rewrite Hrow. split; [now left|exact Hq].
        -- eapply List.Forall_impl; [|exact Hadd].
           cbn beta. intros q (H1 & H2 & H3). split; [exact H1|].
           split; [now right|].
           rewrite Hq1, queued_app in H3. apply orb_false_iff in H3 as [H3 _].
           exact H3.
      * intros id [<-|Hin]; [|apply Hall, Hin].
        rewrite Hqueue, Hq1, !queued_app. unfold queued at 2.
        cbn [existsb]. rewrite Hrow, Z.eqb_refl.
        rewrite orb_true_r. reflexivity.
Qed.

Lemma queueForEnrichment_counts now input s :
  exists positions known s',
    QueueEnrich.queueForEnrichment now input s
    = (Returned
         {| Step8Output.queued_count :=
              Dedup.len (Step8Input.researcher_ids input) - known;
            Step8Output.already_queued := known;
            Step8Output.queue_positions := positions |}, s')
    /\ 0 <= known <= Dedup.len (Step8Input.researcher_ids input)
    /\ map QueuePosition.researcher_id positions
       = Step8Input.researcher_ids input
    /\ Forall (fun p => 1 <= QueuePosition.position p) positions.
Proof.
  destruct (queue_loop_counts now (priority_of input)
              (Step8Input.researcher_ids input) (QueueEnrich.mkLocals [] 0) s)
    as (positions & known & s' & Hrun & H).
  exists positions, known, s'. split; [|exact H].
  unfold QueueEnrich.queueForEnrichment. cbv zeta. fold (priority_of input).
  unfold bind. rewrite Hrun.
  cbn [QueueEnrich.queuePositions QueueEnrich.alreadyQueued app].
  unfold ret. rewrite Z.add_0_l. reflexivity.
Qed.

Lemma queueForEnrichment_spec now input s :
  all_stored s (Step8Input.researcher_ids input) ->
  exists added positions s',
    QueueEnrich.queueForEnrichment now input s
    = (Returned
         {| Step8Output.queued_count := Dedup.len added;
            Step8Output.already_queued :=
              Dedup.len (Step8Input.researcher_ids input) - Dedup.len added;
            Step8Output.queue_positions := positions |}, s')
    /\ State.enrichment_queue s' = State.enrichment_queue s ++ added
    /\ State.researchers s' = State.researchers s
    /\ (length added <= length (Step8Input.researcher_ids input))%nat
    /\ Forall (fun q => fresh_item (priority_of input) q
                        /\ In (QueueRow.researcher_id q)
                              (Step8Input.researcher_ids input)
                        /\ queued (State.enrichment_queue s)
                                  (QueueRow.researcher_id q) = false)
              added
    /\ forall id, In id (Step8Input.researcher_ids input) ->
         queued (State.enrichment_queue s') id = true.
Proof.
  intros Hst.
  destruct (queue_loop_spec now (priority_of input)
              (Step8Input.researcher_ids input) (QueueEnrich.mkLocals [] 0) s Hst)
    as (added & positions & s' & Hrun & H).
  exists added, positions, s'. split; [|exact H].
  unfold QueueEnrich.queueForEnrichment. cbv zeta. fold (priority_of input).
  unfold bind. rewrite Hrun.
  cbn [QueueEnrich.queuePositions QueueEnrich.alreadyQueued app].
  unfold ret. rewrite Z.add_0_l.
  replace (Dedup.len (Step8Input.researcher_ids input)
           - (Dedup.len (Step8Input.researcher_ids input) - Dedup.len added))
    with (Dedup.len added) by lia.
  reflexivity.
Qed.

(** X12.  [queueForEnrichment] always returns; every identity of the input is
    counted once, as queued or as already queued, and gets one entry of
    [queue_positions], in the order of the input, with a position of at
    least 1. *)
Theorem queueForEnrichment_accounts_for_every_id now input s :
  exists out s',
    QueueEnrich.queueForEnrichment now input s = (Returned out, s')
    /\ Step8Output.queued_count out + Step8Output.already_queued out
       = Dedup.len (Step8Input.researcher_ids input)
    /\ 0 <= Step8Output.queued_count out
    /\ 0 <= Step8Output.already_queued out
    /\ map QueuePosition.researcher_id (Step8Output.queue_positions out)
       = Step8Input.researcher_ids input
    /\ Forall (fun p => 1 <= QueuePosition.position p)
              (Step8Output.queue_positions out).
Proof.
  destruct (queueForEnrichment_counts now input s)
    as (positions & known & s' & Hrun & Hk & Hpos & Hp1).
  eexists _, s'. split; [exact Hrun|].
  cbn [Step8Output.queued_count Step8Output.already_queued
       Step8Output.queue_positions].
  split; [lia|]. split; [lia|]. split; [lia|].
  split; [exact Hpos|exact Hp1].
Qed.

(** X13.  For identities of stored researchers, [queueForEnrichment] only
    appends to the queue: the items that were there stay as they were; the
    appended items are pending, carry the requested priority (5 by
    default) and no attempt, belong to researchers of the input that had
    no item, and are [queued_count] many; afterwards every researcher of
    the input has an item. *)
Theorem queueForEnrichment_appends_pending_items now input s :
  all_stored s (Step8Input.researcher_ids input) ->
  exists out s' added,
    QueueEnrich.queueForEnrichment now input s = (Returned out, s')
    /\ State.enrichment_queue s' = State.enrichment_queue s ++ added
    /\ Step8Output.queued_count out = Dedup.len added
    /\ Forall (fun q => fresh_item (priority_of input) q
                        /\ In (QueueRow.researcher_id q)
                              (Step8Input.researcher_ids input)
                        /\ queued (State.enrichment_queue s)
                                  (QueueRow.researcher_id q) = false)
              added
    /\ forall id, In id (Step8Input.researcher_ids input) ->
         queued (State.enrichment_queue s') id = true.
Proof.
  intros Hst.
  destruct (queueForEnrichment_spec now input s Hst)
    as (added & positions & s' & Hrun & Hq & _ & _ & Hadd & Hall).
  eexists _, s', added. split; [exact Hrun|].
  cbn [Step8Output.queued_count]. auto.
Qed.

Lemma queueForEnrichment_appends_pending_items_witness :
  exists out s' added,
    QueueEnrich.queueForEnrichment Demo.now
      {| Step8Input.researcher_ids := [1; 1]; Step8Input.priority := None |}
      (State.set_researchers [Demo.jane_row] (Demo.world "body"))
    = (Returned out, s')
    /\ State.enrichment_queue s' = [] ++ added
    /\ Step8Output.queued_count out = Dedup.len added
    /\ Forall (fun q => fresh_item 5 q
                        /\ In (QueueRow.researcher_id q) [1; 1]
                        /\ queued [] (QueueRow.researcher_id q) = false)
              added
    /\ forall id, In id [1; 1] ->
         queued (State.enrichment_queue s') id = true.
Proof.
  apply (queueForEnrichment_appends_pending_items Demo.now
           {| Step8Input.researcher_ids := [1; 1]; Step8Input.priority := None |}
           (State.set_researchers [Demo.jane_row] (Demo.world "body"))).
  repeat (apply List.Forall_cons; [left; reflexivity|]). apply List.Forall_nil.
Defined.

(** X14.  For identities of stored researchers, running [queueForEnrichment] a
    second time on the same input adds nothing: the queue stays as the
    first run left it, and every identity is reported as already queued. *)
Theorem queueForEnrichment_twice now now' input s :
  all_stored s (Step8Input.researcher_ids input) ->
  let s1 := snd (QueueEnrich.queueForEnrichment now input s) in
  exists out s2,
    QueueEnrich.queueForEnrichment now' input s1 = (Returned out, s2)
    /\ State.enrichment_queue s2 = State.enrichment_queue s1
    /\ Step8Output.queued_count out = 0
    /\ Step8Output.already_queued out
       = Dedup.len (Step8Input.researcher_ids input).
Proof.
  intros Hst. cbv zeta.
  destruct (queueForEnrichment_spec now input s Hst)
    as (added & positions & s1 & Hrun & _ & Hres & _ & _ & Hall).
  rewrite Hrun. cbn [snd].
  assert (Hst1 : all_stored s1 (Step8Input.researcher_ids input))
    by (unfold all_stored; rewrite Hres; exact Hst).
  destruct (queueForEnrichment_spec now' input s1 Hst1)
    as (added2 & positions2 & s2 & Hrun2 & Hq2 & _ & _ & Hadd2 & _).
  assert (Hnil : added2 = []).
  { destruct added2 as [|q rest]; [reflexivity|].
    apply List.Forall_cons_iff in Hadd2 as [(_ & Hin & Hnot) _].
    rewrite (Hall _ Hin) in Hnot. discriminate. }
  subst added2. rewrite app_nil_r in Hq2.
  eexists _, s2. split; [exact Hrun2|].
  cbn [Step8Output.queued_count Step8Output.already_queued].
  unfold Dedup.len. cbn [length]. split; [exact Hq2|]. split; lia.
Qed.

Lemma queueForEnrichment_twice_witness :
  let input :=
    {| Step8Input.researcher_ids := [1; 1]; Step8Input.priority := None |} in
  let s1 :=
    snd (QueueEnrich.queueForEnrichment Demo.now input
           (State.set_researchers [Demo.jane_row] (Demo.world "body"))) in
  exists out s2,
    QueueEnrich.queueForEnrichment Demo.now input s1 = (Returned out, s2)
    /\ State.enrichment_queue s2 = State.enrichment_queue s1
    /\ Step8Output.queued_count out = 0
    /\ Step8Output.already_queued out = Dedup.len [1; 1].
Proof.
  apply (queueForEnrichment_twice Demo.now Demo.now
           {| Step8Input.researcher_ids := [1; 1]; Step8Input.priority := None |}
           (State.set_researchers [Demo.jane_row] (Demo.world "body"))).
  repeat (apply List.Forall_cons; [left; reflexivity|]). apply List.Forall_nil.
Defined.

End QueueLaws.

(* ===================================================================== *)
(** * Further properties of the recorder and of the runner *)
(* ===================================================================== *)

Module RecorderLaws.

Ltac unfold_recorder :=
  unfold Recorder.recordStepStart, Recorder.recordStepEnd,
    Recorder.recordStepError, Recorder.finalize, Recorder.push_step,
    Recorder.writeFileSync, Recorder.loadStepInput, Recorder.loadStepOutput,
    JobsRepository.storeStepOutput, JobsRepository.updateCurrentStep,
    JobsRepository.update_where, try_catch, bind, modify, gets, ret, throw.

Ltac simpl_state :=
  cbn [snd fst State.files State.recording State.currentStep
       State.step_outputs State.scrape_jobs State.errors State.researchers
       State.set_files State.set_currentStep State.set_step_outputs
       State.set_scrape_jobs State.set_recording State.set_errors
       StepRecording.stepName StepRecording.input StepRecording.output
       StepRecording.error StepRecording.success
       JobRecording.steps JobRecording.jobId JobRecording.directoryId].

Ltac simpl_state_in H :=
  cbn [snd fst State.files State.recording State.currentStep
       State.step_outputs State.scrape_jobs State.errors State.researchers
       State.set_files State.set_currentStep State.set_step_outputs
       State.set_scrape_jobs State.set_recording State.set_errors
       StepRecording.stepName StepRecording.input StepRecording.output
       StepRecording.error StepRecording.success
       JobRecording.steps JobRecording.jobId JobRecording.directoryId] in H.

(** X15.  Record and load.  For a job that has its row in [scrape_jobs]: after
    [recordStepStart] and [recordStepEnd] for the same stage,
    [loadStepInput] and [loadStepOutput] return the two
    recorded values, the recording has one more step, marked successful,
    no step is in progress, and the [step_outputs] table has two more
    rows: the one written at the start (no output, not successful) and the
    one written at the end. *)
Theorem recordStepStart_then_recordStepEnd jobId stepName input output s :
  JobsAux.job_known s jobId = true ->
  let s' :=
    snd (bind (Recorder.recordStepStart jobId stepName input)
              (fun _ => Recorder.recordStepEnd jobId stepName output) s) in
  Recorder.loadStepInput s' jobId stepName = Some (FJson input)
  /\ Recorder.loadStepOutput s' jobId stepName = Some (FJson output)
  /\ JobRecording.steps (State.recording s')
     = JobRecording.steps (State.recording s)
       ++ [{| StepRecording.stepName := stepName;
              StepRecording.input := input;
              StepRecording.output := Some output;
              StepRecording.error := None;
              StepRecording.success := true |}]
  /\ State.currentStep s' = None
  /\ State.step_outputs s'
     = State.step_outputs s
       ++ [{| StepOutputRow.job_id := jobId;
              StepOutputRow.step_name := stepName;
              StepOutputRow.input_data := input;
              StepOutputRow.output_data := ANull;
              StepOutputRow.success := false;
              StepOutputRow.error_message := None |};
           {| StepOutputRow.job_id := jobId;
              StepOutputRow.step_name := stepName;
              StepOutputRow.input_data := input;
              StepOutputRow.output_data := output;
              StepOutputRow.success := true;
              StepOutputRow.error_message := None |}].
Proof.
  intros Hk. unfold JobsAux.job_known in Hk.
  cbv zeta. unfold_recorder. unfold JobsRepository.references_job.
  simpl_state. rewrite Hk. simpl_state. rewrite String.eqb_refl. simpl_state.
  rewrite Hk. simpl_state.
  split; [|split; [|split; [|split]]].
  - rewrite (lookup_insert_ne _ _ _ _ (RunnerFacts.inputPath_outputPath _ _)).
    apply lookup_insert_eq.
  - apply lookup_insert_eq.
  - reflexivity.
  - reflexivity.
  - rewrite <- app_assoc. reflexivity.
Qed.

Lemma recordStepStart_then_recordStepEnd_witness :
  let s' :=
    snd (bind (Recorder.recordStepStart "job-1" "step6" AEmptyObject)
              (fun _ => Recorder.recordStepEnd "job-1" "step6" ANull)
              JobsAux.world_with_job) in
  Recorder.loadStepInput s' "job-1" "step6" = Some (FJson AEmptyObject)
  /\ Recorder.loadStepOutput s' "job-1" "step6" = Some (FJson ANull).
Proof.
  pose proof (recordStepStart_then_recordStepEnd "job-1" "step6" AEmptyObject
                ANull JobsAux.world_with_job eq_refl) as (H1 & H2 & _).
  split; [exact H1|exact H2].
Defined.

(** X16.  [recordStepEnd] and [recordStepError] do nothing at all when no step
    is in progress, or when the step in progress has another name: the
    world stays as it is. *)
Theorem recorder_ignores_unmatched_step jobId stepName output message s :
  match State.currentStep s with
  | Some cur => StepRecording.stepName cur <> stepName
  | None => True
  end ->
  Recorder.recordStepEnd jobId stepName output s = (Returned tt, s)
  /\ Recorder.recordStepError jobId stepName message s = (Returned tt, s).
Proof.
  intros H. unfold_recorder.
  destruct (State.currentStep s) as [cur|]; [|split; reflexivity].
  destruct (String.eqb_spec (StepRecording.stepName cur) stepName);
    [contradiction|split; reflexivity].
Qed.

Lemma recorder_ignores_unmatched_step_witness :
  Recorder.recordStepEnd "job-1" "step2" ANull (Demo.world "body")
  = (Returned tt, Demo.world "body")
  /\ Recorder.recordStepError "job-1" "step2" "boom" (Demo.world "body")
     = (Returned tt, Demo.world "body").
Proof.
  apply recorder_ignores_unmatched_step. exact I.
Defined.

End RecorderLaws.

Module PipelineLaws.

Import FrameAux.

Local Open Scope eff_scope.

(** ** Rules for [preserves] *)

Lemma preserves_ret {A B} (proj : State.t -> B) (a : A) : preserves proj (ret a).
Proof. intros s. reflexivity. Qed.

Lemma preserves_throw {A B} (proj : State.t -> B) m :
  preserves proj (@throw A m).
Proof. intros s. reflexivity. Qed.

Lemma preserves_gets {A B} (proj : State.t -> B) (f : State.t -> A) :
  preserves proj (gets f).
Proof. intros s. reflexivity. Qed.

Lemma preserves_lift {A B} (proj : State.t -> B) (o : Outcome A) :
  preserves proj (lift o).
Proof. intros s. reflexivity. Qed.

Lemma preserves_modify {B} (proj : State.t -> B) (f : State.t -> State.t) :
  (forall s, proj (f s) = proj s) -> preserves proj (modify f).
Proof. intros H s. apply H. Qed.

Lemma preserves_bind {A B C} (proj : State.t -> C) (c : Eff A) (k : A -> Eff B) :
  preserves proj c -> (forall a, preserves proj (k a)) ->
  preserves proj (bind c k).
Proof.
  intros Hc Hk s. unfold bind. specialize (Hc s).
  destruct (c s) as [[a|m] s1]; cbn [snd] in *; [|exact Hc].
  rewrite (Hk a s1). exact Hc.
Qed.

Lemma preserves_try_catch {A C} (proj : State.t -> C) (c : Eff A)
    (h : string -> Eff A) :
  preserves proj c -> (forall m, preserves proj (h m)) ->
  preserves proj (try_catch c h).
Proof.
  intros Hc Hh s. unfold try_catch. specialize (Hc s).
  destruct (c s) as [[a|m] s1]; cbn [snd] in *; [exact Hc|].
  rewrite (Hh m s1). exact Hc.
Qed.

Lemma preserves_storeStepOutput {B} (proj : State.t -> B) j n i o b m :
  (forall s v, proj (State.set_step_outputs v s) = proj s) ->
  preserves proj (JobsRepository.storeStepOutput j n i o b m).
Proof.
  intros H s. unfold JobsRepository.storeStepOutput.
  destruct (JobsRepository.references_job s j); [apply H|reflexivity].
Qed.

(** One step of a proof that a computation built from the operations on
    the job-tracking tables and the debug directory preserves [store]. *)
Ltac frame_step :=
  match goal with
  | |- preserves _ (bind _ _) => apply preserves_bind; [|intros ?]
  | |- preserves _ (try_catch _ _) => apply preserves_try_catch; [|intros ?]
  | |- preserves _ (ret _) => apply preserves_ret
  | |- preserves _ (throw _) => apply preserves_throw
  | |- preserves _ (gets _) => apply preserves_gets
  | |- preserves _ (lift _) => apply preserves_lift
  | |- preserves _ (modify _) => apply preserves_modify; intros ?; reflexivity
  | |- preserves _ (JobsRepository.storeStepOutput _ _ _ _ _ _) =>
      apply preserves_storeStepOutput; intros ? ?; reflexivity
  | |- preserves _ (match ?x with _ => _ end) => destruct x
  end.

Ltac frame_tac :=
  unfold Recorder.createStepRecorder, Recorder.recordStepStart,
    Recorder.recordStepEnd, Recorder.recordStepError, Recorder.finalize,
    Recorder.push_step, Recorder.writeFileSync,
    JobsRepository.create, JobsRepository.updateStatus,
    JobsRepository.updateCurrentStep, JobsRepository.updateStats,
    JobsRepository.update_where,
    DirectoriesRepository.findById, Runner.returnResult;
  repeat frame_step.

Lemma preserves_runStepWithTracking {T} context stepName (stepFn : Eff T) enc :
  preserves store stepFn ->
  preserves store (Runner.runStepWithTracking context stepName stepFn enc).
Proof.
  intros H. unfold Runner.runStepWithTracking.
  apply preserves_bind; [frame_tac|intros _].
  apply preserves_try_catch; [|intros m; frame_tac].
  apply preserves_bind; [frame_tac|intros _].
  apply preserves_bind; [exact H|intros result]. frame_tac.
Qed.

Section WithStages.

Variable url_hostname : string -> option string.
Variable runStep4 : Step4Input.t -> Outcome Step4Output.t.
Variable runStep5 : Step5Input.t -> Outcome Step5Output.t.

Lemma stops_before_step7_stopAfter context :
  stops_before_step7 (Runner.options context)
  = Runner.stopAfter context "step1" || Runner.stopAfter context "step2"
    || Runner.stopAfter context "step3" || Runner.stopAfter context "step4"
    || Runner.stopAfter context "step5" || Runner.stopAfter context "step6".
Proof.
  unfold stops_before_step7, Runner.stopAfter.
  destruct (PipelineOptions.stopAfterStep (Runner.options context));
    reflexivity.
Qed.

Lemma preserves_pipeline_back now context o5 :
  Runner.isDryRun context || Runner.stopAfter context "step6" = true ->
  preserves store (Runner.pipeline_back url_hostname now context o5).
Proof.
  intros H. unfold Runner.pipeline_back. cbv zeta.
  apply preserves_bind;
    [apply preserves_runStepWithTracking; frame_tac|intros o6].
  destruct (Runner.stopAfter context "step6"); [frame_tac|].
  rewrite orb_false_r in H. rewrite H. cbn [negb andb].
  apply preserves_bind; [frame_tac|intros o7].
  destruct (Runner.stopAfter context "step7"); [frame_tac|].
  rewrite andb_false_r. frame_tac.
Qed.

Lemma preserves_pipeline_body now context :
  Runner.isDryRun context || stops_before_step7 (Runner.options context)
  = true ->
  preserves store
    (Runner.pipeline_body url_hostname runStep4 runStep5 now context).
Proof.
  rewrite stops_before_step7_stopAfter. intros H.
  unfold Runner.pipeline_body. cbv zeta.
  apply preserves_bind;
    [apply preserves_runStepWithTracking; frame_tac|intros o1].
  destruct (Runner.stopAfter context "step1"); [frame_tac|].
  apply preserves_bind;
    [apply preserves_runStepWithTracking; frame_tac|intros o2].
  destruct (Runner.stopAfter context "step2"); [frame_tac|].
  apply preserves_bind;
    [apply preserves_runStepWithTracking; frame_tac|intros o3].
  destruct (Runner.stopAfter context "step3"); [frame_tac|].
  apply preserves_bind;
    [apply preserves_runStepWithTracking; frame_tac|intros o4].
  destruct (Runner.stopAfter context "step4"); [frame_tac|].
  apply preserves_bind;
    [apply preserves_runStepWithTracking; frame_tac|intros o5].
  apply preserves_bind; [frame_tac|intros _].
  destruct (Runner.stopAfter context "step5"); [frame_tac|].
  cbn [orb] in H. apply preserves_pipeline_back. exact H.
Qed.

(** X17.  A dry run, and a run that is told to stop after one of the stages 1 to
    6, leaves the data tables as they are (researchers, enrichment queue,
    directories and the identity counters), whatever the stages return
    or throw.  Only job-tracking rows and debug files are written. *)
Theorem runPipeline_dry_run_leaves_store jobId repoJobId now directoryId
    options s :
  dry_run options || stops_before_step7 options = true ->
  store (snd (Runner.runPipeline url_hostname runStep4 runStep5
                jobId repoJobId now directoryId options s))
  = store s.
Proof.
  intros H. revert s. change (preserves store
    (Runner.runPipeline url_hostname runStep4 runStep5
       jobId repoJobId now directoryId options)).
  unfold Runner.runPipeline.
  apply preserves_bind; [frame_tac|intros found].
  destruct found as [directory|]; [|frame_tac].
  do 4 (apply preserves_bind; [frame_tac|intros _]).
  apply preserves_try_catch; [|intros m; frame_tac].
  apply preserves_pipeline_body. exact H.
Qed.

End WithStages.

Lemma runPipeline_dry_run_leaves_store_witness :
  store
    (snd (Runner.runPipeline Demo.url_hostname Demo.extract Demo.normalize
            "job-1" "job-1-row" Demo.now 1
            {| PipelineOptions.mode := Full;
               PipelineOptions.debug := None;
               PipelineOptions.stopAfterStep := None;
               PipelineOptions.dryRun := Some true |}
            (Demo.world "body")))
  = store (Demo.world "body").
Proof.
  apply runPipeline_dry_run_leaves_store. reflexivity.
Defined.

(** ** What every result looks like *)

Lemma yields_ret {A} (a : A) (P : A -> Prop) : P a -> yields (ret a) P.
Proof. intros H s. exact H. Qed.





Section Results.

Variable url_hostname : string -> option string.
Variable runStep4 : Step4Input.t -> Outcome Step4Output.t.
Variable runStep5 : Step5Input.t -> Outcome Step5Output.t.



End Results.

(** ** What the tracking wrapper records *)

Lemma outputPath_errorPath j n : Recorder.errorPath j n <> Recorder.outputPath j n.
Proof.
  unfold Recorder.outputPath, Recorder.errorPath. intros H.
  do 3 apply RunnerFacts.append_inj_r in H. discriminate H.
Qed.

Lemma bind_eval {A B} (c : Eff A) (k : A -> Eff B) s :
  bind c k s
  = match c s with
    | (Returned a, s1) => k a s1
    | (Thrown m, s1) => (Thrown m, s1)
    end.
Proof. reflexivity. Qed.

Lemma try_catch_eval {A} (c : Eff A) (h : string -> Eff A) s :
  try_catch c h s
  = match c s with
    | (Returned a, s1) => (Returned a, s1)
    | (Thrown m, s1) => h m s1
    end.
Proof. reflexivity. Qed.

Lemma recordStepEnd_returns j n o s :
  JobsRepository.references_job s j = true ->
  Recorder.recordStepEnd j n o s
  = (Returned tt, snd (Recorder.recordStepEnd j n o s)).
Proof.
  intros Hk. RecorderLaws.unfold_recorder.
  destruct (State.currentStep s) as [cur|]; [|reflexivity].
  destruct (String.eqb _ _); [|reflexivity].
  unfold JobsRepository.references_job in *. RecorderLaws.simpl_state.
  rewrite Hk. reflexivity.
Qed.

Lemma recordStepError_returns j n m s :
  JobsRepository.references_job s j = true ->
  Recorder.recordStepError j n m s
  = (Returned tt, snd (Recorder.recordStepError j n m s)).
Proof.
  intros Hk. RecorderLaws.unfold_recorder.
  destruct (State.currentStep s) as [cur|]; [|reflexivity].
  destruct (String.eqb _ _); [|reflexivity].
  unfold JobsRepository.references_job in *. RecorderLaws.simpl_state.
  rewrite Hk. reflexivity.
Qed.

(** The world in which the stage of a job that has its row runs: the
    step is in progress, its input file and its first row are written. *)
Lemma started_known j n s :
  JobsRepository.references_job s j = true ->
  let s0 := snd (JobsRepository.updateCurrentStep j n s) in
  Recorder.recordStepStart j n AEmptyObject s0 = (Returned tt, started j n s)
  /\ State.files (started j n s)
     = <[Recorder.inputPath j n := FJson AEmptyObject]> (State.files s)
  /\ State.recording (started j n s) = State.recording s
  /\ State.currentStep (started j n s)
     = Some {| StepRecording.stepName := n;
               StepRecording.input := AEmptyObject;
               StepRecording.output := None;
               StepRecording.error := None;
               StepRecording.success := false |}
  /\ JobsRepository.references_job (started j n s) j = true.
Proof.
  intros Hk. cbv zeta.
  assert (Hk0 : JobsRepository.references_job
                  (snd (JobsRepository.updateCurrentStep j n s)) j = true).
  { unfold JobsRepository.updateCurrentStep. rewrite <- Hk.
    apply (RunnerFacts.tracked_update_where j j). reflexivity. }
  unfold started. rewrite bind_eval.
  change (JobsRepository.updateCurrentStep j n s)
    with (Returned tt, snd (JobsRepository.updateCurrentStep j n s)).
  cbv beta iota.
  set (s0 := snd (JobsRepository.updateCurrentStep j n s)) in *.
  unfold Recorder.recordStepStart, Recorder.writeFileSync,
    JobsRepository.storeStepOutput, bind, modify.
  unfold JobsRepository.references_job in *. RecorderLaws.simpl_state.
  rewrite Hk0. RecorderLaws.simpl_state.
  split; [reflexivity|]. split; [reflexivity|]. split; [reflexivity|].
  split; [reflexivity|exact Hk0].
Qed.

(** The wrapper as a function of the stage's outcome, for a job that has
    its row and keeps it. *)
Lemma runStepWithTracking_outcome {T} context stepName (stepFn : Eff T)
    (enc : T -> Artifact) s :
  JobsAux.job_known s (Runner.jobId context) = true ->
  preserves (fun s => JobsAux.job_known s (Runner.jobId context)) stepFn ->
  Runner.runStepWithTracking context stepName stepFn enc s
  = match stepFn (started (Runner.jobId context) stepName s) with
    | (Returned a, s1) =>
        (Returned a,
         snd (Recorder.recordStepEnd (Runner.jobId context) stepName (enc a) s1))
    | (Thrown m, s1) =>
        (Thrown m,
         snd (Recorder.recordStepError (Runner.jobId context) stepName m s1))
    end.
Proof.
  set (j := Runner.jobId context). intros Hk Hkeep.
  destruct (started_known j stepName s Hk) as (Hstart & _ & _ & _ & Hk0).
  specialize (Hkeep (started j stepName s)).
  unfold JobsAux.job_known in Hkeep. fold (JobsRepository.references_job
    (snd (stepFn (started j stepName s))) j) in Hkeep.
  fold (JobsRepository.references_job (started j stepName s) j) in Hkeep.
  rewrite Hk0 in Hkeep.
  unfold Runner.runStepWithTracking. fold j.
  rewrite bind_eval.
  change (JobsRepository.updateCurrentStep j stepName s)
    with (Returned tt, snd (JobsRepository.updateCurrentStep j stepName s)).
  cbv beta iota. rewrite try_catch_eval, bind_eval. rewrite Hstart.
  rewrite bind_eval.
  destruct (stepFn (started j stepName s)) as [[a|m] s1]; cbn [snd] in Hkeep.
  - rewrite bind_eval, (recordStepEnd_returns _ _ _ _ Hkeep). reflexivity.
  - rewrite bind_eval, (recordStepError_returns _ _ _ _ Hkeep). reflexivity.
Qed.

(** X19.  For a job that has its row in [scrape_jobs], a stage that leaves the
    recorder and that row alone is recorded by [runStepWithTracking] as
    follows.  The wrapper hands on what the stage
    returns or throws, run in the world [started]; the stage's input file
    holds the empty object; no step stays in progress; and the recording
    gets one step.  When the stage returns, its output file holds the
    result; when it throws, its error file holds the message with the empty
    object as input, and the output file is not written. *)
Theorem runStepWithTracking_records_stage {T} context stepName
    (stepFn : Eff T) (enc : T -> Artifact) s :
  JobsAux.job_known s (Runner.jobId context) = true ->
  preserves (fun s => JobsAux.job_known s (Runner.jobId context)) stepFn ->
  preserves debug_state stepFn ->
  let j := Runner.jobId context in
  let tracked := Runner.runStepWithTracking context stepName stepFn enc s in
  fst tracked = fst (stepFn (started j stepName s))
  /\ Recorder.loadStepInput (snd tracked) j stepName = Some (FJson AEmptyObject)
  /\ State.currentStep (snd tracked) = None
  /\ match fst tracked with
     | Returned a =>
         Recorder.loadStepOutput (snd tracked) j stepName
         = Some (FJson (enc a))
         /\ JobRecording.steps (State.recording (snd tracked))
            = JobRecording.steps (State.recording s)
              ++ [{| StepRecording.stepName := stepName;
                     StepRecording.input := AEmptyObject;
                     StepRecording.output := Some (enc a);
                     StepRecording.error := None;
                     StepRecording.success := true |}]
     | Thrown m =>
         State.files (snd tracked) !! Recorder.errorPath j stepName
         = Some (FJson (AErrorReport m AEmptyObject))
         /\ Recorder.loadStepOutput (snd tracked) j stepName
            = Recorder.loadStepOutput s j stepName
         /\ JobRecording.steps (State.recording (snd tracked))
            = JobRecording.steps (State.recording s)
              ++ [{| StepRecording.stepName := stepName;
                     StepRecording.input := AEmptyObject;
                     StepRecording.output := None;
                     StepRecording.error := Some m;
                     StepRecording.success := false |}]
     end.
Proof.
  intros Hk Hkeep Hblind. cbv zeta.
  rewrite (runStepWithTracking_outcome _ _ _ _ _ Hk Hkeep).
  set (j := Runner.jobId context) in *.
  destruct (started_known j stepName s Hk) as (_ & Hf0 & Hr0 & Hc0 & Hk0).
  specialize (Hblind (started j stepName s)).
  specialize (Hkeep (started j stepName s)).
  unfold JobsAux.job_known in Hkeep. unfold JobsRepository.references_job in Hk0.
  rewrite Hk0 in Hkeep.
  unfold debug_state in Hblind.
  destruct (stepFn (started j stepName s)) as [[a|m] s1]; cbn [snd fst] in *;
    injection Hblind as Hfiles Hrec Hcur _;
    rewrite Hf0 in Hfiles; rewrite Hr0 in Hrec; rewrite Hc0 in Hcur;
    (split; [reflexivity|]);
    RecorderLaws.unfold_recorder; unfold JobsRepository.references_job;
    rewrite Hcur;
    RecorderLaws.simpl_state; rewrite String.eqb_refl;
    RecorderLaws.simpl_state; rewrite Hkeep;
    RecorderLaws.simpl_state; rewrite Hfiles, Hrec.
  - split; [|split; [reflexivity|split; [apply lookup_insert_eq|reflexivity]]].
    rewrite (lookup_insert_ne _ _ _ _ (RunnerFacts.inputPath_outputPath _ _)).
    apply lookup_insert_eq.
  - split; [|split; [reflexivity|split; [apply lookup_insert_eq|split]]].
    + rewrite (lookup_insert_ne _ _ _ _ (RunnerFacts.inputPath_errorPath _ _)).
      apply lookup_insert_eq.
    + rewrite (lookup_insert_ne _ _ _ _ (outputPath_errorPath _ _)).
      apply lookup_insert_ne, not_eq_sym, RunnerFacts.inputPath_outputPath.
    + reflexivity.
Qed.

Lemma runStepWithTracking_records_stage_witness :
  Recorder.loadStepOutput
    (snd (Runner.runStepWithTracking
            (Runner.mkContext "job-1" 1 (Demo.directory "body")
                              (Demo.options Full))
            "step2" (ret 7) (fun _ => ANull) JobsAux.world_with_job))
    "job-1" "step2"
  = Some (FJson ANull).
Proof.
  pose proof (runStepWithTracking_records_stage
                (Runner.mkContext "job-1" 1 (Demo.directory "body")
                                  (Demo.options Full))
                "step2" (ret 7) (fun _ => ANull) JobsAux.world_with_job
                eq_refl (fun s => eq_refl) (fun s => eq_refl))
    as (_ & _ & _ & H).
  apply H.
Defined.

End PipelineLaws.

(* ===================================================================== *)
(** * Further properties of the enrichment merge *)
(* ===================================================================== *)

Module MergeLaws.

Import MergeSpec MergeAux.

(** ** [Array.from(new Set(...))] *)

Lemma dedupe_from_In seen l a :
  In a (JS.dedupe_from seen l) <-> In a l /\ ~ In a seen.
Proof.
  revert seen. induction l as [|x l IH]; intros seen; cbn [JS.dedupe_from In].
  - tauto.
  - destruct (existsb (String.eqb x) seen) eqn:E.
    + apply DedupFacts.existsb_eqb_In in E. rewrite IH.
      split; [tauto|]. intros [[<-|H] Hn]; [contradiction|tauto].
    + assert (Hx : ~ In x seen).
      { intros H. apply DedupFacts.existsb_eqb_In in H. congruence. }
      cbn [In]. rewrite IH. cbn [In].
      destruct (String.eqb_spec x a) as [->|Hne]; [tauto|].
      split; [tauto|]. intros [[H|H] Hn]; [contradiction|]. right. tauto.
Qed.

Lemma dedupe_from_NoDup seen l : List.NoDup (JS.dedupe_from seen l).
Proof.
  revert seen. induction l as [|x l IH]; intros seen; cbn [JS.dedupe_from].
  - constructor.
  - destruct (existsb (String.eqb x) seen); [apply IH|].
    constructor; [|apply IH].
    rewrite dedupe_from_In. cbn [In]. tauto.
Qed.

Lemma dedupe_from_ext seen seen' l :
  (forall a, In a seen <-> In a seen') ->
  JS.dedupe_from seen l = JS.dedupe_from seen' l.
Proof.
  revert seen seen'. induction l as [|x l IH]; intros seen seen' H;
    cbn [JS.dedupe_from]; [reflexivity|].
  assert (E : existsb (String.eqb x) seen = existsb (String.eqb x) seen').
  { destruct (existsb (String.eqb x) seen) eqn:E1;
      destruct (existsb (String.eqb x) seen') eqn:E2; try reflexivity.
    - apply DedupFacts.existsb_eqb_In, H, DedupFacts.existsb_eqb_In in E1.
      congruence.
    - apply DedupFacts.existsb_eqb_In, H, DedupFacts.existsb_eqb_In in E2.
      congruence. }
  rewrite E. destruct (existsb (String.eqb x) seen').
  - apply IH, H.
  - f_equal. apply IH. intros a. cbn [In]. rewrite H. tauto.
Qed.

Lemma dedupe_from_app seen l1 l2 :
  JS.dedupe_from seen (l1 ++ l2)
  = JS.dedupe_from seen l1 ++ JS.dedupe_from (l1 ++ seen) l2.
Proof.
  revert seen. induction l1 as [|x l1 IH]; intros seen;
    cbn [JS.dedupe_from app]; [reflexivity|].
  destruct (existsb (String.eqb x) seen) eqn:E.
  - rewrite IH. f_equal. apply dedupe_from_ext. intros a.
    rewrite !in_app_iff. cbn [In]. rewrite in_app_iff.
    apply DedupFacts.existsb_eqb_In in E.
    split; [tauto|]. intros [<-|H]; tauto.
  - cbn [app]. f_equal. rewrite IH. f_equal. apply dedupe_from_ext. intros a.
    rewrite !in_app_iff. cbn [In]. rewrite in_app_iff. tauto.
Qed.

Lemma dedupe_from_seen seen l :
  (forall a, In a l -> In a seen) -> JS.dedupe_from seen l = [].
Proof.
  induction l as [|x l IH]; intros H; cbn [JS.dedupe_from]; [reflexivity|].
  assert (E : existsb (String.eqb x) seen = true).
  { apply DedupFacts.existsb_eqb_In, H. now left. }
  rewrite E. apply IH. intros a Ha. apply H. now right.
Qed.

Lemma dedupe_from_fixed l :
  forall seen,
    List.NoDup l -> (forall a, In a l -> ~ In a seen) ->
    JS.dedupe_from seen l = l.
Proof.
  induction l as [|x l IH]; intros seen Hnd Hfresh; cbn [JS.dedupe_from];
    [reflexivity|].
  inversion Hnd as [|? ? Hx Hl]; subst.
  assert (E : existsb (String.eqb x) seen = false).
  { destruct (existsb (String.eqb x) seen) eqn:E; [|reflexivity].
    apply DedupFacts.existsb_eqb_In in E. contradiction (Hfresh x); now left. }
  rewrite E. f_equal. apply IH; [exact Hl|].
  intros a Ha [<-|H]; [contradiction|]. apply (Hfresh a); [now right|exact H].
Qed.

(** Merging a list into the result of merging it changes nothing. *)
Lemma set_to_array_absorbs ex new :
  JS.set_to_array (JS.set_to_array (ex ++ new) ++ new)
  = JS.set_to_array (ex ++ new).
Proof.
  unfold JS.set_to_array. rewrite (dedupe_from_app [] (JS.dedupe_from [] _) new).
  rewrite (dedupe_from_seen _ new).
  - rewrite app_nil_r. apply dedupe_from_fixed; [apply dedupe_from_NoDup|].
    intros a _ [].
  - intros a Ha. rewrite app_nil_r. apply dedupe_from_In.
    rewrite in_app_iff. cbn [In]. tauto.
Qed.

Lemma set_to_array_eq l : JS.set_to_array l = JS.dedupe_from [] l.
Proof. reflexivity. Qed.

(** ** The tag set *)

Local Opaque JS.add JS.min JS.lit JS.of_Z JS.set_to_array.

Lemma merge_research_areas now existing enriched :
  let out := Merge.mergeEnrichmentData now (StepE3Input.mk existing enriched) in
  let ex := DedupSpec.areas (Researcher.research_areas existing) in
  PartialResearcher.research_areas (StepE3Output.merged out)
  = match EnrichedData.research_areas enriched with
    | Some new =>
        if 0 <? Z.of_nat (length new)
        then Some (JS.set_to_array (ex ++ new)) else None
    | None => None
    end
  /\ conflicts_for "research_areas" out
     = match EnrichedData.research_areas enriched with
       | Some new =>
           if (0 <? Z.of_nat (length new)) && (0 <? Z.of_nat (length ex))
           then [areas_conflict ex new] else []
       | None => []
       end.
Proof.
  cbv zeta. unfold DedupSpec.areas, areas_conflict.
  MergeFacts.merge_cases existing enriched; split; reflexivity.
Qed.

Lemma length_positive {A} (l : list A) :
  l <> [] -> (0 <? Z.of_nat (length l)) = true.
Proof. destruct l; [congruence|reflexivity]. Qed.

(** X20.  When the bundle brings a non-empty tag list, the partial update
    carries the union of the stored and the new tags: without duplicates,
    the stored tags first (in their order), then the tags that are new.
    One conflict with resolution [merge] is logged exactly when the record
    already had tags, also when the bundle brings nothing new. *)
Theorem merge_research_areas_is_union now existing enriched new :
  EnrichedData.research_areas enriched = Some new -> new <> [] ->
  let out := Merge.mergeEnrichmentData now (StepE3Input.mk existing enriched) in
  let ex := DedupSpec.areas (Researcher.research_areas existing) in
  exists merged_areas,
    PartialResearcher.research_areas (StepE3Output.merged out)
    = Some merged_areas
    /\ List.NoDup merged_areas
    /\ (forall a, In a merged_areas <-> In a ex \/ In a new)
    /\ merged_areas = JS.set_to_array ex ++ JS.dedupe_from ex new
    /\ conflicts_for "research_areas" out
       = match ex with
         | [] => []
         | _ :: _ => [areas_conflict ex new]
         end.
Proof.
  intros Hnew Hne. cbv zeta.
  destruct (merge_research_areas now existing enriched) as [Ha Hc].
  cbv zeta in Ha, Hc. rewrite Hnew, (length_positive new Hne) in Ha, Hc.
  set (ex := DedupSpec.areas (Researcher.research_areas existing)) in *.
  exists (JS.set_to_array (ex ++ new)). split; [exact Ha|].
  rewrite set_to_array_eq. unfold JS.set_to_array at 1. split; [apply dedupe_from_NoDup|]. split; [|split].
  - intros a. rewrite dedupe_from_In, in_app_iff. cbn [In]. tauto.
  - rewrite dedupe_from_app, app_nil_r. reflexivity.
  - rewrite Hc. destruct ex; reflexivity.
Qed.

Lemma merge_research_areas_is_union_witness :
  PartialResearcher.research_areas
    (StepE3Output.merged
       (Merge.mergeEnrichmentData Demo.now
          (StepE3Input.mk
             (Repo.rowToResearcher Demo.jane_row)
             {| EnrichedData.publications := None;
                EnrichedData.h_index := None;
                EnrichedData.citations_total := None;
                EnrichedData.research_areas := Some ["AI"; "ML"; "AI"];
                EnrichedData.bio := None;
                EnrichedData.google_scholar_url := None;
                EnrichedData.dblp_url := None;
                EnrichedData.semantic_scholar_id := None;
                EnrichedData.orcid := None |})))
  = Some ["AI"; "ML"].
Proof.
  destruct (merge_research_areas_is_union Demo.now
              (Repo.rowToResearcher Demo.jane_row)
              {| EnrichedData.publications := None;
                 EnrichedData.h_index := None;
                 EnrichedData.citations_total := None;
                 EnrichedData.research_areas := Some ["AI"; "ML"; "AI"];
                 EnrichedData.bio := None;
                 EnrichedData.google_scholar_url := None;
                 EnrichedData.dblp_url := None;
                 EnrichedData.semantic_scholar_id := None;
                 EnrichedData.orcid := None |}
              ["AI"; "ML"; "AI"] eq_refl ltac:(discriminate))
    as (l & Hl & _ & _ & Heq & _).
  rewrite Hl, Heq. reflexivity.
Defined.

(** ** Merge, then update *)

Lemma merge_status now existing enriched :
  let merged := StepE3Output.merged
                  (Merge.mergeEnrichmentData now
                     (StepE3Input.mk existing enriched)) in
  PartialResearcher.enrichment_status merged = Some Complete
  /\ PartialResearcher.last_verified merged = Some now.
Proof.
  cbv zeta. MergeFacts.name_blocks. split; reflexivity.
Qed.

Lemma set_str_replace_by new old :
  ResearchersRepository.set_str new old = replace_by new old.
Proof. reflexivity. Qed.

(** [enrich] column by column. *)
Lemma enrich_enriched_row now enriched row :
  enrich now enriched row = enriched_row now enriched row.
Proof.
  unfold enrich, enriched_row.
  set (existing := Repo.rowToResearcher row).
  set (out := Merge.mergeEnrichmentData now (StepE3Input.mk existing enriched)).
  destruct (MergeFacts.merge_h_index now existing enriched) as [Hh _].
  destruct (MergeFacts.merge_citations_total now existing enriched
              (ResearcherRow.citations_total row) eq_refl) as [Hc _].
  destruct (merge_research_areas now existing enriched) as [Ha _].
  destruct (merge_status now existing enriched) as [Hs Hv].
  pose proof (MergeFacts.merge_adopted now existing enriched Bio) as Hbio.
  pose proof (MergeFacts.merge_adopted now existing enriched GoogleScholarUrl)
    as Hgs.
  pose proof (MergeFacts.merge_adopted now existing enriched DblpUrl) as Hdblp.
  pose proof (MergeFacts.merge_adopted now existing enriched SemanticScholarId)
    as Hss.
  pose proof (MergeFacts.merge_adopted now existing enriched Orcid) as Horcid.
  cbv zeta in Hh, Hc, Ha, Hs, Hv. fold out in Hh, Hc, Ha, Hs, Hv.
  fold out in Hbio, Hgs, Hdblp, Hss, Horcid.
  cbn [adopted proposed current] in Hbio, Hgs, Hdblp, Hss, Horcid.
  unfold ResearchersRepository.apply_update, PersistEnriched.updateData.
  cbn [PartialResearcher.title PartialResearcher.email PartialResearcher.phone
       PartialResearcher.office PartialResearcher.website
       PartialResearcher.photo_url PartialResearcher.google_scholar_url
       PartialResearcher.dblp_url PartialResearcher.semantic_scholar_id
       PartialResearcher.orcid PartialResearcher.h_index
       PartialResearcher.citations_total PartialResearcher.research_areas
       PartialResearcher.bio PartialResearcher.enrichment_status
       PartialResearcher.last_verified option_map
       ResearchersRepository.set_str].
  rewrite Hh, Hc, Ha, Hs, Hv, Hbio, Hgs, Hdblp, Hss, Horcid.
  subst existing.
  cbn [Repo.rowToResearcher Researcher.h_index Researcher.bio
       Researcher.google_scholar_url Researcher.dblp_url
       Researcher.semantic_scholar_id Researcher.orcid
       Researcher.research_areas].
  unfold new_areas, Merge.adopt_if_missing, replace_by, resolved,
    ResearchersRepository.set_num.
  f_equal.
  destruct (EnrichedData.research_areas enriched) as [new|]; [|reflexivity].
  destruct (0 <? Z.of_nat (length new)); reflexivity.
Qed.

Lemma adopt_twice new old :
  let once := replace_by (Merge.adopt_if_missing new (JS.or_undefined old)) old in
  replace_by (Merge.adopt_if_missing new (JS.or_undefined once)) once = once.
Proof.
  cbv zeta. unfold replace_by, Merge.adopt_if_missing, JS.or_undefined.
  destruct new as [n|], old as [o|]; cbn [JS.truthy negb andb];
    repeat match goal with
           | |- context [String.eqb ?a ""] =>
               destruct (String.eqb a "") eqn:?; cbn [JS.truthy negb andb]
           end;
    try reflexivity; try congruence.
Qed.

Lemma h_index_twice h0 new :
  let once := replace_by (metric_update (Repo.num_or_undefined h0) new) h0 in
  replace_by (metric_update (Repo.num_or_undefined once) new) once = once.
Proof.
  cbv zeta. unfold replace_by, metric_update, Repo.num_or_undefined.
  destruct new as [n|], h0 as [o|];
    repeat match goal with
           | |- context [?a =? ?b] => destruct (Z.eqb_spec a b)
           | |- context [?a <? ?b] => destruct (Z.ltb_spec a b)
           end;
    try reflexivity; try lia.
Qed.

Lemma citations_twice c0 new :
  let once := resolved c0 (metric_update (Some c0) new) in
  resolved once (metric_update (Some once) new) = once.
Proof.
  cbv zeta. unfold resolved, metric_update.
  destruct new as [n|];
    repeat match goal with
           | |- context [?a <? ?b] => destruct (Z.ltb_spec a b)
           end;
    try reflexivity; try lia.
Qed.

Lemma areas_twice enriched a0 :
  let once :=
    match new_areas enriched with
    | Some new => Some (JS.set_to_array (DedupSpec.areas a0 ++ new))
    | None => a0
    end in
  match new_areas enriched with
  | Some new => Some (JS.set_to_array (DedupSpec.areas once ++ new))
  | None => once
  end = once.
Proof.
  cbv zeta. destruct (new_areas enriched) as [new|]; [|reflexivity].
  cbn [DedupSpec.areas]. rewrite set_to_array_absorbs. reflexivity.
Qed.

Lemma adopt_column new old :
  replace_by (Merge.adopt_if_missing new (JS.or_undefined old)) old
  = if JS.truthy old then old else if JS.truthy new then new else old.
Proof.
  unfold replace_by, Merge.adopt_if_missing, JS.or_undefined.
  destruct new as [n|], old as [o|]; cbn [JS.truthy negb andb];
    repeat match goal with
           | |- context [String.eqb ?a ""] =>
               destruct (String.eqb a "") eqn:?; cbn [JS.truthy negb andb]
           end;
    try reflexivity; try congruence.
Qed.

(** X21.  Enriching a stored row twice with the same bundle is enriching it
    once: the second merge and update change nothing but the two time
    stamps [last_verified] and [updated_at]. *)
Theorem enrichment_is_idempotent now now' enriched row :
  enrich now' enriched (enrich now enriched row)
  = touch now' (enrich now enriched row).
Proof.
  rewrite (enrich_enriched_row now' enriched (enrich now enriched row)).
  rewrite (enrich_enriched_row now enriched row).
  unfold touch. unfold enriched_row at 1. cbv zeta.
  unfold enriched_row.
  cbn [ResearcherRow.id ResearcherRow.first_name ResearcherRow.last_name
       ResearcherRow.full_name ResearcherRow.university
       ResearcherRow.department ResearcherRow.title ResearcherRow.email
       ResearcherRow.phone ResearcherRow.office ResearcherRow.website
       ResearcherRow.photo_url ResearcherRow.google_scholar_url
       ResearcherRow.dblp_url ResearcherRow.semantic_scholar_id
       ResearcherRow.orcid ResearcherRow.h_index ResearcherRow.citations_total
       ResearcherRow.publications_count ResearcherRow.research_areas
       ResearcherRow.bio ResearcherRow.source_directory_id
       ResearcherRow.enrichment_status ResearcherRow.enrichment_error
       ResearcherRow.last_verified ResearcherRow.created_at
       ResearcherRow.updated_at].
  f_equal.
  - apply adopt_twice.
  - apply adopt_twice.
  - apply adopt_twice.
  - apply adopt_twice.
  - apply h_index_twice.
  - apply citations_twice.
  - apply areas_twice.
  - apply adopt_twice.
Qed.

(** X22.  One enrichment never loses what the row holds: a populated
    descriptive column keeps its value and an empty one takes the bundle's
    non-empty value; the citation count becomes the larger of the stored
    and the new value; a stored non-zero h-index becomes the larger of
    itself and the new value; every stored tag stays; the status becomes
    [complete]; and the identity, name and contact columns are not
    touched. *)
Theorem enrichment_never_loses_data now enriched row :
  let row' := enrich now enriched row in
  (forall f,
     column f row'
     = if JS.truthy (column f row) then column f row
       else if JS.truthy (proposed f enriched) then proposed f enriched
       else column f row)
  /\ ResearcherRow.citations_total row'
     = match EnrichedData.citations_total enriched with
       | Some new => Z.max (ResearcherRow.citations_total row) new
       | None => ResearcherRow.citations_total row
       end
  /\ (forall old, ResearcherRow.h_index row = Some old -> old <> 0 ->
        ResearcherRow.h_index row'
        = match EnrichedData.h_index enriched with
          | Some new => Some (Z.max old new)
          | None => Some old
          end)
  /\ (forall a, In a (DedupSpec.areas (ResearcherRow.research_areas row)) ->
        In a (DedupSpec.areas (ResearcherRow.research_areas row')))
  /\ ResearcherRow.enrichment_status row' = Complete
  /\ ResearcherRow.id row' = ResearcherRow.id row
  /\ ResearcherRow.full_name row' = ResearcherRow.full_name row
  /\ ResearcherRow.email row' = ResearcherRow.email row
  /\ ResearcherRow.title row' = ResearcherRow.title row.
Proof.
  cbv zeta. rewrite enrich_enriched_row. unfold enriched_row. cbv zeta.
  cbn [ResearcherRow.id ResearcherRow.full_name ResearcherRow.title
       ResearcherRow.email ResearcherRow.h_index ResearcherRow.citations_total
       ResearcherRow.research_areas ResearcherRow.enrichment_status].
  split; [|split; [|split; [|split]]].
  - intros f.
    destruct f; cbn [column proposed ResearcherRow.bio
                     ResearcherRow.google_scholar_url ResearcherRow.dblp_url
                     ResearcherRow.semantic_scholar_id ResearcherRow.orcid];
      apply adopt_column.
  - unfold resolved, metric_update.
    destruct (EnrichedData.citations_total enriched) as [new|]; [|reflexivity].
    destruct (Z.ltb_spec (ResearcherRow.citations_total row) new); lia.
  - intros old Hold Hnz. rewrite Hold.
    unfold replace_by, metric_update, Repo.num_or_undefined.
    destruct (Z.eqb_spec old 0); [contradiction|].
    destruct (EnrichedData.h_index enriched) as [new|]; [|reflexivity].
    destruct (Z.ltb_spec old new); f_equal; lia.
  - intros a Ha. destruct (new_areas enriched) as [new|]; [|exact Ha].
    cbn [DedupSpec.areas]. rewrite set_to_array_eq. apply dedupe_from_In.
    rewrite in_app_iff. cbn [In]. tauto.
  - repeat split.
Qed.

End MergeLaws.

(* ===================================================================== *)
(** * Properties of step 1 *)
(* ===================================================================== *)

Module LoadConfigLaws.

Import LoadConfigAux.

Lemma loadDirectoryConfig_lookup created updated input s :
  LoadConfig.loadDirectoryConfig created updated input s
  = match
      match Step1Input.from_step0 input with
      | Some step0 =>
          (match stored_directory s input with
           | Some d =>
               Some (LoadConfig.with_discovered
                       (Step0Output.selectors_discovered step0) d)
           | None =>
               if JS.truthy (Step1Input.url input)
               then Some (LoadConfig.minimal_directory created updated
                            (Step0Output.selectors_discovered step0)
                            (default "" (Step1Input.url input)))
               else None
           end, true)
      | None => (stored_directory s input, false)
      end
    with
    | (None, _) => (Thrown LoadConfig.errorMessage, s)
    | (Some directory, useStep0Html) =>
        let config :=
          LoadConfig.config_or_empty (Directory.scrape_config directory) in
        let selectors :=
          LoadConfig.selectors_or_empty (ScrapeConfig.selectors config) in
        let pick (f : Selectors.t -> option string) :=
          LoadConfig.or_else (f selectors) (f LoadConfig.defaultSelectors) in
        (Returned
           {| Step1Output.directory := directory;
              Step1Output.url := Directory.directory_url directory;
              Step1Output.scrape_method := Directory.scrape_method directory;
              Step1Output.selectors :=
                {| Selectors.card := pick Selectors.card;
                   Selectors.name := pick Selectors.name;
                   Selectors.title := pick Selectors.title;
                   Selectors.email := pick Selectors.email;
                   Selectors.phone := pick Selectors.phone;
                   Selectors.office := pick Selectors.office;
                   Selectors.website := pick Selectors.website;
                   Selectors.photo := pick Selectors.photo;
                   Selectors.research_areas := pick Selectors.research_areas |};
              Step1Output.load_more_config :=
                match ScrapeConfig.load_more_selector config with
                | Some sel =>
                    if negb (String.eqb sel "") then
                      Some {| LoadMoreConfig.selector := sel;
                              LoadMoreConfig.max_clicks := 30;
                              LoadMoreConfig.wait_between_clicks_ms :=
                                LoadConfig.or_1000
                                  (ScrapeConfig.wait_after_load_ms config) |}
                    else None
                | None => None
                end;
              Step1Output.scroll_config := ScrapeConfig.scroll_config config;
              Step1Output.use_step0_html := useStep0Html |}, s)
    end.
Proof.
  unfold LoadConfig.loadDirectoryConfig, stored_directory,
    DirectoriesRepository.findById.
  destruct (Step1Input.directory_id input) as [id|];
    [destruct (id =? 0)|];
    rewrite ?QueueLaws.bind_gets, ?QueueLaws.bind_ret;
    (destruct (Step1Input.from_step0 input) as [step0|];
     [destruct (Step1Input.url input) as [url|];
      [destruct (String.eqb url "") eqn:Eu|]|]);
    cbn [JS.truthy negb default]; rewrite ?Eu; cbn [negb];
    repeat match goal with
           | |- context [List.find ?f ?l] => destruct (List.find f l)
           end;
    reflexivity.
Qed.

(** X23.  [loadDirectoryConfig] reads the store and never writes it.  It throws,
    with the message of [errorMessage], exactly when no configuration can
    be built: the directory is not stored (or its identity is 0 or
    absent) and there is no Step 0 analysis with a non-empty URL; a URL
    alone is not enough.  When it returns, [use_step0_html] tells whether
    a Step 0 analysis was given. *)
Theorem loadDirectoryConfig_throws_iff_unresolvable created updated input s :
  match LoadConfig.loadDirectoryConfig created updated input s with
  | (Returned out, s') =>
      s' = s /\ resolvable s input = true
      /\ Step1Output.use_step0_html out
         = is_some (Step1Input.from_step0 input)
  | (Thrown m, s') =>
      s' = s /\ resolvable s input = false /\ m = LoadConfig.errorMessage
  end.
Proof.
  rewrite loadDirectoryConfig_lookup. unfold resolvable.
  destruct (Step1Input.from_step0 input) as [step0|];
    destruct (stored_directory s input) as [d|]; cbn [is_some orb andb];
    try (destruct (JS.truthy (Step1Input.url input)));
    cbv zeta; cbn [Step1Output.use_step0_html]; auto.
Qed.

Lemma or_else_default a d : JS.truthy d = true -> JS.truthy (LoadConfig.or_else a d) = true.
Proof.
  intros H. unfold LoadConfig.or_else. destruct (JS.truthy a) eqn:E; assumption.
Qed.

Lemma load_more_sane config :
  match
    match ScrapeConfig.load_more_selector config with
    | Some sel =>
        if negb (String.eqb sel "") then
          Some {| LoadMoreConfig.selector := sel;
                  LoadMoreConfig.max_clicks := 30;
                  LoadMoreConfig.wait_between_clicks_ms :=
                    LoadConfig.or_1000 (ScrapeConfig.wait_after_load_ms config) |}
        else None
    | None => None
    end
  with
  | Some lm =>
      LoadMoreConfig.selector lm <> ""
      /\ LoadMoreConfig.max_clicks lm = 30
      /\ LoadMoreConfig.wait_between_clicks_ms lm <> 0
  | None => True
  end.
Proof.
  destruct (ScrapeConfig.load_more_selector config) as [sel|]; [|exact I].
  destruct (String.eqb_spec sel ""); cbn [negb]; [exact I|].
  cbn [LoadMoreConfig.selector LoadMoreConfig.max_clicks
       LoadMoreConfig.wait_between_clicks_ms].
  split; [assumption|]. split; [reflexivity|].
  unfold LoadConfig.or_1000.
  destruct (ScrapeConfig.wait_after_load_ms config) as [v|]; [|discriminate].
  destruct (Z.eqb_spec v 0); [discriminate|assumption].
Qed.

(** X24.  Whenever [loadDirectoryConfig] returns, each of the nine selectors of
    its output is a non-empty string, and a [load_more_config], if
    present, has a non-empty selector, a limit of 30 clicks and a waiting
    time that is not 0. *)
Theorem loadDirectoryConfig_selectors_populated created updated input s :
  match fst (LoadConfig.loadDirectoryConfig created updated input s) with
  | Returned out =>
      all_populated (Step1Output.selectors out) = true
      /\ match Step1Output.load_more_config out with
         | Some lm =>
             LoadMoreConfig.selector lm <> ""
             /\ LoadMoreConfig.max_clicks lm = 30
             /\ LoadMoreConfig.wait_between_clicks_ms lm <> 0
         | None => True
         end
  | Thrown _ => True
  end.
Proof.
  rewrite loadDirectoryConfig_lookup.
  destruct (Step1Input.from_step0 input) as [step0|];
    destruct (stored_directory s input) as [d|];
    try (destruct (JS.truthy (Step1Input.url input))); try exact I;
    cbv zeta; cbn [fst Step1Output.selectors Step1Output.load_more_config];
    (split;
     [unfold all_populated;
      cbn [Selectors.card Selectors.name Selectors.title Selectors.email
           Selectors.phone Selectors.office Selectors.website Selectors.photo
           Selectors.research_areas];
      rewrite !or_else_default by reflexivity; reflexivity|]);
    apply load_more_sane.
Qed.

(** X25.  With a Step 0 analysis, the selectors for card, name, title and email
    are the discovered ones, or the defaults where Step 0 discovered
    none: a stored selector for these keys is never used.  For a stored
    directory the same holds for phone, website and photo, while office
    and research areas come from the stored configuration (or the
    defaults); without a stored directory these five are the defaults,
    whatever Step 0 discovered, and the directory is a stand-in with
    identity 0 for the given URL. *)
Theorem loadDirectoryConfig_step0_takes_precedence created updated input s
    step0 :
  Step1Input.from_step0 input = Some step0 ->
  match fst (LoadConfig.loadDirectoryConfig created updated input s) with
  | Returned out =>
      let discovered := Step0Output.selectors_discovered step0 in
      let sel := Step1Output.selectors out in
      let pick a (f : Selectors.t -> option string) :=
        LoadConfig.or_else a (f LoadConfig.defaultSelectors) in
      Selectors.card sel
      = pick (SelectorsDiscovered.researcher_card discovered) Selectors.card
      /\ Selectors.name sel
         = pick (SelectorsDiscovered.name discovered) Selectors.name
      /\ Selectors.title sel
         = pick (SelectorsDiscovered.title discovered) Selectors.title
      /\ Selectors.email sel
         = pick (SelectorsDiscovered.email discovered) Selectors.email
      /\ match stored_directory s input with
         | Some d =>
             Selectors.phone sel
             = pick (SelectorsDiscovered.phone discovered) Selectors.phone
             /\ Selectors.website sel
                = pick (SelectorsDiscovered.website discovered) Selectors.website
             /\ Selectors.photo sel
                = pick (SelectorsDiscovered.photo discovered) Selectors.photo
             /\ Selectors.office sel
                = pick (Selectors.office (stored_selectors d)) Selectors.office
             /\ Selectors.research_areas sel
                = pick (Selectors.research_areas (stored_selectors d))
                       Selectors.research_areas
             /\ Step1Output.url out = Directory.directory_url d
         | None =>
             Selectors.phone sel = Selectors.phone LoadConfig.defaultSelectors
             /\ Selectors.website sel
                = Selectors.website LoadConfig.defaultSelectors
             /\ Selectors.photo sel = Selectors.photo LoadConfig.defaultSelectors
             /\ Selectors.office sel
                = Selectors.office LoadConfig.defaultSelectors
             /\ Selectors.research_areas sel
                = Selectors.research_areas LoadConfig.defaultSelectors
             /\ Some (Step1Output.url out) = Step1Input.url input
             /\ Directory.id (Step1Output.directory out) = 0
         end
  | Thrown _ => True
  end.
Proof.
  intros Hs0. rewrite loadDirectoryConfig_lookup, Hs0.
  destruct (stored_directory s input) as [d|].
  - cbv zeta. cbn. unfold stored_selectors. repeat split.
  - destruct (Step1Input.url input) as [url|]; cbn [JS.truthy];
      [|exact I].
    destruct (String.eqb url ""); cbn [negb fst]; [exact I|].
    cbv zeta. cbn. repeat split.
Qed.

Lemma loadDirectoryConfig_step0_takes_precedence_witness :
  match
    fst (LoadConfig.loadDirectoryConfig Demo.now Demo.now request
           (Demo.world "body"))
  with
  | Returned out =>
      Selectors.card (Step1Output.selectors out) = Some ".person"
      /\ Selectors.name (Step1Output.selectors out)
         = Selectors.name LoadConfig.defaultSelectors
  | Thrown _ => False
  end.
Proof.
  pose proof (loadDirectoryConfig_step0_takes_precedence Demo.now Demo.now
                request (Demo.world "body") analysis eq_refl) as H.
  cbv zeta in H. revert H.
  destruct (fst (LoadConfig.loadDirectoryConfig Demo.now Demo.now request
                   (Demo.world "body"))) as [out|m] eqn:E.
  - intros (H1 & H2 & _). split; [exact H1|exact H2].
  - vm_compute in E. discriminate E.
Defined.

End LoadConfigLaws.

(* ===================================================================== *)
(** * Properties of the normalizer and of the researcher parser *)
(* ===================================================================== *)

Module ParserLaws.

Import ParserAux.

(** ** Characters *)

Lemma lower_ascii_space c :
  Normalizer.is_space (JS.lower_ascii c) = Normalizer.is_space c.
Proof. destruct c as [[] [] [] [] [] [] [] []]; reflexivity. Qed.

Lemma lower_ascii_twice c : JS.lower_ascii (JS.lower_ascii c) = JS.lower_ascii c.
Proof. destruct c as [[] [] [] [] [] [] [] []]; reflexivity. Qed.

Lemma is_at_eq c : JS.is_at c = true -> c = "@"%char.
Proof. unfold JS.is_at. apply Ascii.eqb_eq. Qed.

Lemma digit_is_kept c :
  JS.is_digit c = true -> Normalizer.digit_or_plus c = true.
Proof. intros H. unfold Normalizer.digit_or_plus. rewrite H. reflexivity. Qed.

(** ** [toLowerCase] and [trim] *)

Lemma toLowerCase_twice s : JS.toLowerCase (JS.toLowerCase s) = JS.toLowerCase s.
Proof.
  induction s as [|c s IH]; cbn [JS.toLowerCase]; [reflexivity|].
  rewrite lower_ascii_twice, IH. reflexivity.
Qed.

Lemma toLowerCase_trimStart s :
  JS.toLowerCase (Normalizer.trimStart s)
  = Normalizer.trimStart (JS.toLowerCase s).
Proof.
  induction s as [|c s IH]; cbn [JS.toLowerCase Normalizer.trimStart];
    [reflexivity|].
  rewrite lower_ascii_space. destruct (Normalizer.is_space c); [exact IH|].
  reflexivity.
Qed.

Lemma toLowerCase_trimEnd s :
  JS.toLowerCase (Normalizer.trimEnd s)
  = Normalizer.trimEnd (JS.toLowerCase s).
Proof.
  induction s as [|c s IH]; cbn [JS.toLowerCase Normalizer.trimEnd];
    [reflexivity|].
  rewrite <- IH, lower_ascii_space.
  destruct (Normalizer.trimEnd s) as [|c' r']; cbn [JS.toLowerCase].
  - destruct (Normalizer.is_space c); reflexivity.
  - reflexivity.
Qed.

Lemma toLowerCase_trim s :
  JS.toLowerCase (Normalizer.trim s) = Normalizer.trim (JS.toLowerCase s).
Proof.
  unfold Normalizer.trim. rewrite toLowerCase_trimEnd, toLowerCase_trimStart.
  reflexivity.
Qed.

Lemma no_space_trim s : no_space s = true -> Normalizer.trim s = s.
Proof.
  intros H. unfold Normalizer.trim.
  assert (Hs : Normalizer.trimStart s = s).
  { destruct s as [|c r]; [reflexivity|]. cbn [no_space] in H.
    apply andb_true_iff in H as [H _]. cbn [Normalizer.trimStart].
    destruct (Normalizer.is_space c); [discriminate|reflexivity]. }
  rewrite Hs. clear Hs.
  induction s as [|c r IH]; [reflexivity|]. cbn [no_space] in H.
  apply andb_true_iff in H as [Hc Hr]. cbn [Normalizer.trimEnd].
  rewrite (IH Hr). destruct r as [|c' r']; [|reflexivity].
  destruct (Normalizer.is_space c); [discriminate|reflexivity].
Qed.

Lemma all_plain_no_space s : Normalizer.all_plain s = true -> no_space s = true.
Proof.
  induction s as [|c r IH]; [reflexivity|].
  cbn [Normalizer.all_plain no_space]. unfold Normalizer.plain.
  rewrite !andb_true_iff. intros [[Hc _] Hr]. split; [exact Hc|exact (IH Hr)].
Qed.

Lemma all_plain_until_at s : Normalizer.all_plain s = true -> JS.until_at s = s.
Proof.
  induction s as [|c r IH]; [reflexivity|].
  cbn [Normalizer.all_plain JS.until_at]. unfold Normalizer.plain.
  rewrite !andb_true_iff. intros [[_ Hc] Hr].
  destruct (JS.is_at c); [discriminate|]. rewrite (IH Hr). reflexivity.
Qed.

Lemma no_space_app a b :
  no_space (a +:+ b) = no_space a && no_space b.
Proof.
  induction a as [|c a IH]; [reflexivity|].
  change (String c a +:+ b) with (String c (a +:+ b)). cbn [no_space].
  rewrite IH, andb_assoc. reflexivity.
Qed.

(** A text with an at-sign is the part before the first at-sign, the
    at-sign, and the rest. *)
Lemma until_after_at s d :
  JS.after_at s = Some d -> s = JS.until_at s +:+ "@" +:+ d.
Proof.
  induction s as [|c r IH]; cbn [JS.after_at JS.until_at]; [discriminate|].
  destruct (JS.is_at c) eqn:Ec.
  - intros H. injection H as <-. apply is_at_eq in Ec as ->. reflexivity.
  - intros H.
    change (String c (JS.until_at r) +:+ "@" +:+ d)
      with (String c (JS.until_at r +:+ "@" +:+ d)).
    f_equal. apply IH, H.
Qed.

Lemma has_inner_dot_nonempty d : Normalizer.has_inner_dot d = true -> d <> "".
Proof. destruct d; [discriminate|discriminate]. Qed.

(** ** Emails *)

Lemma isValidEmail_shape n :
  Normalizer.isValidEmail n = true ->
  exists domain,
    JS.after_at n = Some domain
    /\ JS.until_at n <> ""
    /\ Normalizer.all_plain (JS.until_at n) = true
    /\ Normalizer.all_plain domain = true
    /\ Normalizer.has_inner_dot domain = true.
Proof.
  unfold Normalizer.isValidEmail.
  destruct (JS.after_at n) as [domain|]; [|discriminate].
  rewrite !andb_true_iff, negb_true_iff. intros [[[H1 H2] H3] H4].
  exists domain. split; [reflexivity|]. split; [|auto].
  intros E. rewrite E in H1. discriminate.
Qed.

Lemma parseEmail_normal email n :
  ResearcherParser.parseEmail email = Some n -> normal_email (Some n).
Proof.
  unfold ResearcherParser.parseEmail. cbv zeta.
  destruct (Normalizer.isValidEmail (Normalizer.normalizeEmail email)) eqn:Hv;
    [|discriminate].
  intros H. injection H as <-.
  set (n := Normalizer.normalizeEmail email) in *.
  destruct (isValidEmail_shape n Hv) as (domain & Hafter & Hne & Hl & Hd & Hdot).
  pose proof (until_after_at n domain Hafter) as Hn.
  assert (Hlow : JS.toLowerCase n = n).
  { unfold n, Normalizer.normalizeEmail.
    rewrite toLowerCase_trim, toLowerCase_twice. reflexivity. }
  assert (Hns : no_space n = true).
  { rewrite Hn, !no_space_app. rewrite (all_plain_no_space _ Hl).
    rewrite (all_plain_no_space _ Hd). reflexivity. }
  split; [|split; [exact Hlow|]].
  - intros E. rewrite E in Hafter. discriminate.
  - unfold ResearcherParser.parseEmail, Normalizer.normalizeEmail at 1 2.
    rewrite Hlow, (no_space_trim n Hns), Hv. reflexivity.
Qed.

(** X26.  What [parseEmail] accepts.  The result is the trimmed lower-case form
    of the input; it is a fixed point of [toLowerCase] and of [parseEmail]
    itself; and it consists of a non-empty part without spaces, one
    at-sign, and a domain, the text that [split('@')[1]] returns, which
    has no spaces and a dot inside. *)
Theorem parseEmail_accepts_normal_form email n :
  ResearcherParser.parseEmail email = Some n ->
  n = Normalizer.normalizeEmail email
  /\ JS.toLowerCase n = n
  /\ ResearcherParser.parseEmail n = Some n
  /\ exists domain,
       n = JS.until_at n +:+ "@" +:+ domain
       /\ JS.until_at n <> ""
       /\ JS.split_at_1 n = Some domain
       /\ no_space n = true
       /\ Normalizer.has_inner_dot domain = true.
Proof.
  unfold ResearcherParser.parseEmail. cbv zeta.
  destruct (Normalizer.isValidEmail (Normalizer.normalizeEmail email)) eqn:Hv;
    [|discriminate].
  intros H. injection H as <-.
  set (n := Normalizer.normalizeEmail email) in *.
  destruct (isValidEmail_shape n Hv) as (domain & Hafter & Hne & Hl & Hd & Hdot).
  pose proof (until_after_at n domain Hafter) as Hn.
  assert (Hlow : JS.toLowerCase n = n).
  { unfold n, Normalizer.normalizeEmail.
    rewrite toLowerCase_trim, toLowerCase_twice. reflexivity. }
  assert (Hns : no_space n = true).
  { rewrite Hn, !no_space_app. rewrite (all_plain_no_space _ Hl).
    rewrite (all_plain_no_space _ Hd). reflexivity. }
  split; [reflexivity|]. split; [exact Hlow|]. split.
  - unfold Normalizer.normalizeEmail at 1 2. rewrite Hlow.
    rewrite (no_space_trim n Hns), Hv. reflexivity.
  - exists domain. split; [exact Hn|]. split; [exact Hne|].
    split; [|split; [exact Hns|exact Hdot]].
    unfold JS.split_at_1. rewrite Hafter. cbn [option_map].
    rewrite (all_plain_until_at _ Hd). reflexivity.
Qed.

Lemma parseEmail_accepts_normal_form_witness :
  let n := "john.doe@example.edu" in
  n = Normalizer.normalizeEmail "  John.Doe@EXAMPLE.EDU "
  /\ JS.toLowerCase n = n
  /\ ResearcherParser.parseEmail n = Some n
  /\ exists domain,
       n = JS.until_at n +:+ "@" +:+ domain
       /\ JS.until_at n <> ""
       /\ JS.split_at_1 n = Some domain
       /\ no_space n = true
       /\ Normalizer.has_inner_dot domain = true.
Proof.
  apply parseEmail_accepts_normal_form. reflexivity.
Defined.

(** ** Phone numbers *)

Lemma digits_app a b : JS.digits (a +:+ b) = JS.digits a +:+ JS.digits b.
Proof.
  induction a as [|c a IH]; [reflexivity|].
  change (String c a +:+ b) with (String c (a +:+ b)). cbn [JS.digits].
  rewrite IH. destruct (JS.is_digit c); reflexivity.
Qed.

Lemma digits_keep_chars s :
  JS.digits (Normalizer.keep_chars Normalizer.digit_or_plus s) = JS.digits s.
Proof.
  induction s as [|c s IH]; [reflexivity|].
  cbn [Normalizer.keep_chars JS.digits].
  destruct (JS.is_digit c) eqn:Ed.
  - rewrite (digit_is_kept c Ed). cbn [JS.digits]. rewrite Ed, IH. reflexivity.
  - destruct (Normalizer.digit_or_plus c); [cbn [JS.digits]; rewrite Ed|];
      exact IH.
Qed.

Lemma take_drop n s : Normalizer.take n s +:+ Normalizer.drop n s = s.
Proof.
  revert s. induction n as [|n IH]; intros s; [reflexivity|].
  destruct s as [|c r]; [reflexivity|].
  cbn [Normalizer.take Normalizer.drop].
  change (String c (Normalizer.take n r) +:+ Normalizer.drop n r)
    with (String c (Normalizer.take n r +:+ Normalizer.drop n r)).
  rewrite IH. reflexivity.
Qed.

Lemma drop_drop a b s :
  Normalizer.drop a (Normalizer.drop b s) = Normalizer.drop (b + a) s.
Proof.
  revert s. induction b as [|b IH]; intros s; [reflexivity|].
  destruct s as [|c r]; [destruct a; reflexivity|].
  cbn [Normalizer.drop Nat.add]. apply IH.
Qed.

(** The digits of three consecutive slices are the digits of the text. *)
Lemma digits_slices s :
  JS.digits (Normalizer.take 3 s) +:+ JS.digits (Normalizer.take 3 (Normalizer.drop 3 s))
  +:+ JS.digits (Normalizer.drop 6 s)
  = JS.digits s.
Proof.
  rewrite <- !digits_app.
  change 6%nat with (3 + 3)%nat. rewrite <- drop_drop.
  rewrite take_drop, take_drop. reflexivity.
Qed.

Lemma normalizePhone_digits phone :
  JS.digits (Normalizer.normalizePhone phone) = JS.digits phone.
Proof.
  unfold Normalizer.normalizePhone. cbv zeta.
  rewrite <- (digits_keep_chars phone).
  set (d := Normalizer.keep_chars Normalizer.digit_or_plus phone).
  destruct (Nat.eqb (String.length d) 10).
  - unfold Normalizer.slice, Normalizer.slice_from.
    cbn [Nat.sub Normalizer.drop]. rewrite !digits_app.
    change (JS.digits "(") with "". change (JS.digits ") ") with "".
    change (JS.digits "-") with "". cbn [String.append].
    apply digits_slices.
  - destruct (Nat.eqb (String.length d) 11 && String.prefix "1" d) eqn:E;
      [|reflexivity].
    apply andb_true_iff in E as [_ E].
    destruct d as [|c r]; [discriminate|].
    cbn [String.prefix] in E.
    destruct (Ascii.ascii_dec "1" c) as [<-|]; [|discriminate].
    unfold Normalizer.slice, Normalizer.slice_from.
    cbn [Nat.sub Normalizer.drop]. rewrite !digits_app.
    change (JS.digits "+1 (") with "1". change (JS.digits ") ") with "".
    change (JS.digits "-") with "".
    change (JS.digits (String "1" r)) with (String "1"%char (JS.digits r)).
    cbn [String.append]. f_equal.
    change (Normalizer.drop 3 r) with (Normalizer.drop 3 r).
    apply digits_slices.
Qed.

(** X27.  [normalizePhone] keeps the digits of a phone number, in their order;
    so two phone numbers have equal digits after normalization exactly
    when they had before, which is what the phone signal of step 6
    compares.  [parsePhone] rejects exactly the texts with fewer than ten
    digits and returns the normalized text otherwise. *)
Theorem parsePhone_keeps_digits phone :
  JS.digits (Normalizer.normalizePhone phone) = JS.digits phone
  /\ ResearcherParser.parsePhone phone
     = (if Nat.ltb (digit_count phone) 10 then None
        else Some (Normalizer.normalizePhone phone))
  /\ forall other,
       String.eqb (JS.digits (Normalizer.normalizePhone phone))
                  (JS.digits (Normalizer.normalizePhone other))
       = String.eqb (JS.digits phone) (JS.digits other).
Proof.
  split; [apply normalizePhone_digits|]. split.
  - unfold ResearcherParser.parsePhone, digit_count. cbv zeta.
    rewrite normalizePhone_digits. reflexivity.
  - intros other. rewrite !normalizePhone_digits. reflexivity.
Qed.

End ParserLaws.

(* ===================================================================== *)
(** * Properties of step 5 *)
(* ===================================================================== *)

Module ParseNormalizeLaws.

Import ParserAux.

Lemma parsePhone_full text p :
  ResearcherParser.parsePhone text = Some p -> full_phone (Some p).
Proof.
  unfold ResearcherParser.parsePhone, full_phone, digit_count. cbv zeta.
  destruct (Nat.ltb_spec (String.length
                            (JS.digits (Normalizer.normalizePhone text))) 10);
    [discriminate|].
  intros E. injection E as <-. assumption.
Qed.

Section WithParsers.

Variable cleanHtml : string -> string.
Variable normalizeWhitespace : string -> string.
Variable parseName : string -> Outcome ParsedName.t.
Variable parseTitle : string -> Outcome string.
Variable parseWebsite : string -> Outcome (option string).
Variable parseResearchAreas : string -> Outcome (list string).

Variable university department : string.

Lemma sound_when_present text step b :
  (forall v b', sound university department b' ->
     sound university department (step v b')) ->
  sound university department b ->
  sound university department (ParseNormalize.when_present text step b).
Proof.
  intros Hstep Hb. unfold ParseNormalize.when_present.
  destruct text as [v|]; [|exact Hb].
  destruct (negb (String.eqb v "")); [apply Hstep, Hb|exact Hb].
Qed.

Lemma sound_push card field message raw b :
  String.eqb field "name" = false ->
  sound university department b ->
  sound university department
    (ParseNormalize.push (ParseNormalize.error card field message raw) b).
Proof.
  intros Hf [Hw He]. split; [exact Hw|].
  cbn [ParseNormalize.push snd]. apply List.Forall_app. split; [exact He|].
  apply List.Forall_cons; [exact Hf|apply List.Forall_nil].
Qed.

Lemma sound_update f b :
  (forall r, well_parsed university department r ->
     well_parsed university department (f r)) ->
  sound university department b ->
  sound university department (ParseNormalize.update f b).
Proof.
  intros Hf [Hw He]. split; [apply Hf, Hw|exact He].
Qed.

Lemma well_parsed_fields r r' :
  ParsedResearcher.university r' = ParsedResearcher.university r ->
  ParsedResearcher.department r' = ParsedResearcher.department r ->
  ParsedResearcher.first_name r' = ParsedResearcher.first_name r ->
  ParsedResearcher.last_name r' = ParsedResearcher.last_name r ->
  normal_email (ParsedResearcher.email r') ->
  full_phone (ParsedResearcher.phone r') ->
  well_parsed university department r ->
  well_parsed university department r'.
Proof.
  unfold well_parsed. intros -> -> -> -> He Hp (Hu & Hd & Hn & _ & _). auto.
Qed.

Lemma sound_parse_title card b :
  sound university department b ->
  sound university department
    (ParseNormalize.parse_title cleanHtml parseTitle card b).
Proof.
  intros Hb. unfold ParseNormalize.parse_title.
  apply sound_when_present; [|exact Hb]. intros v b' Hb'.
  destruct (parseTitle (cleanHtml v)) as [title|m].
  - apply sound_update; [|exact Hb']. intros r Hr.
    apply (well_parsed_fields r); try reflexivity; apply Hr.
  - apply sound_push; [reflexivity|exact Hb'].
Qed.

Lemma sound_parse_email card b :
  sound university department b ->
  sound university department (ParseNormalize.parse_email card b).
Proof.
  intros Hb. unfold ParseNormalize.parse_email.
  apply sound_when_present; [|exact Hb]. intros v b' Hb'.
  destruct (ResearcherParser.parseEmail v) as [email|] eqn:He.
  - destruct (negb (String.eqb email "")).
    + apply sound_update; [|exact Hb']. intros r Hr.
      apply (well_parsed_fields r); try reflexivity;
        [exact (ParserLaws.parseEmail_normal v email He)|apply Hr|exact Hr].
    + apply sound_push; [reflexivity|exact Hb'].
  - apply sound_push; [reflexivity|exact Hb'].
Qed.

Lemma sound_parse_phone card b :
  sound university department b ->
  sound university department (ParseNormalize.parse_phone card b).
Proof.
  intros Hb. unfold ParseNormalize.parse_phone.
  apply sound_when_present; [|exact Hb]. intros v b' Hb'.
  destruct (ResearcherParser.parsePhone v) as [phone|] eqn:Hp; [|exact Hb'].
  destruct (negb (String.eqb phone "")); [|exact Hb'].
  apply sound_update; [|exact Hb']. intros r Hr.
  apply (well_parsed_fields r); try reflexivity;
    [apply Hr|exact (parsePhone_full v phone Hp)|exact Hr].
Qed.

Lemma sound_parse_office card b :
  sound university department b ->
  sound university department
    (ParseNormalize.parse_office cleanHtml normalizeWhitespace card b).
Proof.
  intros Hb. unfold ParseNormalize.parse_office.
  apply sound_when_present; [|exact Hb]. intros v b' Hb'.
  apply sound_update; [|exact Hb']. intros r Hr.
  apply (well_parsed_fields r); try reflexivity; apply Hr.
Qed.

Lemma sound_parse_website card b :
  sound university department b ->
  sound university department
    (ParseNormalize.parse_website parseWebsite card b).
Proof.
  intros Hb. unfold ParseNormalize.parse_website.
  apply sound_when_present; [|exact Hb]. intros v b' Hb'.
  destruct (parseWebsite v) as [[website|]|m]; [|exact Hb'|].
  - destruct (negb (String.eqb website "")); [|exact Hb'].
    apply sound_update; [|exact Hb']. intros r Hr.
    apply (well_parsed_fields r); try reflexivity; apply Hr.
  - apply sound_push; [reflexivity|exact Hb'].
Qed.

Lemma sound_parse_photo card b :
  sound university department b ->
  sound university department
    (ParseNormalize.parse_photo parseWebsite card b).
Proof.
  intros Hb. unfold ParseNormalize.parse_photo.
  apply sound_when_present; [|exact Hb]. intros v b' Hb'.
  destruct (parseWebsite v) as [[photo|]|m]; [|exact Hb'|exact Hb'].
  destruct (negb (String.eqb photo "")); [|exact Hb'].
  apply sound_update; [|exact Hb']. intros r Hr.
  apply (well_parsed_fields r); try reflexivity; apply Hr.
Qed.

Lemma sound_parse_research_areas card b :
  sound university department b ->
  sound university department
    (ParseNormalize.parse_research_areas cleanHtml parseResearchAreas card b).
Proof.
  intros Hb. unfold ParseNormalize.parse_research_areas.
  apply sound_when_present; [|exact Hb]. intros v b' Hb'.
  destruct (parseResearchAreas (cleanHtml v)) as [areas|m].
  - destruct (0 <? Z.of_nat (length areas)); [|exact Hb'].
    apply sound_update; [|exact Hb']. intros r Hr.
    apply (well_parsed_fields r); try reflexivity; apply Hr.
  - apply sound_push; [reflexivity|exact Hb'].
Qed.

(** [parseCard] either emits a well-parsed researcher, with errors that
    are not about the name, or drops the card with exactly one error
    about the name. *)
Lemma parseCard_cases card :
  match ParseNormalize.parseCard cleanHtml normalizeWhitespace parseName
          parseTitle parseWebsite parseResearchAreas card university department
  with
  | (Some r, errors) =>
      well_parsed university department r
      /\ Forall (fun e => is_name_error e = false) errors
  | (None, errors) =>
      exists e, errors = [e] /\ is_name_error e = true
  end.
Proof.
  unfold ParseNormalize.parseCard.
  destruct (RawCard.name_text card) as [name_text|];
    [|eexists; split; reflexivity].
  destruct (String.eqb name_text ""); [eexists; split; reflexivity|].
  destruct (parseName (cleanHtml name_text)) as [parsedName|m];
    [|eexists; split; reflexivity].
  destruct (String.eqb (ParsedName.first_name parsedName) ""
            && String.eqb (ParsedName.last_name parsedName) "") eqn:En;
    [eexists; split; reflexivity|].
  cbv zeta.
  apply sound_parse_research_areas, sound_parse_photo, sound_parse_website,
    sound_parse_office, sound_parse_phone, sound_parse_email,
    sound_parse_title.
  split; [|apply List.Forall_nil].
  unfold well_parsed.
  cbn [fst ParsedResearcher.university ParsedResearcher.department
       ParsedResearcher.first_name ParsedResearcher.last_name
       ParsedResearcher.email ParsedResearcher.phone normal_email full_phone].
  split; [reflexivity|]. split; [reflexivity|]. split; [|split; exact I].
  apply andb_false_iff in En as [En|En]; apply String.eqb_neq in En; auto.
Qed.

End WithParsers.

Lemma count_of_app {A} (f : A -> bool) (l l' : list A) :
  count_of f (l ++ l') = count_of f l + count_of f l'.
Proof.
  unfold count_of, Dedup.len. rewrite List.filter_app, length_app. lia.
Qed.

Lemma count_of_one {A} (f : A -> bool) (x : A) :
  count_of f [x] = if f x then 1 else 0.
Proof. unfold count_of, Dedup.len. cbn. destruct (f x); reflexivity. Qed.

Lemma count_of_none {A} (f : A -> bool) (l : list A) :
  Forall (fun x => f x = false) l -> count_of f l = 0.
Proof.
  intros H. unfold count_of. rewrite MergeFacts.filter_none; [reflexivity|].
  apply List.Forall_forall, H.
Qed.

Lemma count_step (b : bool) (n : Z) :
  ParseNormalize.count b n = n + (if b then 1 else 0).
Proof. destruct b; cbn; lia. Qed.

Section Loop.

Variable cleanHtml : string -> string.
Variable normalizeWhitespace : string -> string.
Variable parseName : string -> Outcome ParsedName.t.
Variable parseTitle : string -> Outcome string.
Variable parseWebsite : string -> Outcome (option string).
Variable parseResearchAreas : string -> Outcome (list string).

Lemma loop_body_counted university department n l card :
  counted n l /\ Forall (well_parsed university department)
                        (ParseNormalize.researchers l) ->
  let l' := ParseNormalize.loop_body cleanHtml normalizeWhitespace parseName
              parseTitle parseWebsite parseResearchAreas
              university department l card in
  counted (n + 1) l'
  /\ Forall (well_parsed university department) (ParseNormalize.researchers l').
Proof.
  intros [(H1 & H2 & H3 & H4 & H5) Hw]. cbv zeta.
  unfold ParseNormalize.loop_body.
  pose proof (parseCard_cases cleanHtml normalizeWhitespace parseName
                parseTitle parseWebsite parseResearchAreas
                university department card) as Hc.
  destruct (ParseNormalize.parseCard _ _ _ _ _ _ card university department)
    as [[r|] errors].
  - destruct Hc as [Hr He]. unfold counted.
    cbn [ParseNormalize.researchers ParseNormalize.parseErrors
         ParseNormalize.stats NormalizationStats.total_parsed
         NormalizationStats.emails_normalized NormalizationStats.names_split
         NormalizationStats.titles_standardized].
    rewrite !count_of_app, !count_of_one, !count_step, (count_of_none _ _ He).
    fold (has_email r) (has_title r) (has_both_names r).
    unfold Dedup.len in *. rewrite length_app. cbn [length].
    split; [|apply List.Forall_app; split;
              [exact Hw|apply List.Forall_cons; [exact Hr|apply List.Forall_nil]]].
    repeat split; lia.
  - destruct Hc as (e & -> & He). unfold counted.
    cbn [ParseNormalize.researchers ParseNormalize.parseErrors
         ParseNormalize.stats].
    rewrite count_of_app, count_of_one, He.
    split; [|exact Hw]. repeat split; try assumption; lia.
Qed.

Lemma fold_counted university department cards :
  forall n l,
    counted n l /\ Forall (well_parsed university department)
                          (ParseNormalize.researchers l) ->
    let l' := fold_left
                (ParseNormalize.loop_body cleanHtml normalizeWhitespace
                   parseName parseTitle parseWebsite parseResearchAreas
                   university department) cards l in
    counted (n + Dedup.len cards) l'
    /\ Forall (well_parsed university department)
              (ParseNormalize.researchers l').
Proof.
  induction cards as [|card cards IH]; intros n l H; cbn [fold_left]; cbv zeta.
  - unfold Dedup.len. cbn [length]. rewrite Z.add_0_r. exact H.
  - replace (n + Dedup.len (card :: cards)) with (n + 1 + Dedup.len cards)
      by (unfold Dedup.len; cbn [length]; lia).
    apply IH. apply (loop_body_counted university department n l card H).
Qed.

Lemma parseAndNormalize_spec input :
  let out := ParseNormalize.parseAndNormalize cleanHtml normalizeWhitespace
               parseName parseTitle parseWebsite parseResearchAreas input in
  counted (Dedup.len (Step5Input.raw_cards input))
    (ParseNormalize.mkLocals (Step5Output.researchers out)
       (Step5Output.parse_errors out) (Step5Output.normalization_stats out))
  /\ Forall (well_parsed (Step5Input.university input)
                         (Step5Input.department input))
            (Step5Output.researchers out).
Proof.
  cbv zeta. unfold ParseNormalize.parseAndNormalize. cbv zeta.
  cbn [Step5Output.researchers Step5Output.parse_errors
       Step5Output.normalization_stats].
  pose proof (fold_counted (Step5Input.university input)
                (Step5Input.department input) (Step5Input.raw_cards input) 0
                (ParseNormalize.mkLocals [] [] (NormalizationStats.mk 0 0 0 0)))
    as H.
  cbv zeta in H. rewrite Z.add_0_l in H.
  match type of H with
  | _ -> counted _ ?l /\ _ => destruct l as [rs es st] eqn:El
  end.
  cbn [ParseNormalize.researchers ParseNormalize.parseErrors
       ParseNormalize.stats] in *.
  apply H. split; [|apply List.Forall_nil].
  unfold counted, count_of, Dedup.len. cbn. repeat split.
Qed.

(** X28.  Step 5 accounts for every card: a card yields one researcher, or is
    dropped with exactly one error on its name, so that the researchers and
    the name errors add up to the cards.  The counters are exact:
    [total_parsed] is the number of researchers, and the three others
    count the researchers with a non-empty email, with both names, and
    with a non-empty title. *)
Theorem parseAndNormalize_accounts_for_every_card input :
  let out := ParseNormalize.parseAndNormalize cleanHtml normalizeWhitespace
               parseName parseTitle parseWebsite parseResearchAreas input in
  let stats := Step5Output.normalization_stats out in
  Dedup.len (Step5Output.researchers out)
  + count_of is_name_error (Step5Output.parse_errors out)
  = Dedup.len (Step5Input.raw_cards input)
  /\ NormalizationStats.total_parsed stats
     = Dedup.len (Step5Output.researchers out)
  /\ NormalizationStats.emails_normalized stats
     = count_of has_email (Step5Output.researchers out)
  /\ NormalizationStats.names_split stats
     = count_of has_both_names (Step5Output.researchers out)
  /\ NormalizationStats.titles_standardized stats
     = count_of has_title (Step5Output.researchers out).
Proof.
  exact (proj1 (parseAndNormalize_spec input)).
Qed.

(** X29.  Every researcher that step 5 emits carries the university and the
    department of the request and at least one name; its email, if any, is
    not empty, is in lower case and is accepted by [parseEmail] as it is;
    and its phone number, if any, has at least ten digits. *)
Theorem parseAndNormalize_emits_well_parsed input :
  Forall (well_parsed (Step5Input.university input)
                      (Step5Input.department input))
    (Step5Output.researchers
       (ParseNormalize.parseAndNormalize cleanHtml normalizeWhitespace
          parseName parseTitle parseWebsite parseResearchAreas input)).
Proof.
  exact (proj2 (parseAndNormalize_spec input)).
Qed.

End Loop.

End ParseNormalizeLaws.
